(** * The PDF extraction pipeline of [pdf_extraction_pipeline.py]

    A shallow embedding of [EfficientPDFExtractor]: the page extractor, the
    document extractor, the result serializer and the batch orchestrator,
    over a model of the PyMuPDF reader the code consumes.

    Conventions of the embedding.
    - A Python [str] is a [string] with one [ascii] per character (code
      points below 256).
    - A Python [int] is a [Z].
    - A Python [float] is a binary64 value of [SpecFloat] ([prec = 53],
      [emax = 1024]), with its arithmetic correctly rounded.
    - A call that can raise returns a sum: [inl] the exception, [inr] the
      value; a collaborator call that can raise is an [option] or a sum in
      the reader model. *)

From Stdlib Require Import ZArith List String Ascii Bool Lia.
From Stdlib Require Import SpecFloat Permutation Sorted.
Import ListNotations.

Set Warnings "-register-all".

Open Scope string_scope.
Open Scope Z_scope.

(** ** Strings as Python has them *)

Module PyStr.

(** [str.isspace] on the code points below 256. *)
Definition is_space (c : ascii) : bool :=
  let n := N_of_ascii c in
  (((9 <=? n) && (n <=? 13)) || ((28 <=? n) && (n <=? 32))
   || (n =? 133) || (n =? 160))%N.

(** [len(s)]. *)
Definition len (s : string) : Z := Z.of_nat (String.length s).

(** [len(text.split())]: the number of maximal runs of non-space
    characters.  [in_word] tells whether the previous character belonged to
    a word. *)
Fixpoint count_words_from (in_word : bool) (s : string) : Z :=
  match s with
  | EmptyString => 0
  | String c rest =>
      if is_space c then count_words_from false rest
      else (if in_word then 0 else 1) + count_words_from true rest
  end.

Definition split_len (s : string) : Z := count_words_from false s.

(** [s.lstrip()], [s.rstrip()] and [s.strip()]. *)
Fixpoint lstrip (s : string) : string :=
  match s with
  | EmptyString => EmptyString
  | String c rest => if is_space c then lstrip rest else s
  end.

Fixpoint rstrip (s : string) : string :=
  match s with
  | EmptyString => EmptyString
  | String c rest =>
      match rstrip rest with
      | EmptyString => if is_space c then EmptyString else String c EmptyString
      | r => String c r
      end
  end.

Definition strip (s : string) : string := rstrip (lstrip s).

(** [s.lower()] on the code points below 256: the ASCII capitals and the
    capitals of the Latin-1 block. *)
Definition lower_char (c : ascii) : ascii :=
  let n := N_of_ascii c in
  if (((65 <=? n) && (n <=? 90))
      || ((192 <=? n) && (n <=? 222) && negb (n =? 215)))%N
  then ascii_of_N (n + 32) else c.

Fixpoint lower (s : string) : string :=
  match s with
  | EmptyString => EmptyString
  | String c rest => String (lower_char c) (lower rest)
  end.

(** Truth value of a string: [if s]. *)
Definition truthy (s : string) : bool :=
  match s with EmptyString => false | _ => true end.

(** [s[:n]]. *)
Definition prefix (n : nat) (s : string) : string := String.substring 0 n s.

(** [c * n] for a one-character string, as in ['=' * 50]. *)
Fixpoint repeat_char (c : ascii) (n : nat) : string :=
  match n with
  | O => EmptyString
  | S k => String c (repeat_char c k)
  end.

End PyStr.

(** ** Decimal rendering of integers *)

Module PyInt.

Definition digit_char (d : Z) : ascii := ascii_of_N (48 + Z.to_N d).

(** The decimal digits of a non-negative number, most significant first,
    placed in front of [acc]. *)
Fixpoint digits_fuel (fuel : nat) (n : Z) (acc : string) : string :=
  match fuel with
  | O => acc
  | S f =>
      let acc' := String (digit_char (n mod 10)) acc in
      if n <? 10 then acc' else digits_fuel f (n / 10) acc'
  end.

Definition digits (n : Z) : string :=
  digits_fuel (S (Z.to_nat (Z.log2 n))) n EmptyString.

(** [str(n)]. *)
Definition str (n : Z) : string :=
  if n <? 0 then String "-" (digits (- n)) else digits n.

(** The digits of [s] in groups of three from the right, separated by
    commas; [k] is the number of digits of the leading group. *)
Fixpoint group3_from (k : nat) (s : string) : string :=
  match s with
  | EmptyString => EmptyString
  | String c rest =>
      match k with
      | O => String "," (String c (group3_from 2 rest))
      | S k' => String c (group3_from k' rest)
      end
  end.

Definition group3 (s : string) : string :=
  let n := String.length s in
  let lead := match Nat.modulo n 3 with O => 3%nat | r => r end in
  group3_from lead s.

(** [f"{n:,}"]. *)
Definition format_comma (n : Z) : string :=
  if n <? 0 then String "-" (group3 (digits (- n))) else group3 (digits n).

(** The digits of [n], zero-padded on the left to at least [w]. *)
Definition digits_padded (w : nat) (n : Z) : string :=
  let s := digits n in
  PyStr.repeat_char "0" (w - String.length s) ++ s.

End PyInt.


(** ** Python floats: binary64 *)

Module PyFloat.

Definition prec : Z := 53.
Definition emax : Z := 1024.

Definition float : Type := spec_float.

Definition zero : float := S754_zero false.

(** [float(n)] for an integer, correctly rounded. *)
Definition of_int (n : Z) : float := binary_normalize prec emax n 0 false.

(** [x / y], [x - y], [x < y] and [x > y]. *)
Definition div (x y : float) : float := SFdiv prec emax x y.
Definition sub (x y : float) : float := SFsub prec emax x y.
Definition ltb (x y : float) : bool := SFltb x y.
Definition gtb (x y : float) : bool := SFltb y x.

(** Structural equality of two floats (it tells [0.0] from [-0.0]). *)
Definition eqb (x y : float) : bool :=
  match x, y with
  | S754_zero s, S754_zero t => Bool.eqb s t
  | S754_infinity s, S754_infinity t => Bool.eqb s t
  | S754_nan, S754_nan => true
  | S754_finite s m e, S754_finite t n f =>
      Bool.eqb s t && Pos.eqb m n && Z.eqb e f
  | _, _ => false
  end.

Definition pos_part (z : Z) : Z := Z.max z 0.
Definition neg_part (z : Z) : Z := Z.max (- z) 0.

(** [m * 2^e / 10^p] as a fraction of two positive integers. *)
Definition scaled (m : positive) (e p : Z) : Z * Z :=
  (Zpos m * 2 ^ pos_part e * 10 ^ neg_part p,
   2 ^ neg_part e * 10 ^ pos_part p).

(** The integer nearest to [num / den], ties to even. *)
Definition round_half_even (num den : Z) : Z :=
  let q := num / den in
  let r := num mod den in
  match 2 * r ?= den with
  | Lt => q
  | Gt => q + 1
  | Eq => if Z.even q then q else q + 1
  end.

(** The digits of [f"{x:.{d}f}"] for a finite non-zero magnitude: the
    value is scaled by [10^d], rounded to the nearest integer and split at
    the decimal point.  [grp] renders the integer part. *)
Definition fixed_digits (grp : Z -> string) (d : nat) (m : positive) (e : Z)
  : string :=
  let '(num, den) := scaled m e (- Z.of_nat d) in
  let r := round_half_even num den in
  let ip := r / 10 ^ Z.of_nat d in
  let fp := r mod 10 ^ Z.of_nat d in
  match d with
  | O => grp ip
  | _ => grp ip ++ "." ++ PyInt.digits_padded d fp
  end.

Definition format_fixed_with (grp : Z -> string) (d : nat) (x : float)
  : string :=
  match x with
  | S754_zero s =>
      (if s then "-" else "") ++
      match d with
      | O => "0"
      | _ => "0." ++ PyStr.repeat_char "0" d
      end
  | S754_infinity s => if s then "-inf" else "inf"
  | S754_nan => "nan"
  | S754_finite s m e =>
      (if s then "-" else "") ++ fixed_digits grp d m e
  end.

(** [f"{x:.{d}f}"]. *)
Definition format_f (d : nat) (x : float) : string :=
  format_fixed_with PyInt.digits d x.

(** [f"{x:,.{d}f}"]. *)
Definition format_comma_f (d : nat) (x : float) : string :=
  format_fixed_with (fun n => PyInt.group3 (PyInt.digits n)) d x.

(** *** Decimal literals to floats and back *)

(** The float nearest to [d * 10^p] for [d >= 0] (ties to even): the
    quotient is computed with enough bits and a sticky bit, then rounded
    once. *)
Definition of_decimal (neg : bool) (d p : Z) : float :=
  if d =? 0 then S754_zero neg
  else
    let r :=
      if 0 <=? p then binary_normalize prec emax (d * 10 ^ p) 0 false
      else
        let den := 10 ^ (- p) in
        let k := pos_part (64 + Z.log2 den - Z.log2 d) in
        let q := (d * 2 ^ k) / den in
        let sticky := if (d * 2 ^ k) mod den =? 0 then 0 else 1 in
        binary_normalize prec emax (2 * q + sticky) (- k - 1) false
    in if neg then SFopp r else r.

(** Whether [m * 2^e >= 10^E]. *)
Definition ge_pow10 (m : positive) (e E : Z) : bool :=
  let '(num, den) := scaled m e E in den <=? num.

(** The decimal exponent of [m * 2^e]: the largest [E] with
    [10^E <= m * 2^e], searched around an estimate from the binary
    exponent. *)
Definition exp10 (m : positive) (e : Z) : Z :=
  let E0 := ((Z.log2 (Zpos m) + e) * 30103) / 100000 in
  if ge_pow10 m e (E0 + 2) then E0 + 2
  else if ge_pow10 m e (E0 + 1) then E0 + 1
  else if ge_pow10 m e E0 then E0
  else if ge_pow10 m e (E0 - 1) then E0 - 1
  else E0 - 2.

(** The two [k]-digit decimals around [m * 2^e], the nearer one first,
    each as digits and exponent of the last digit. *)
Definition candidates (k : Z) (m : positive) (e : Z) : list (Z * Z) :=
  let p := exp10 m e - k + 1 in
  let '(num, den) := scaled m e p in
  let lo := num / den in
  let r := num mod den in
  let norm d := if d =? 10 ^ k then (10 ^ (k - 1), p + 1) else (d, p) in
  if r =? 0 then [(lo, p)]
  else
    match 2 * r ?= den with
    | Lt => [(lo, p); norm (lo + 1)]
    | Gt => [norm (lo + 1); (lo, p)]
    | Eq => if Z.even lo then [(lo, p); norm (lo + 1)]
            else [norm (lo + 1); (lo, p)]
    end.

(** The first candidate that reads back as the float itself. *)
Fixpoint first_exact (x : float) (l : list (Z * Z)) : option (Z * Z) :=
  match l with
  | [] => None
  | (d, p) :: rest =>
      if eqb (of_decimal false d p) x then Some (d, p)
      else first_exact x rest
  end.

(** The shortest decimal that reads back as [m * 2^e], trying
    [k, k+1, ...] digits; with 17 digits the nearest decimal is taken. *)
Fixpoint shortest_from (fuel : nat) (k : Z) (m : positive) (e : Z) : Z * Z :=
  match fuel with
  | O => match candidates k m e with c :: _ => c | [] => (Zpos m, 0) end
  | S f =>
      match first_exact (S754_finite false m e) (candidates k m e) with
      | Some c => c
      | None => shortest_from f (k + 1) m e
      end
  end.

Definition shortest (m : positive) (e : Z) : Z * Z := shortest_from 16 1 m e.

(** The layout of [repr]: [ds] are the significant digits and [decpt] the
    position of the decimal point relative to their start. *)
Definition repr_layout (ds : string) (decpt : Z) : string :=
  let n := Z.of_nat (String.length ds) in
  if (decpt <=? -4) || (16 <? decpt) then
    let E := decpt - 1 in
    let mant :=
      match ds with
      | String c EmptyString => ds
      | String c rest => String c ("." ++ rest)
      | EmptyString => ds
      end in
    mant ++ "e" ++ (if E <? 0 then "-" else "+")
         ++ PyInt.digits_padded 2 (Z.abs E)
  else if decpt <=? 0 then
    "0." ++ PyStr.repeat_char "0" (Z.to_nat (- decpt)) ++ ds
  else if n <=? decpt then
    ds ++ PyStr.repeat_char "0" (Z.to_nat (decpt - n)) ++ ".0"
  else
    String.substring 0 (Z.to_nat decpt) ds ++ "."
    ++ String.substring (Z.to_nat decpt) (Z.to_nat (n - decpt)) ds.

(** [repr(x)], which is also [str(x)]. *)
Definition repr (x : float) : string :=
  match x with
  | S754_zero s => if s then "-0.0" else "0.0"
  | S754_infinity s => if s then "-inf" else "inf"
  | S754_nan => "nan"
  | S754_finite s m e =>
      let '(d, p) := shortest m e in
      let ds := PyInt.digits d in
      (if s then "-" else "")
      ++ repr_layout ds (p + Z.of_nat (String.length ds))
  end.

End PyFloat.

(** ** Sets of strings and sorting *)

Module PySet.

(** A Python [set] of strings is kept as the sequence of its insertions;
    membership and the elements do not depend on repetitions. *)
Definition t : Type := list string.

Definition empty : t := [].
Definition add (s : t) (x : string) : t := (s ++ [x])%list.
Definition update (s : t) (l : list string) : t := (s ++ l)%list.
Definition mem (x : string) (s : t) : bool := existsb (String.eqb x) s.

(** The elements without repetition, in order of first insertion. *)
Fixpoint distinct (s : t) : list string :=
  match s with
  | [] => []
  | x :: rest => x :: filter (fun y => negb (String.eqb x y)) (distinct rest)
  end.

End PySet.

(** [sorted(l)] for a list of strings: a stable insertion sort on the
    code-point order. *)
Fixpoint insert_sorted (x : string) (l : list string) : list string :=
  match l with
  | [] => [x]
  | y :: rest => if String.leb x y then x :: l else y :: insert_sorted x rest
  end.

Definition sorted (l : list string) : list string :=
  fold_right insert_sorted [] l.

(** ** Exceptions and logging *)

Inductive exn_class : Type :=
  | FileNotFoundError | ValueError | OSError | KeyError | RuntimeError
  | Exception.

(** A raised exception: its class and [str(e)]. *)
Record exn : Type := Raise { exn_type : exn_class; exn_str : string }.

Inductive log_level : Type := INFO | WARNING | ERROR.

Definition LogRecord : Type := (log_level * string)%type.

Definition bind {E A B : Type} (x : E + A) (f : A -> E + B) : E + B :=
  match x with
  | inl e => inl e
  | inr a => f a
  end.

Notation "x <- m ;; k" := (bind m (fun x => k))
  (at level 61, m at next level, right associativity).

(** ** Paths *)

Module PyPath.

(** The components of a path: the pieces between slashes. *)
Fixpoint split_slash (cur : string) (s : string) : list string :=
  match s with
  | EmptyString => [cur]
  | String c rest =>
      if Ascii.eqb c "/" then cur :: split_slash EmptyString rest
      else split_slash (cur ++ String c EmptyString) rest
  end.

Definition parts (p : string) : list string :=
  filter (fun c => negb (String.eqb c "" || String.eqb c "."))
         (split_slash EmptyString p).

(** [Path(p).name]. *)
Definition name (p : string) : string := last (parts p) "".

(** The index of the last dot of [s] at or after position [i], if any. *)
Fixpoint rfind_dot (i : nat) (s : string) : option nat :=
  match s with
  | EmptyString => None
  | String c rest =>
      match rfind_dot (S i) rest with
      | Some j => Some j
      | None => if Ascii.eqb c "." then Some i else None
      end
  end.

(** [Path(p).stem]: the name without its last suffix; a leading or a
    trailing dot does not start a suffix. *)
Definition stem (p : string) : string :=
  let n := name p in
  match rfind_dot 0 n with
  | Some i =>
      if (0 <? i)%nat && (i <? String.length n - 1)%nat
      then String.substring 0 i n else n
  | None => n
  end.

(** [str(Path(p))]: the components joined by single slashes, with the
    leading slash of an absolute path kept, and ["."] for no component. *)
Definition normal (p : string) : string :=
  let body := String.concat "/" (parts p) in
  match p with
  | String c _ =>
      if Ascii.eqb c "/" then String "/" body
      else if String.eqb body "" then "." else body
  | EmptyString => "."
  end.

(** Whether [s] ends with [suffix]. *)
Definition ends_with (suffix s : string) : bool :=
  let n := String.length s in
  let k := String.length suffix in
  (k <=? n)%nat && String.eqb (String.substring (n - k) k s) suffix.

(** [str(Path(d) / n)] for a directory already in normal form and a
    relative single-component name. *)
Definition join (d n : string) : string :=
  if String.eqb d "." then n
  else if String.eqb d "/" then d ++ n
  else d ++ "/" ++ n.

End PyPath.

(** ** JSON values and [json.dump] *)

Module Json.

(** The values [json.dump] is given here: what [asdict] produces from the
    result record.  A dictionary keeps its insertion order. *)
Inductive value : Type :=
  | JNull
  | JBool (b : bool)
  | JInt (n : Z)
  | JFloat (x : PyFloat.float)
  | JStr (s : string)
  | JList (items : list value)
  | JDict (fields : list (string * value)).

Definition dquote : ascii := ascii_of_N 34.
Definition backslash : ascii := ascii_of_N 92.
Definition newline : ascii := ascii_of_N 10.

Definition hex_digit (n : N) : ascii :=
  if (n <? 10)%N then ascii_of_N (48 + n) else ascii_of_N (87 + n).

(** The replacement of one character inside a string literal, with
    [ensure_ascii=False]: the quote, the backslash and the control
    characters are escaped, everything else is written as it is. *)
Definition escape_char (c : ascii) : string :=
  let n := N_of_ascii c in
  if Ascii.eqb c dquote then String backslash (String dquote EmptyString)
  else if Ascii.eqb c backslash
       then String backslash (String backslash EmptyString)
  else if (n =? 10)%N then String backslash "n"
  else if (n =? 13)%N then String backslash "r"
  else if (n =? 9)%N then String backslash "t"
  else if (n =? 8)%N then String backslash "b"
  else if (n =? 12)%N then String backslash "f"
  else if (n <? 32)%N
       then String backslash
              ("u00" ++ String (hex_digit (n / 16))
                          (String (hex_digit (n mod 16)) EmptyString))
  else String c EmptyString.

Fixpoint escape (s : string) : string :=
  match s with
  | EmptyString => EmptyString
  | String c rest => escape_char c ++ escape rest
  end.

Definition encode_str (s : string) : string :=
  String dquote (escape s ++ String dquote EmptyString).

(** A float as the encoder writes it. *)
Definition encode_float (x : PyFloat.float) : string :=
  match x with
  | S754_nan => "NaN"
  | S754_infinity false => "Infinity"
  | S754_infinity true => "-Infinity"
  | _ => PyFloat.repr x
  end.

(** The layout options of the encoder: [indent], and the two separators. *)
Record layout : Type := Layout {
  indent : option nat;
  item_separator : string;
  key_separator : string
}.

(** A line break followed by the indentation of nesting level [level];
    nothing when no indentation is asked for. *)
Definition newline_indent (ly : layout) (level : nat) : string :=
  match indent ly with
  | None => EmptyString
  | Some n => String newline (PyStr.repeat_char " " (n * level))
  end.

(** The encoder.  An empty list or dictionary is written without any
    inner line break; the items of a non-empty one each start on a line
    of their own when indentation is on. *)
Fixpoint encode (ly : layout) (level : nat) (v : value) {struct v} : string :=
  match v with
  | JNull => "null"
  | JBool true => "true"
  | JBool false => "false"
  | JInt n => PyInt.str n
  | JFloat x => encode_float x
  | JStr s => encode_str s
  | JList [] => "[]"
  | JList (x :: xs) =>
      "[" ++ newline_indent ly (S level) ++ encode ly (S level) x
      ++ (fix more (l : list value) : string :=
            match l with
            | [] => EmptyString
            | y :: r =>
                item_separator ly ++ newline_indent ly (S level)
                ++ encode ly (S level) y ++ more r
            end) xs
      ++ newline_indent ly level ++ "]"
  | JDict [] => "{}"
  | JDict ((k, x) :: xs) =>
      "{" ++ newline_indent ly (S level)
      ++ encode_str k ++ key_separator ly ++ encode ly (S level) x
      ++ (fix more (l : list (string * value)) : string :=
            match l with
            | [] => EmptyString
            | (k', y) :: r =>
                item_separator ly ++ newline_indent ly (S level)
                ++ encode_str k' ++ key_separator ly
                ++ encode ly (S level) y ++ more r
            end) xs
      ++ newline_indent ly level ++ "}"
  end.

(** [separators=(',', ':')] with no [indent]. *)
Definition compact : layout := Layout None "," ":".

(** [indent=2], whose separators default to [(',', ': ')]. *)
Definition indented : layout := Layout (Some 2%nat) "," ": ".

Definition dumps (ly : layout) (v : value) : string := encode ly 0 v.

(** The keys of a dictionary, in order. *)
Definition keys (v : value) : list string :=
  match v with
  | JDict fields => map fst fields
  | _ => []
  end.

(** [d[k]] for a dictionary. *)
Fixpoint lookup (k : string) (fields : list (string * value)) : option value :=
  match fields with
  | [] => None
  | (k', v) :: rest => if String.eqb k k' then Some v else lookup k rest
  end.

(** *** [json.loads] *)

(** The whitespace the decoder skips. *)
Definition is_ws (c : ascii) : bool :=
  let n := N_of_ascii c in
  ((n =? 32) || (n =? 9) || (n =? 10) || (n =? 13))%N.

Fixpoint skip_ws (s : string) : string :=
  match s with
  | EmptyString => EmptyString
  | String c rest => if is_ws c then skip_ws rest else s
  end.

Definition is_digit (c : ascii) : bool :=
  let n := N_of_ascii c in ((48 <=? n) && (n <=? 57))%N.

Definition digit_value (c : ascii) : Z := Z.of_N (N_of_ascii c) - 48.

(** The digits at the start of a string, and what follows them. *)
Fixpoint take_digits (s : string) : string * string :=
  match s with
  | EmptyString => (EmptyString, EmptyString)
  | String c rest =>
      if is_digit c then
        let '(ds, r) := take_digits rest in (String c ds, r)
      else (EmptyString, s)
  end.

(** The number a string of digits denotes, after the digits of [acc]. *)
Fixpoint digits_value (acc : Z) (ds : string) : Z :=
  match ds with
  | EmptyString => acc
  | String c rest => digits_value (10 * acc + digit_value c) rest
  end.

(** The leading minus sign, if any. *)
Definition take_sign (s : string) : bool * string :=
  match s with
  | String c rest => if Ascii.eqb c "-" then (true, rest) else (false, s)
  | EmptyString => (false, s)
  end.

(** The integer part [0|[1-9][0-9]*]. *)
Definition take_int (s : string) : option (string * string) :=
  match s with
  | String c rest =>
      if Ascii.eqb c "0" then Some ("0", rest)
      else if is_digit c then
        let '(ds, r) := take_digits rest in Some (String c ds, r)
      else None
  | EmptyString => None
  end.

(** The fraction [\.[0-9]+], if any. *)
Definition take_frac (s : string) : option string * string :=
  match s with
  | String c rest =>
      if Ascii.eqb c "." then
        match take_digits rest with
        | (EmptyString, _) => (None, s)
        | (ds, r) => (Some ds, r)
        end
      else (None, s)
  | EmptyString => (None, s)
  end.

(** The exponent [[eE][-+]?[0-9]+], if any: its sign and its digits. *)
Definition take_exp (s : string) : option (bool * string) * string :=
  match s with
  | String c rest =>
      if Ascii.eqb c "e" || Ascii.eqb c "E" then
        let '(neg, r1) :=
          match rest with
          | String sg r =>
              if Ascii.eqb sg "-" then (true, r)
              else if Ascii.eqb sg "+" then (false, r)
              else (false, rest)
          | EmptyString => (false, rest)
          end in
        match take_digits r1 with
        | (EmptyString, _) => (None, s)
        | (ds, r) => (Some (neg, ds), r)
        end
      else (None, s)
  | EmptyString => (None, s)
  end.

(** A number: an integer when it has neither fraction nor exponent, a
    float otherwise, read as the nearest binary64 value. *)
Definition parse_number (s : string) : option (value * string) :=
  let '(neg, s1) := take_sign s in
  match take_int s1 with
  | None => None
  | Some (ip, s2) =>
      let '(frac, s3) := take_frac s2 in
      let '(exp, s4) := take_exp s3 in
      match frac, exp with
      | None, None =>
          let n := digits_value 0 ip in
          Some (JInt (if neg then - n else n), s4)
      | _, _ =>
          let fd := match frac with Some ds => ds | None => EmptyString end in
          let e := match exp with
                   | Some (eneg, ds) =>
                       if eneg then - digits_value 0 ds
                       else digits_value 0 ds
                   | None => 0
                   end in
          Some (JFloat (PyFloat.of_decimal neg (digits_value 0 (ip ++ fd))
                          (e - Z.of_nat (String.length fd))),
                s4)
      end
  end.

(** [s] without the prefix [p], when it starts with it. *)
Fixpoint strip_prefix (p s : string) : option string :=
  match p with
  | EmptyString => Some s
  | String c p' =>
      match s with
      | String d s' => if Ascii.eqb c d then strip_prefix p' s' else None
      | EmptyString => None
      end
  end.

Definition hex_value (c : ascii) : option N :=
  let n := N_of_ascii c in
  if ((48 <=? n) && (n <=? 57))%N then Some (n - 48)%N
  else if ((97 <=? n) && (n <=? 102))%N then Some (n - 87)%N
  else if ((65 <=? n) && (n <=? 70))%N then Some (n - 55)%N
  else None.

(** The character an escape letter stands for. *)
Definition unescape (c : ascii) : option ascii :=
  if Ascii.eqb c dquote then Some dquote
  else if Ascii.eqb c backslash then Some backslash
  else if Ascii.eqb c "/" then Some "/"%char
  else if Ascii.eqb c "b" then Some (ascii_of_N 8)
  else if Ascii.eqb c "f" then Some (ascii_of_N 12)
  else if Ascii.eqb c "n" then Some (ascii_of_N 10)
  else if Ascii.eqb c "r" then Some (ascii_of_N 13)
  else if Ascii.eqb c "t" then Some (ascii_of_N 9)
  else None.

(** The rest of a string literal after its opening quote, up to the
    closing quote.  A raw control character is refused, as is an escaped
    code point that is not below 256. *)
Fixpoint parse_string (s : string) : option (string * string) :=
  match s with
  | EmptyString => None
  | String c rest =>
      if Ascii.eqb c dquote then Some (EmptyString, rest)
      else if Ascii.eqb c backslash then
        match rest with
        | String e rest' =>
            if Ascii.eqb e "u" then
              match rest' with
              | String h1 (String h2 (String h3 (String h4 rest''))) =>
                  match hex_value h1, hex_value h2, hex_value h3,
                        hex_value h4 with
                  | Some 0%N, Some 0%N, Some a, Some b =>
                      match parse_string rest'' with
                      | Some (t, r) =>
                          Some (String (ascii_of_N (16 * a + b)) t, r)
                      | None => None
                      end
                  | _, _, _, _ => None
                  end
              | _ => None
              end
            else
              match unescape e, parse_string rest' with
              | Some c', Some (t, r) => Some (String c' t, r)
              | _, _ => None
              end
        | EmptyString => None
        end
      else if (N_of_ascii c <? 32)%N then None
      else
        match parse_string rest with
        | Some (t, r) => Some (String c t, r)
        | None => None
        end
  end.

(** [d[k] = v] on the pairs of a dictionary. *)
Fixpoint dict_put (d : list (string * value)) (k : string) (v : value)
  : list (string * value) :=
  match d with
  | [] => [(k, v)]
  | (k', v') :: rest =>
      if String.eqb k k' then (k, v) :: rest else (k', v') :: dict_put rest k v
  end.

(** The items of an array after its first bracket or a comma, up to the
    closing bracket; [pv] reads one value and [n] bounds the items. *)
Fixpoint parse_elems (pv : string -> option (value * string)) (n : nat)
    (s : string) : option (list value * string) :=
  match n with
  | O => None
  | S n' =>
      match pv s with
      | None => None
      | Some (v, r) =>
          match skip_ws r with
          | String c r' =>
              if Ascii.eqb c "," then
                match parse_elems pv n' r' with
                | Some (vs, r'') => Some (v :: vs, r'')
                | None => None
                end
              else if Ascii.eqb c "]" then Some ([v], r')
              else None
          | EmptyString => None
          end
      end
  end.

(** The members of an object after its brace or a comma, up to the closing
    brace: each a string literal, a colon and a value. *)
Fixpoint parse_members (pv : string -> option (value * string)) (n : nat)
    (s : string) : option (list (string * value) * string) :=
  match n with
  | O => None
  | S n' =>
      match skip_ws s with
      | String q s1 =>
          if Ascii.eqb q dquote then
            match parse_string s1 with
            | None => None
            | Some (k, s2) =>
                match skip_ws s2 with
                | String c s3 =>
                    if Ascii.eqb c ":" then
                      match pv s3 with
                      | None => None
                      | Some (v, r) =>
                          match skip_ws r with
                          | String c' r' =>
                              if Ascii.eqb c' "," then
                                match parse_members pv n' r' with
                                | Some (ms, r'') => Some ((k, v) :: ms, r'')
                                | None => None
                                end
                              else if Ascii.eqb c' "}"
                                   then Some ([(k, v)], r')
                              else None
                          | EmptyString => None
                          end
                      end
                    else None
                | EmptyString => None
                end
            end
          else None
      | EmptyString => None
      end
  end.

(** One value, after any whitespace.  [fuel] bounds the nesting and the
    number of items of a container. *)
Fixpoint parse_value (fuel : nat) (s : string) : option (value * string) :=
  match fuel with
  | O => None
  | S f =>
      match skip_ws s with
      | EmptyString => None
      | String c rest as s' =>
          if Ascii.eqb c dquote then
            match parse_string rest with
            | Some (t, r) => Some (JStr t, r)
            | None => None
            end
          else if Ascii.eqb c "[" then
            match skip_ws rest with
            | String c' r =>
                if Ascii.eqb c' "]" then Some (JList [], r)
                else
                  match parse_elems (parse_value f) f rest with
                  | Some (vs, r') => Some (JList vs, r')
                  | None => None
                  end
            | EmptyString => None
            end
          else if Ascii.eqb c "{" then
            match skip_ws rest with
            | String c' r =>
                if Ascii.eqb c' "}" then Some (JDict [], r)
                else
                  match parse_members (parse_value f) f rest with
                  | Some (ms, r') =>
                      Some (JDict (fold_left (fun d kv =>
                                                dict_put d (fst kv) (snd kv))
                                             ms []), r')
                  | None => None
                  end
            | EmptyString => None
            end
          else
            match strip_prefix "null" s', strip_prefix "true" s',
                  strip_prefix "false" s', strip_prefix "NaN" s',
                  strip_prefix "Infinity" s', strip_prefix "-Infinity" s'
            with
            | Some r, _, _, _, _, _ => Some (JNull, r)
            | _, Some r, _, _, _, _ => Some (JBool true, r)
            | _, _, Some r, _, _, _ => Some (JBool false, r)
            | _, _, _, Some r, _, _ => Some (JFloat S754_nan, r)
            | _, _, _, _, Some r, _ => Some (JFloat (S754_infinity false), r)
            | _, _, _, _, _, Some r => Some (JFloat (S754_infinity true), r)
            | _, _, _, _, _, _ => parse_number s'
            end
      end
  end.

(** [json.loads(s)]: one value, then nothing but whitespace. *)
Definition loads (s : string) : option value :=
  match parse_value (S (String.length s)) s with
  | Some (v, r) =>
      match skip_ws r with
      | EmptyString => Some v
      | _ => None
      end
  | None => None
  end.

(** A float that reads back from what the encoder writes for it: it is
    finite, and its [repr] denotes it. *)
Definition float_ok (x : PyFloat.float) : bool :=
  match x with
  | S754_nan | S754_infinity _ => false
  | _ =>
      match parse_number (PyFloat.repr x) with
      | Some (JFloat y, EmptyString) => PyFloat.eqb x y
      | _ => false
      end
  end.

(** Whether the keys [ks] are pairwise distinct. *)
Fixpoint distinct_keys (ks : list string) : bool :=
  match ks with
  | [] => true
  | k :: rest => negb (existsb (String.eqb k) rest) && distinct_keys rest
  end.

(** A value as Python can hold it and read it back: every float reads
    back, and the keys of every dictionary are distinct. *)
Fixpoint wf (v : value) : bool :=
  match v with
  | JFloat x => float_ok x
  | JList items => forallb wf items
  | JDict fields =>
      distinct_keys (map fst fields)
      && forallb (fun kv => wf (snd kv)) fields
  | _ => true
  end.

End Json.

(** ** The document reader the pipeline consumes (PyMuPDF) *)

Module Fitz.

(** A span of the structured text: a dictionary that may lack its ['font']
    or ['size'] entry. *)
Record Span : Type := {
  span_font : option string;
  span_size : option PyFloat.float
}.

(** A line: [line["spans"]] raises [KeyError] when the entry is absent. *)
Record Line : Type := { line_spans : option (list Span) }.

(** A block: only text blocks have a ["lines"] entry. *)
Record Block : Type := { block_lines : option (list Line) }.

(** The result of [page.get_text("dict")]; ["blocks"] may be absent. *)
Record TextDict : Type := { td_blocks : option (list Block) }.

(** The dictionary [extract_image] returns; each entry may be absent. *)
Record BaseImage : Type := {
  bi_width : option Z;
  bi_height : option Z;
  bi_ext : option string;
  bi_image : option string
}.

(** [page.rect]. *)
Record Rect : Type := { x0 : PyFloat.float; y0 : PyFloat.float;
                        x1 : PyFloat.float; y1 : PyFloat.float }.

(** A loaded page.  [get_images] lists the cross-reference number of each
    image ([img[0]]); [parent_extract_image] is
    [page.parent.extract_image]. *)
Record Page : Type := {
  get_text : exn + string;
  rect : Rect;
  get_text_dict : exn + TextDict;
  get_images : exn + list Z;
  parent_extract_image : Z -> exn + BaseImage
}.

(** An opened document: [len(doc)] is the length of [load_page], whose
    entry [i] is the outcome of [doc.load_page(i)]; the metadata values
    may be [None]. *)
Record Document : Type := {
  metadata_raw : exn + list (string * option string);
  load_page : list (exn + Page)
}.

End Fitz.

(** A file of the file system: its size, the digest of its bytes (or the
    error of reading them) and the outcome of [fitz.open]. *)
Record FileEntry : Type := {
  st_size : Z;
  md5_hexdigest : exn + string;
  fitz_open : exn + Fitz.Document
}.

(** The file system: what lies at a path, if anything. *)
Definition FileSystem : Type := string -> option FileEntry.

(** ** The records of the pipeline *)

(** The dictionary describing one image of a page. *)
Record ImageInfo : Type := {
  index : Z;
  width : Z;
  height : Z;
  ext : string;
  size_bytes : Z
}.

(** The [page_content] dictionary. *)
Record PageContent : Type := {
  page_number : Z;
  text : string;
  word_count : Z;
  char_count : Z;
  fonts : list string;
  images : list ImageInfo;
  bbox : list PyFloat.float
}.

(** The [extracted_data] dictionary kept in [basic_extraction]. *)
Record ExtractedData : Type := {
  ed_page_count : Z;
  ed_total_words : Z;
  ed_total_chars : Z;
  ed_fonts_used : list string;
  ed_images_count : Z;
  ed_metadata : list (string * string);
  ed_pages : list PageContent
}.

(** The dataclass [PDFExtractionResult], fields in declaration order. *)
Record PDFExtractionResult : Type := {
  file_path : string;
  file_hash : string;
  timestamp : string;
  page_count : Z;
  total_words : Z;
  total_chars : Z;
  fonts_used : list string;
  images_count : Z;
  metadata : list (string * string);
  pages : list PageContent;
  extraction_time : PyFloat.float;
  file_size_mb : PyFloat.float;
  basic_extraction : ExtractedData
}.

(** The extractor object. *)
Record Extractor : Type := {
  output_dir : string;
  enable_images : bool;
  processed_files : PySet.t
}.

(** [metadata[key] = v] on a dictionary kept in insertion order. *)
Fixpoint dict_set (d : list (string * string)) (k v : string)
  : list (string * string) :=
  match d with
  | [] => [(k, v)]
  | (k', v') :: rest =>
      if String.eqb k k' then (k, v) :: rest else (k', v') :: dict_set rest k v
  end.

(** ** The page extractor and the document extractor *)

Section Pipeline.

(** [list(s)] for a set [s]: the order in which a Python set yields its
    elements belongs to the runtime. *)
Variable set_iter : PySet.t -> list string.

(** [f"{span.get('font', 'Unknown')} ({span.get('size', 0):.1f}pt)"]. *)
Definition font_info (sp : Fitz.Span) : string :=
  match Fitz.span_font sp with Some f => f | None => "Unknown" end
  ++ " ("
  ++ PyFloat.format_f 1
       (match Fitz.span_size sp with Some x => x | None => PyFloat.zero end)
  ++ "pt)".

Definition fonts_of_line (acc : PySet.t) (ln : Fitz.Line) : exn + PySet.t :=
  match Fitz.line_spans ln with
  | None => inl (Raise KeyError "'spans'")
  | Some sps =>
      inr (fold_left (fun s sp => PySet.add s (font_info sp)) sps acc)
  end.

Fixpoint fonts_of_lines (acc : PySet.t) (lns : list Fitz.Line)
  : exn + PySet.t :=
  match lns with
  | [] => inr acc
  | ln :: rest => acc' <- fonts_of_line acc ln ;; fonts_of_lines acc' rest
  end.

Fixpoint fonts_of_blocks (acc : PySet.t) (bs : list Fitz.Block)
  : exn + PySet.t :=
  match bs with
  | [] => inr acc
  | b :: rest =>
      acc' <- match Fitz.block_lines b with
              | Some lns => fonts_of_lines acc lns
              | None => inr acc
              end ;;
      fonts_of_blocks acc' rest
  end.

(** The body of the font [try]: the set [fonts_on_page]. *)
Definition fonts_on_page (page : Fitz.Page) : exn + PySet.t :=
  text_dict <- Fitz.get_text_dict page ;;
  fonts_of_blocks PySet.empty
    (match Fitz.td_blocks text_dict with Some bs => bs | None => [] end).

(** The loop over [enumerate(image_list)]: an image whose resolution
    raises is passed over, the others keep their position as [index]. *)
Fixpoint images_info (page : Fitz.Page) (img_index : Z) (image_list : list Z)
  : list ImageInfo :=
  match image_list with
  | [] => []
  | xref :: rest =>
      match Fitz.parent_extract_image page xref with
      | inl _ => images_info page (img_index + 1) rest
      | inr base_image =>
          {| index := img_index;
             width := match Fitz.bi_width base_image with
                      | Some w => w | None => 0 end;
             height := match Fitz.bi_height base_image with
                       | Some h => h | None => 0 end;
             ext := match Fitz.bi_ext base_image with
                    | Some x => x | None => "unknown" end;
             size_bytes := match Fitz.bi_image base_image with
                           | Some b => PyStr.len b | None => 0 end |}
          :: images_info page (img_index + 1) rest
      end
  end.

(** The font block of [_extract_page_content]: it runs when the text is
    non-empty and has a word; a failure inside it is logged and leaves the
    fonts empty. *)
Definition page_fonts (page : Fitz.Page) (page_num : Z) (text' : string)
    (word_count' : Z) : list string * list LogRecord :=
  if PyStr.truthy text' && (0 <? word_count') then
    match fonts_on_page page with
    | inr s => (set_iter s, [])
    | inl e =>
        ([], [(WARNING, "Font extraction failed for page "
                        ++ PyInt.str (page_num + 1) ++ ": " ++ exn_str e)])
    end
  else ([], []).

(** The image block: it runs when images are enabled; a failure of the
    enumeration is logged and leaves the images empty. *)
Definition page_images (self : Extractor) (page : Fitz.Page) (page_num : Z)
  : list ImageInfo * list LogRecord :=
  if enable_images self then
    match Fitz.get_images page with
    | inr image_list => (images_info page 0 image_list, [])
    | inl e =>
        ([], [(WARNING, "Image extraction failed for page "
                        ++ PyInt.str (page_num + 1) ++ ": " ++ exn_str e)])
    end
  else ([], []).

(** [_extract_page_content(page, page_num)], with the warnings it logs. *)
Definition _extract_page_content (self : Extractor) (page : Fitz.Page)
    (page_num : Z) : exn + (PageContent * list LogRecord) :=
  text' <- Fitz.get_text page ;;
  let word_count' := if PyStr.truthy text' then PyStr.split_len text' else 0 in
  let char_count' := PyStr.len text' in
  let r := Fitz.rect page in
  let fl := page_fonts page page_num text' word_count' in
  let il := page_images self page page_num in
  inr ({| page_number := page_num + 1;
          text := text';
          word_count := word_count';
          char_count := char_count';
          fonts := fst fl;
          images := fst il;
          bbox := [Fitz.x0 r; Fitz.y0 r; Fitz.x1 r; Fitz.y1 r] |},
       (snd fl ++ snd il)%list).

(** The metadata loop: a value that is [None], empty or blank is dropped,
    the others are stored stripped. *)
Definition clean_metadata (raw : list (string * option string))
  : list (string * string) :=
  fold_left
    (fun d kv =>
       match snd kv with
       | Some v =>
           if PyStr.truthy v && PyStr.truthy (PyStr.strip v)
           then dict_set d (fst kv) (PyStr.strip v) else d
       | None => d
       end)
    raw [].

(** The local variables of the page loop. *)
Record LoopState : Type := {
  ls_total_words : Z;
  ls_total_chars : Z;
  ls_all_fonts : PySet.t;
  ls_total_images : Z;
  ls_pages_content : list PageContent
}.

Definition loop_init : LoopState :=
  {| ls_total_words := 0; ls_total_chars := 0; ls_all_fonts := PySet.empty;
     ls_total_images := 0; ls_pages_content := [] |}.

(** One successful pass of the loop body. *)
Definition loop_add (st : LoopState) (pc : PageContent) : LoopState :=
  {| ls_total_words := ls_total_words st + word_count pc;
     ls_total_chars := ls_total_chars st + char_count pc;
     ls_all_fonts := PySet.update (ls_all_fonts st) (fonts pc);
     ls_total_images := ls_total_images st + Z.of_nat (List.length (images pc));
     ls_pages_content := (ls_pages_content st ++ [pc])%list |}.

(** [for page_num in range(len(doc))], from [page_num] on; [len_doc] is
    [len(doc)] and [pgs] the outcomes of [load_page] still to visit.  A
    page whose loading or extraction raises is logged and passed over. *)
Fixpoint page_loop (self : Extractor) (len_doc : Z)
    (pgs : list (exn + Fitz.Page)) (page_num : Z) (st : LoopState)
  : LoopState * list LogRecord :=
  match pgs with
  | [] => (st, [])
  | p :: rest =>
      match (page <- p ;; _extract_page_content self page page_num) with
      | inr (page_content, lg) =>
          let progress :=
            if (page_num + 1) mod 10 =? 0
            then [(INFO, "    Processed " ++ PyInt.str (page_num + 1) ++ "/"
                         ++ PyInt.str len_doc ++ " pages")]
            else [] in
          let '(st', lg') :=
            page_loop self len_doc rest (page_num + 1)
                      (loop_add st page_content) in
          (st', (lg ++ progress ++ lg')%list)
      | inl e =>
          let '(st', lg') :=
            page_loop self len_doc rest (page_num + 1) st in
          (st', (ERROR, "Error processing page " ++ PyInt.str (page_num + 1)
                        ++ ": " ++ exn_str e) :: lg')
      end
  end.

(** What the clock gives during one extraction: the two readings of
    [time.time()] and [datetime.now().isoformat()]. *)
Record ExtractClock : Type := {
  start_time : PyFloat.float;
  end_time : PyFloat.float;
  now_isoformat : string
}.

(** [_calculate_file_hash(file_path)] for a file that exists: the digest
    of its bytes, which the file system holds, or the error of reading
    them. *)
Definition _calculate_file_hash (f : FileEntry) : exn + string :=
  md5_hexdigest f.

(** [extract_pdf_content(pdf_path, skip_cache)]: the outcome, the
    extractor afterwards and the log records emitted.  The size in
    megabytes is the quotient of two integers, which the division of their
    floats gives exactly as Python does for sizes below [2^53]. *)
Definition extract_pdf_content (fs : FileSystem) (self : Extractor)
    (clk : ExtractClock) (pdf_path : string) (skip_cache : bool)
  : (exn + PDFExtractionResult) * Extractor * list LogRecord :=
  match fs pdf_path with
  | None =>
      (inl (Raise FileNotFoundError ("PDF file not found: " ++ pdf_path)),
       self, [])
  | Some f =>
      let file_size_mb' :=
        PyFloat.div (PyFloat.of_int (st_size f))
                    (PyFloat.of_int (1024 * 1024)) in
      match _calculate_file_hash f with
      | inl e => (inl e, self, [])
      | inr file_hash' =>
          let log_cache :=
            if negb skip_cache && PySet.mem file_hash' (processed_files self)
            then [(INFO, " File already processed (cached): "
                         ++ PyPath.name pdf_path)]
            else [] in
          let log_start :=
            [(INFO, " Processing: " ++ PyPath.name pdf_path ++ " ("
                    ++ PyFloat.format_f 1 file_size_mb' ++ " MB)")] in
          match fitz_open f with
          | inl e =>
              (inl (Raise Exception ("Cannot open PDF file: " ++ exn_str e)),
               self, (log_cache ++ log_start)%list)
          | inr doc =>
              let '(metadata', log_meta) :=
                match Fitz.metadata_raw doc with
                | inr raw => (clean_metadata raw, [])
                | inl e =>
                    ([], [(WARNING, "Metadata extraction failed: "
                                    ++ exn_str e)])
                end in
              let '(st, log_pages) :=
                page_loop self (Z.of_nat (List.length (Fitz.load_page doc)))
                          (Fitz.load_page doc) 0 loop_init in
              let extraction_time' :=
                PyFloat.sub (end_time clk) (start_time clk) in
              let pages_content := ls_pages_content st in
              let extracted_data :=
                {| ed_page_count := Z.of_nat (List.length pages_content);
                   ed_total_words := ls_total_words st;
                   ed_total_chars := ls_total_chars st;
                   ed_fonts_used := sorted (set_iter (ls_all_fonts st));
                   ed_images_count := ls_total_images st;
                   ed_metadata := metadata';
                   ed_pages := pages_content |} in
              let result :=
                {| file_path := pdf_path;
                   file_hash := file_hash';
                   timestamp := now_isoformat clk;
                   page_count := Z.of_nat (List.length pages_content);
                   total_words := ls_total_words st;
                   total_chars := ls_total_chars st;
                   fonts_used := sorted (set_iter (ls_all_fonts st));
                   images_count := ls_total_images st;
                   metadata := metadata';
                   pages := pages_content;
                   extraction_time := extraction_time';
                   file_size_mb := file_size_mb';
                   basic_extraction := extracted_data |} in
              let log_done :=
                [(INFO, " Completed in "
                        ++ PyFloat.format_f 2 extraction_time' ++ "s - "
                        ++ PyInt.format_comma (ls_total_words st)
                        ++ " words, " ++ PyInt.str (ls_total_images st)
                        ++ " images")] in
              (inr result,
               {| output_dir := output_dir self;
                  enable_images := enable_images self;
                  processed_files :=
                    PySet.add (processed_files self) file_hash' |},
               (log_cache ++ log_start ++ log_meta ++ log_pages
                ++ log_done)%list)
          end
      end
  end.

End Pipeline.

(** ** The result serializer *)

(** [asdict(result)]: the dataclass becomes a dictionary with its fields in
    declaration order; the dictionaries and lists inside are copied as they
    are. *)
Definition image_to_json (im : ImageInfo) : Json.value :=
  Json.JDict [("index", Json.JInt (index im));
              ("width", Json.JInt (width im));
              ("height", Json.JInt (height im));
              ("ext", Json.JStr (ext im));
              ("size_bytes", Json.JInt (size_bytes im))].

Definition page_to_json (pc : PageContent) : Json.value :=
  Json.JDict [("page_number", Json.JInt (page_number pc));
              ("text", Json.JStr (text pc));
              ("word_count", Json.JInt (word_count pc));
              ("char_count", Json.JInt (char_count pc));
              ("fonts", Json.JList (map Json.JStr (fonts pc)));
              ("images", Json.JList (map image_to_json (images pc)));
              ("bbox", Json.JList (map Json.JFloat (bbox pc)))].

Definition metadata_to_json (md : list (string * string)) : Json.value :=
  Json.JDict (map (fun kv => (fst kv, Json.JStr (snd kv))) md).

Definition extracted_data_to_json (ed : ExtractedData) : Json.value :=
  Json.JDict
    [("page_count", Json.JInt (ed_page_count ed));
     ("text_stats",
      Json.JDict [("total_words", Json.JInt (ed_total_words ed));
                  ("total_chars", Json.JInt (ed_total_chars ed))]);
     ("fonts_used", Json.JList (map Json.JStr (ed_fonts_used ed)));
     ("images_count", Json.JInt (ed_images_count ed));
     ("metadata", metadata_to_json (ed_metadata ed));
     ("pages", Json.JList (map page_to_json (ed_pages ed)))].

Definition asdict (result : PDFExtractionResult) : Json.value :=
  Json.JDict
    [("file_path", Json.JStr (file_path result));
     ("file_hash", Json.JStr (file_hash result));
     ("timestamp", Json.JStr (timestamp result));
     ("page_count", Json.JInt (page_count result));
     ("total_words", Json.JInt (total_words result));
     ("total_chars", Json.JInt (total_chars result));
     ("fonts_used", Json.JList (map Json.JStr (fonts_used result)));
     ("images_count", Json.JInt (images_count result));
     ("metadata", metadata_to_json (metadata result));
     ("pages", Json.JList (map page_to_json (pages result)));
     ("extraction_time", Json.JFloat (extraction_time result));
     ("file_size_mb", Json.JFloat (file_size_mb result));
     ("basic_extraction",
      extracted_data_to_json (basic_extraction result))].

Definition nl : string := String Json.newline EmptyString.

(** The indentation the template of the report carries on each line after
    the first. *)
Definition margin : string := PyStr.repeat_char " " 20.

(** The bullet U+2022 of the font lines, as its three UTF-8 bytes. *)
Definition bullet : string :=
  String (ascii_of_N 226) (String (ascii_of_N 128)
    (String (ascii_of_N 162) EmptyString)).

(** The f-string that opens the report. *)
Definition report_header (result : PDFExtractionResult) : string :=
  String.concat EmptyString
    ["PDF EXTRACTION SUMMARY"; nl;
     margin; PyStr.repeat_char "=" 50; nl;
     nl;
     margin; "File: "; PyPath.name (file_path result); nl;
     margin; "Size: "; PyFloat.format_f 1 (file_size_mb result); " MB"; nl;
     margin; "Hash: "; PyStr.prefix 16 (file_hash result); "..."; nl;
     margin; "Processed: "; timestamp result; nl;
     margin; "Time: "; PyFloat.format_f 2 (extraction_time result);
       " seconds"; nl;
     nl;
     margin; "CONTENT STATISTICS"; nl;
     margin; PyStr.repeat_char "-" 30; nl;
     margin; "Pages: "; PyInt.str (page_count result); nl;
     margin; "Words: "; PyInt.format_comma (total_words result); nl;
     margin; "Characters: "; PyInt.format_comma (total_chars result); nl;
     margin; "Images: "; PyInt.str (images_count result); nl;
     margin; "Fonts: ";
       PyInt.str (Z.of_nat (List.length (fonts_used result))); nl;
     nl;
     margin; "METADATA"; nl;
     margin; PyStr.repeat_char "-" 30; nl;
     margin].

(** The loop over [result.metadata.items()]. *)
Definition metadata_lines (md : list (string * string)) : string :=
  String.concat EmptyString
    (map (fun kv => fst kv ++ ": " ++ snd kv ++ nl) md).

(** The fonts section: its title, its rule and one line per font. *)
Definition fonts_section (fs : list string) : string :=
  nl ++ "FONTS USED" ++ nl ++ PyStr.repeat_char "-" 30 ++ nl
  ++ String.concat EmptyString (map (fun font => bullet ++ " " ++ font ++ nl) fs).

(** [rate]: the words per second, or [0] when no time has passed. *)
Definition processing_rate (result : PDFExtractionResult) : PyFloat.float :=
  if PyFloat.gtb (extraction_time result) PyFloat.zero
  then PyFloat.div (PyFloat.of_int (total_words result))
                   (extraction_time result)
  else PyFloat.zero.

Definition rate_line (result : PDFExtractionResult) : string :=
  nl ++ "Processing Rate: "
  ++ PyFloat.format_comma_f 0 (processing_rate result)
  ++ " words/second" ++ nl.

(** [_generate_summary_report(result)]. *)
Definition _generate_summary_report (result : PDFExtractionResult) : string :=
  report_header result
  ++ metadata_lines (metadata result)
  ++ (if Z.of_nat (List.length (fonts_used result)) <=? 10
      then fonts_section (fonts_used result) else EmptyString)
  ++ rate_line result.

(** The layout [save_result] gives to [json.dump]. *)
Definition json_layout (result : PDFExtractionResult) : Json.layout :=
  if PyFloat.gtb (file_size_mb result) (PyFloat.of_int 50)
  then Json.compact else Json.indented.

(** [save_result(result, format_type)]: the outcome, the files written
    (path and text) and the log records.  [strftime_now] is
    [datetime.now().strftime("%Y%m%d_%H%M%S")]; the output directory exists
    since the constructor and opening a file in it for writing succeeds. *)
Definition save_result (self : Extractor) (strftime_now : string)
    (result : PDFExtractionResult) (format_type : string)
  : (exn + string) * list (string * string) * list LogRecord :=
  let file_stem := PyPath.stem (file_path result) in
  if String.eqb (PyStr.lower format_type) "json" then
    let output_file :=
      PyPath.join (output_dir self)
                  (file_stem ++ "_" ++ strftime_now ++ ".json") in
    (inr output_file,
     [(output_file, Json.dumps (json_layout result) (asdict result))],
     [(INFO, " Saved: " ++ output_file)])
  else if String.eqb (PyStr.lower format_type) "summary" then
    let output_file :=
      PyPath.join (output_dir self)
                  (file_stem ++ "_" ++ strftime_now ++ "_summary.txt") in
    (inr output_file,
     [(output_file, _generate_summary_report result)],
     [(INFO, " Saved: " ++ output_file)])
  else
    (inl (Raise ValueError ("Unsupported format: " ++ format_type)), [], []).

(** ** The batch orchestrator *)

(** [EfficientPDFExtractor(output_dir, enable_images)]. *)
Definition new_extractor (output_dir' : string) (enable_images' : bool)
  : Extractor :=
  {| output_dir := PyPath.normal output_dir';
     enable_images := enable_images';
     processed_files := PySet.empty |}.

(** What the clock gives to one task of a batch. *)
Record TaskClock : Type := {
  tc_extract : ExtractClock;
  tc_strftime : string
}.

(** The outcome of a run: a value or an exception, with the extractor
    afterwards, the files written and the log. *)
Record Outcome (A : Type) : Type := {
  returned : A;
  extractor : Extractor;
  written : list (string * string);
  logged : list LogRecord
}.
Arguments returned {A}.
Arguments extractor {A}.
Arguments written {A}.
Arguments logged {A}.

Section Batch.

Variable set_iter : PySet.t -> list string.

(** The file system, and the names of the entries of each directory that
    exists. *)
Variable fs : FileSystem.
Variable listdir : string -> option (list string).

(** The order in which the submitted tasks complete. *)
Variable completion : list string -> list string.

(** The clock readings of the task of each file. *)
Variable clock_of : string -> TaskClock.

(** [list(pdf_dir.glob("*.pdf"))]: the entries whose name ends in [.pdf],
    each as the path below the directory. *)
Definition glob_pdf (pdf_directory : string) (names : list string)
  : list string :=
  map (PyPath.join (PyPath.normal pdf_directory))
      (filter (PyPath.ends_with ".pdf") names).

(** [_process_single_file(pdf_path, save_format)]: the output path, or
    [None] when the extraction or the serialization raised. *)
Definition _process_single_file (self : Extractor) (pdf_path : string)
    (save_format : string) : Outcome (option string) :=
  let clk := clock_of pdf_path in
  match extract_pdf_content set_iter fs self (tc_extract clk) pdf_path false
  with
  | (inl e, self', lg) =>
      {| returned := None; extractor := self'; written := [];
         logged := (lg ++ [(ERROR, ("Processing failed for "
                                    ++ PyPath.name pdf_path ++ ": "
                                    ++ exn_str e)%string)])%list |}
  | (inr result, self', lg) =>
      match save_result self' (tc_strftime clk) result save_format with
      | (inr path, w, lg') =>
          {| returned := Some path; extractor := self'; written := w;
             logged := (lg ++ lg')%list |}
      | (inl e, w, lg') =>
          {| returned := None; extractor := self'; written := w;
             logged := (lg ++ lg'
                        ++ [(ERROR, ("Processing failed for "
                                     ++ PyPath.name pdf_path ++ ": "
                                     ++ exn_str e)%string)])%list |}
      end
  end.

(** The tasks of the pool, run to completion one after the other in the
    order given; each future is paired with its file. *)
Fixpoint run_tasks (self : Extractor) (save_format : string)
    (files : list string) : Outcome (list (string * option string)) :=
  match files with
  | [] => {| returned := []; extractor := self; written := [];
             logged := [] |}
  | pdf_file :: rest =>
      let o := _process_single_file self pdf_file save_format in
      let os := run_tasks (extractor o) save_format rest in
      {| returned := (pdf_file, returned o) :: returned os;
         extractor := extractor os;
         written := (written o ++ written os)%list;
         logged := (logged o ++ logged os)%list |}
  end.

(** The two lists the collecting loop fills. *)
Record Collected : Type := {
  output_files : list string;
  failed_files : list string;
  collect_log : list LogRecord
}.

(** [for future in as_completed(future_to_file)]: a future that yields a
    non-empty path is a success, any other a failure. *)
Fixpoint collect (futures : list (string * option string)) (c : Collected)
  : Collected :=
  match futures with
  | [] => c
  | (pdf_file, output_file) :: rest =>
      match output_file with
      | Some path =>
          if PyStr.truthy path then
            collect rest
              {| output_files := (output_files c ++ [path])%list;
                 failed_files := failed_files c;
                 collect_log :=
                   (collect_log c
                    ++ [(INFO, (" Completed: "
                                ++ PyPath.name pdf_file)%string)])%list |}
          else
            collect rest
              {| output_files := output_files c;
                 failed_files := (failed_files c ++ [pdf_file])%list;
                 collect_log := collect_log c |}
      | None =>
          collect rest
            {| output_files := output_files c;
               failed_files := (failed_files c ++ [pdf_file])%list;
               collect_log := collect_log c |}
      end
  end.

(** The body of [batch_process] once the files are known and the pool can
    be built: the tasks run, then the collecting loop.  The log keeps the
    records of the tasks before those of the loop; how the two interleave
    belongs to the scheduler. *)
Definition batch_run (self : Extractor) (save_format : string)
    (pdf_files : list string) : Outcome Collected :=
  let os := run_tasks self save_format (completion pdf_files) in
  {| returned := collect (returned os)
                   {| output_files := []; failed_files := [];
                      collect_log := [] |};
     extractor := extractor os;
     written := written os;
     logged := logged os |}.

(** [[Path(f).name for f in failed_files[:5]]] as Python prints a list of
    strings. *)
Definition failed_sample (failed : list string) : string :=
  "[" ++ String.concat ", "
           (map (fun f => "'" ++ PyPath.name f ++ "'") (firstn 5 failed))
  ++ "]".

(** [batch_process(pdf_directory, max_workers, save_format)]; [total_time]
    is the formatted duration of the batch. *)
Definition batch_process (self : Extractor) (total_time : string)
    (pdf_directory : string) (max_workers : Z) (save_format : string)
  : Outcome (exn + list string) :=
  match listdir pdf_directory with
  | None =>
      {| returned := inl (Raise FileNotFoundError
                            ("Directory not found: " ++ pdf_directory));
         extractor := self; written := []; logged := [] |}
  | Some names =>
      match glob_pdf pdf_directory names with
      | [] =>
          {| returned := inr []; extractor := self; written := [];
             logged := [(WARNING, "No PDF files found in: "
                                  ++ pdf_directory)] |}
      | pdf_files =>
          let log_start :=
            [(INFO, " Starting batch processing: "
                    ++ PyInt.str (Z.of_nat (List.length pdf_files))
                    ++ " files, " ++ PyInt.str max_workers ++ " workers")] in
          if max_workers <=? 0 then
            {| returned := inl (Raise ValueError
                                  "max_workers must be greater than 0");
               extractor := self; written := []; logged := log_start |}
          else
            let o := batch_run self save_format pdf_files in
            let c := returned o in
            let fail_count := Z.of_nat (List.length (failed_files c)) in
            let log_tally :=
              [(INFO, " Batch processing completed in " ++ total_time ++ "s");
               (INFO, "    Success: "
                      ++ PyInt.str (Z.of_nat (List.length (output_files c))));
               (INFO, "    Failed: " ++ PyInt.str fail_count)] in
            let log_failed :=
              if 0 <? fail_count
              then [(INFO, "   Failed files: "
                           ++ failed_sample (failed_files c))]
              else [] in
            {| returned := inr (output_files c);
               extractor := extractor o;
               written := written o;
               logged := (log_start ++ logged o ++ collect_log c
                          ++ log_tally ++ log_failed)%list |}
      end
  end.

End Batch.

(** ** Notions the statements use *)

(** The sum of an integer measure over a list. *)
Definition sum_of {A : Type} (f : A -> Z) (l : list A) : Z :=
  fold_right (fun a s => f a + s) 0 l.

(** What one pass of the page loop yields for the page at index
    [page_num]: its record, or nothing when loading or extracting it
    raised. *)
Definition page_attempt (set_iter : PySet.t -> list string) (self : Extractor)
    (page_num : Z) (p : exn + Fitz.Page) : option PageContent :=
  match (page <- p ;; _extract_page_content set_iter self page page_num) with
  | inr (pc, _) => Some pc
  | inl _ => None
  end.

(** The attempts over the pages of a document, one entry per page index,
    starting at [page_num]. *)
Fixpoint page_attempts (set_iter : PySet.t -> list string) (self : Extractor)
    (page_num : Z) (pgs : list (exn + Fitz.Page)) : list (option PageContent) :=
  match pgs with
  | [] => []
  | p :: rest =>
      page_attempt set_iter self page_num p
      :: page_attempts set_iter self (page_num + 1) rest
  end.

(** The records among a list of attempts, in order. *)
Fixpoint successes {A : Type} (l : list (option A)) : list A :=
  match l with
  | [] => []
  | Some a :: rest => a :: successes rest
  | None :: rest => successes rest
  end.

(** [sub] occurs in [s]. *)
Definition occurs (sub s : string) : Prop :=
  exists pre post, s = pre ++ sub ++ post.

(** A runtime whose sets yield each element once: the requirement on
    [list(s)]. *)
Definition set_iter_ok (set_iter : PySet.t -> list string) : Prop :=
  forall s, NoDup (set_iter s) /\ (forall x, In x (set_iter s) <-> In x s).

(** The spans of a structured text, in reading order; nothing when a line
    lacks its spans. *)
Fixpoint spans_of_lines (lns : list Fitz.Line) : option (list Fitz.Span) :=
  match lns with
  | [] => Some []
  | ln :: rest =>
      match Fitz.line_spans ln, spans_of_lines rest with
      | Some sps, Some more => Some (sps ++ more)%list
      | _, _ => None
      end
  end.

Fixpoint spans_of_blocks (bs : list Fitz.Block) : option (list Fitz.Span) :=
  match bs with
  | [] => Some []
  | b :: rest =>
      match (match Fitz.block_lines b with
             | Some lns => spans_of_lines lns
             | None => Some []
             end), spans_of_blocks rest with
      | Some sps, Some more => Some (sps ++ more)%list
      | _, _ => None
      end
  end.

Definition spans_of (td : Fitz.TextDict) : option (list Fitz.Span) :=
  spans_of_blocks (match Fitz.td_blocks td with Some bs => bs | None => [] end).

(** *** The statements of the specification, in its words *)

Module Spec.

(** The fonts of a page as the specification words them: the signature of
    every span, as a set, sorted. *)
Definition page_fonts (page : Fitz.Page) : list string :=
  match Fitz.get_text_dict page with
  | inr td =>
      match spans_of td with
      | Some sps => sorted (PySet.distinct (map font_info sps))
      | None => []
      end
  | inl _ => []
  end.

(** The field names of the data model of the specification. *)
Definition document_fields : list string :=
  ["file_path"; "file_hash"; "timestamp"; "file_size_mb"; "page_count";
   "total_words"; "total_chars"; "fonts_used"; "images_count"; "metadata";
   "pages"; "extraction_time_seconds"].

Definition page_fields : list string :=
  ["page_number"; "text"; "word_count"; "char_count"; "fonts"; "images";
   "bounding_box"].


End Spec.

(** ** A small world to run the pipeline on *)

Module Sample.

(** A runtime whose sets yield their elements in order of insertion. *)
Definition insertion_order : PySet.t -> list string := PySet.distinct.

Definition letter : Fitz.Rect :=
  {| Fitz.x0 := PyFloat.zero; Fitz.y0 := PyFloat.zero;
     Fitz.x1 := PyFloat.of_int 612; Fitz.y1 := PyFloat.of_int 792 |}.

Definition span (f : string) (tenths : Z) : Fitz.Span :=
  {| Fitz.span_font := Some f;
     Fitz.span_size := Some (PyFloat.of_decimal false tenths (-1)) |}.

Definition one_block (sps : list Fitz.Span) : Fitz.TextDict :=
  {| Fitz.td_blocks :=
       Some [ {| Fitz.block_lines := None |};
              {| Fitz.block_lines := Some [ {| Fitz.line_spans := Some sps |} ] |} ] |}.

Definition no_image (xref : Z) : exn + Fitz.BaseImage :=
  inl (Raise RuntimeError "bad xref").

Definition png (xref : Z) : exn + Fitz.BaseImage :=
  if xref =? 7 then
    inr {| Fitz.bi_width := Some 640; Fitz.bi_height := Some 480;
           Fitz.bi_ext := Some "png"; Fitz.bi_image := Some "0123456789" |}
  else no_image xref.

Definition text_page (t : string) (sps : list Fitz.Span) : Fitz.Page :=
  {| Fitz.get_text := inr t; Fitz.rect := letter;
     Fitz.get_text_dict := inr (one_block sps);
     Fitz.get_images := inr [];
     Fitz.parent_extract_image := no_image |}.

(** A page of blanks whose structured text still has a span. *)
Definition blank_page : Fitz.Page := text_page "  " [span "Arial" 120].

(** A page whose spans come in the order Times, Arial, Times, with two
    images of which the second cannot be resolved. *)
Definition mixed_page : Fitz.Page :=
  {| Fitz.get_text := inr "One two three"; Fitz.rect := letter;
     Fitz.get_text_dict :=
       inr (one_block [span "Times" 105; span "Arial" 120; span "Times" 105]);
     Fitz.get_images := inr [7; 8];
     Fitz.parent_extract_image := png |}.

(** A page whose structured text cannot be read. *)
Definition opaque_page : Fitz.Page :=
  {| Fitz.get_text := inr "last page"; Fitz.rect := letter;
     Fitz.get_text_dict := inl (Raise RuntimeError "no text dict");
     Fitz.get_images := inl (Raise RuntimeError "no images");
     Fitz.parent_extract_image := no_image |}.

(** Five pages; loading the page of index 3 raises. *)
Definition five_pages : Fitz.Document :=
  {| Fitz.metadata_raw :=
       inr [("title", Some " Report "); ("author", None);
            ("subject", Some "   "); ("producer", Some "pdfTeX")];
     Fitz.load_page :=
       [inr (text_page "Hello world" [span "Arial" 120]);
        inr blank_page;
        inr mixed_page;
        inl (Raise RuntimeError "cannot load page");
        inr opaque_page] |}.

Definition one_page : Fitz.Document :=
  {| Fitz.metadata_raw := inl (Raise RuntimeError "no metadata");
     Fitz.load_page := [inr (text_page "Solo" [])] |}.

Definition fs : FileSystem := fun path =>
  if String.eqb path "in/a.pdf" then
    Some {| st_size := 3 * 1024 * 1024;
            md5_hexdigest := inr "0cc175b9c0f1b6a831c399e269772661";
            fitz_open := inr five_pages |}
  else if String.eqb path "in/b.pdf" then
    Some {| st_size := 10;
            md5_hexdigest := inr "92eb5ffee6ae2fec3ad71c777531578f";
            fitz_open := inl (Raise RuntimeError "not a PDF") |}
  else if String.eqb path "in/c.pdf" then
    Some {| st_size := 60 * 1024 * 1024;
            md5_hexdigest := inr "4a8a08f09d37b73795649038408b5f33";
            fitz_open := inr one_page |}
  else None.

Definition listdir (d : string) : option (list string) :=
  if String.eqb d "in" then Some ["a.pdf"; "b.pdf"; "notes.txt"; "c.pdf"]
  else None.

Definition clock : ExtractClock :=
  {| start_time := PyFloat.of_decimal false 17000000005 (-1);
     end_time := PyFloat.of_decimal false 17000000030 (-1);
     now_isoformat := "2024-05-01T10:00:00.000000" |}.

Definition task_clock (path : string) : TaskClock :=
  {| tc_extract := clock; tc_strftime := "20240501_100003" |}.

Definition extractor : Extractor := new_extractor "out" true.

(** The extractor after the file [in/a.pdf] has been processed once. *)
Definition seasoned : Extractor :=
  {| output_dir := "out"; enable_images := true;
     processed_files := ["0cc175b9c0f1b6a831c399e269772661"] |}.

(** [n] font signatures. *)
Definition some_fonts (n : nat) : list string :=
  map (fun i => "Font" ++ PyInt.str (Z.of_nat i) ++ " (10.0pt)") (seq 0 n).

(** A record of one page for a file of [size] bytes, with [n] fonts and an
    extraction that took [seconds]. *)
Definition record (size : Z) (n : nat) (seconds : PyFloat.float)
  : PDFExtractionResult :=
  let page :=
    {| page_number := 1; text := "Hello world"; word_count := 2;
       char_count := 11; fonts := some_fonts n;
       images := [ {| index := 0; width := 640; height := 480;
                      ext := "png"; size_bytes := 10 |} ];
       bbox := [PyFloat.zero; PyFloat.zero;
                PyFloat.of_int 612; PyFloat.of_decimal false 7925 (-1)] |} in
  {| file_path := "in/a.pdf";
     file_hash := "0cc175b9c0f1b6a831c399e269772661";
     timestamp := "2024-05-01T10:00:00.000000";
     page_count := 1; total_words := 2; total_chars := 11;
     fonts_used := some_fonts n; images_count := 1;
     metadata := [("title", "Report"); ("producer", "pdfTeX")];
     pages := [page];
     extraction_time := seconds;
     file_size_mb := PyFloat.div (PyFloat.of_int size)
                                 (PyFloat.of_int (1024 * 1024));
     basic_extraction :=
       {| ed_page_count := 1; ed_total_words := 2; ed_total_chars := 11;
          ed_fonts_used := some_fonts n; ed_images_count := 1;
          ed_metadata := [("title", "Report"); ("producer", "pdfTeX")];
          ed_pages := [page] |} |}.

Definition half_second : PyFloat.float := PyFloat.of_decimal false 5 (-1).

(** The tasks complete in the reverse of the order of submission. *)
Definition reversed : list string -> list string := @rev string.

End Sample.

(** ** Notions the proofs use *)

(** *** Field names *)

(** Whether a given name is among given names. *)
Ltac key_absent :=
  let H := fresh in
  intros H; simpl in H; repeat destruct H as [H | H];
  solve [discriminate H | exact H].
Ltac key_present :=
  simpl; repeat (first [left; reflexivity | right]).

(** The field names the code gives the persisted record. *)
Definition result_keys : list string :=
  ["file_path"; "file_hash"; "timestamp"; "page_count"; "total_words";
   "total_chars"; "fonts_used"; "images_count"; "metadata"; "pages";
   "extraction_time"; "file_size_mb"; "basic_extraction"].

Definition page_keys : list string :=
  ["page_number"; "text"; "word_count"; "char_count"; "fonts"; "images";
   "bbox"].

Definition image_keys : list string :=
  ["index"; "width"; "height"; "ext"; "size_bytes"].

Definition extracted_data_keys : list string :=
  ["page_count"; "text_stats"; "fonts_used"; "images_count"; "metadata";
   "pages"].

(** *** The batch *)

(** Two extractors that differ at most in their processed files. *)
Definition same_config (a b : Extractor) : Prop :=
  output_dir a = output_dir b /\ enable_images a = enable_images b.

(** The path a future contributes to the output list. *)
Definition success_of (fut : string * option string) : list string :=
  match snd fut with
  | Some path => if PyStr.truthy path then [path] else []
  | None => []
  end.

Definition failure_of (fut : string * option string) : list string :=
  match success_of fut with
  | [] => [fst fut]
  | _ => []
  end.

(** *** Reading JSON back *)

(** A string made of digits only. *)
Fixpoint all_digits (s : string) : bool :=
  match s with
  | EmptyString => true
  | String c rest => Json.is_digit c && all_digits rest
  end.

(** The first character of a string, or a blank. *)
Definition head (s : string) : ascii :=
  match s with String c _ => c | EmptyString => " "%char end.

(** A character a number can go on with. *)
Definition number_char (c : ascii) : bool :=
  Json.is_digit c || Ascii.eqb c "." || Ascii.eqb c "e" || Ascii.eqb c "E"
  || Ascii.eqb c "+" || Ascii.eqb c "-".

(** What follows does not go on a number. *)
Definition stop (rest : string) : bool :=
  match rest with
  | EmptyString => true
  | String c _ => negb (number_char c)
  end.

(** A string of whitespace only. *)
Definition blank (w : string) : Prop := Json.skip_ws w = "".

(** A string that starts as a value does: with a character that is
    neither blank nor a closing bracket. *)
Definition value_start (s : string) : bool :=
  match s with
  | String c _ =>
      negb (Json.is_ws c) && negb (Ascii.eqb c "]") && negb (Ascii.eqb c "}")
  | EmptyString => false
  end.

(** The items of a non-empty list after the first, as the encoder writes
    them. *)
Definition more_items (ly : Json.layout) (level : nat)
  : list Json.value -> string :=
  fix more (l : list Json.value) : string :=
    match l with
    | [] => EmptyString
    | y :: r =>
        Json.item_separator ly ++ Json.newline_indent ly (S level)
        ++ Json.encode ly (S level) y ++ more r
    end.

Definition more_members (ly : Json.layout) (level : nat)
  : list (string * Json.value) -> string :=
  fix more (l : list (string * Json.value)) : string :=
    match l with
    | [] => EmptyString
    | (k', y) :: r =>
        Json.item_separator ly ++ Json.newline_indent ly (S level)
        ++ Json.encode_str k' ++ Json.key_separator ly
        ++ Json.encode ly (S level) y ++ more r
    end.

(** The layouts [save_result] uses: a comma between items, a colon, maybe
    followed by a space, after a key. *)
Definition good_layout (ly : Json.layout) : Prop :=
  Json.item_separator ly = ","
  /\ (Json.key_separator ly = ":" \/ Json.key_separator ly = ": ").

(** Induction over a value and the values inside it. *)
Section ValueInd.

Variable P : Json.value -> Prop.
Hypothesis Hnull : P Json.JNull.
Hypothesis Hbool : forall b, P (Json.JBool b).
Hypothesis Hint : forall n, P (Json.JInt n).
Hypothesis Hfloat : forall x, P (Json.JFloat x).
Hypothesis Hstr : forall s, P (Json.JStr s).
Hypothesis Hlist : forall items, Forall P items -> P (Json.JList items).
Hypothesis Hdict :
  forall fields, Forall (fun kv => P (snd kv)) fields -> P (Json.JDict fields).

Fixpoint value_ind' (v : Json.value) : P v :=
  match v with
  | Json.JNull => Hnull
  | Json.JBool b => Hbool b
  | Json.JInt n => Hint n
  | Json.JFloat x => Hfloat x
  | Json.JStr s => Hstr s
  | Json.JList items =>
      Hlist items
        ((fix go (l : list Json.value) : Forall P l :=
            match l with
            | [] => Forall_nil P
            | x :: r => Forall_cons x (value_ind' x) (go r)
            end) items)
  | Json.JDict fields =>
      Hdict fields
        ((fix go (l : list (string * Json.value))
            : Forall (fun kv => P (snd kv)) l :=
            match l with
            | [] => Forall_nil _
            | kv :: r => Forall_cons kv (value_ind' (snd kv)) (go r)
            end) fields)
  end.

End ValueInd.


(** *** Records that read back *)

(** The floats of a page read back. *)
Definition page_floats_ok (pc : PageContent) : bool :=
  forallb Json.float_ok (bbox pc).

(** A record as Python holds it and reads it back: its floats are finite
    and read back from their [repr], and its metadata, being dictionaries,
    have distinct keys. *)
Definition record_ok (r : PDFExtractionResult) : bool :=
  Json.float_ok (extraction_time r) && Json.float_ok (file_size_mb r)
  && forallb page_floats_ok (pages r)
  && forallb page_floats_ok (ed_pages (basic_extraction r))
  && Json.distinct_keys (map fst (metadata r))
  && Json.distinct_keys (map fst (ed_metadata (basic_extraction r))).


(** ** Notions of the further properties *)

(** A string of whitespace only; the empty string is one. *)
Fixpoint only_spaces (s : string) : bool :=
  match s with
  | EmptyString => true
  | String c rest => PyStr.is_space c && only_spaces rest
  end.

(** The record [_extract_page_content] builds for an image that
    resolves. *)
Definition image_record (img_index : Z) (base_image : Fitz.BaseImage)
  : ImageInfo :=
  {| index := img_index;
     width := match Fitz.bi_width base_image with Some w => w | None => 0 end;
     height := match Fitz.bi_height base_image with Some h => h | None => 0 end;
     ext := match Fitz.bi_ext base_image with
            | Some x => x | None => "unknown" end;
     size_bytes := match Fitz.bi_image base_image with
                   | Some b => PyStr.len b | None => 0 end |}.

(** Whether the image of a cross-reference number resolves. *)
Definition resolves (page : Fitz.Page) (xref : Z) : bool :=
  match Fitz.parent_extract_image page xref with
  | inr _ => true
  | inl _ => false
  end.

(** Whether a log record has a given level. *)
Definition has_level (l : log_level) (r : LogRecord) : bool :=
  match fst r, l with
  | INFO, INFO | WARNING, WARNING | ERROR, ERROR => true
  | _, _ => false
  end.

(** The log records of a given level. *)
Definition of_level (l : log_level) (lg : list LogRecord) : list LogRecord :=
  filter (has_level l) lg.

(** What an entry of the raw metadata contributes: its value stripped,
    unless the value is [None], empty or blank. *)
Definition kept_metadata (kv : string * option string)
  : list (string * string) :=
  match snd kv with
  | Some v =>
      if PyStr.truthy (PyStr.strip v) then [(fst kv, PyStr.strip v)] else []
  | None => []
  end.

(** The exception of the pass of the page loop over the page at index
    [page_num], when loading or extracting the page raised. *)
Definition page_error (set_iter : PySet.t -> list string) (self : Extractor)
    (page_num : Z) (p : exn + Fitz.Page) : option exn :=
  match (page <- p ;; _extract_page_content set_iter self page page_num) with
  | inl e => Some e
  | inr _ => None
  end.

(** [len(s)] for a set: the number of its elements. *)
Definition set_len (s : PySet.t) : Z :=
  Z.of_nat (List.length (PySet.distinct s)).

(** A value of the statistics dictionary: a number, a string or a
    truth value. *)
Inductive StatValue : Type :=
  | SInt (n : Z)
  | SStr (s : string)
  | SBool (b : bool).

(** [get_processing_stats()], a dictionary in the order of its entries;
    [numpy_available] is the flag [NUMPY_AVAILABLE] the module sets when
    it is imported. *)
Definition get_processing_stats (numpy_available : bool) (self : Extractor)
  : list (string * StatValue) :=
  [("files_processed", SInt (set_len (processed_files self)));
   ("output_directory", SStr (output_dir self));
   ("image_extraction_enabled", SBool (enable_images self));
   ("numpy_available", SBool numpy_available)].



(** ** The demonstration and the pipeline test *)


(** What the clock gives while the demonstration handles one file: the
    readings of the extraction and the stamps of the two saves. *)
Record DemoClock : Type := {
  dc_extract : ExtractClock;
  dc_json : string;
  dc_summary : string
}.


Section Demo.

Variable set_iter : PySet.t -> list string.
Variable fs : FileSystem.
Variable listdir : string -> option (list string).
Variable clock_of : string -> DemoClock.
Variable numpy_available : bool.




End Demo.





(** Whether the character [c] does not occur in [s]. *)
Fixpoint lacks (c : ascii) (s : string) : bool :=
  match s with
  | EmptyString => true
  | String d rest => negb (Ascii.eqb d c) && lacks c rest
  end.

(** A page record with its images taken out. *)
Definition without_images (pc : PageContent) : PageContent :=
  {| page_number := page_number pc;
     text := text pc;
     word_count := word_count pc;
     char_count := char_count pc;
     fonts := fonts pc;
     images := [];
     bbox := bbox pc |}.

(** Two states of the page loop that agree on everything but the images,
    of which the second has none. *)
Definition same_but_images (st st' : LoopState) : Prop :=
  ls_total_words st' = ls_total_words st
  /\ ls_total_chars st' = ls_total_chars st
  /\ ls_all_fonts st' = ls_all_fonts st
  /\ ls_total_images st' = 0
  /\ ls_pages_content st' = map without_images (ls_pages_content st).

(** Whether the file at a path exists and the hash of its bytes is among
    the processed files. *)
Definition cached (fs : FileSystem) (self : Extractor) (pdf_path : string)
  : bool :=
  match fs pdf_path with
  | Some f =>
      match md5_hexdigest f with
      | inr h => PySet.mem h (processed_files self)
      | inl _ => false
      end
  | None => false
  end.

(** A folder [../test_pdfs] for the scripts: a document of five pages, a
    file that is no PDF and a text file. *)
Module Stage.

Definition fs : FileSystem := fun path =>
  if String.eqb path "../test_pdfs/a.pdf" then Sample.fs "in/a.pdf"
  else if String.eqb path "../test_pdfs/b.pdf" then Sample.fs "in/b.pdf"
  else None.

Definition listdir (d : string) : option (list string) :=
  if String.eqb d "../test_pdfs" then Some ["a.pdf"; "b.pdf"; "readme.md"]
  else None.

Definition clock (path : string) : DemoClock :=
  {| dc_extract := Sample.clock; dc_json := "20240501_100003";
     dc_summary := "20240501_100004" |}.

End Stage.
(** * Properties *)

(** ** The runtime model on small inputs *)

Example str_examples :
  PyInt.str 0 = "0" /\ PyInt.str 1234 = "1234" /\ PyInt.str (-50) = "-50"
  /\ PyInt.format_comma 1234567 = "1,234,567"
  /\ PyInt.format_comma 999 = "999" /\ PyInt.format_comma 1000 = "1,000"
  /\ PyInt.format_comma 0 = "0"
  /\ PyInt.digits_padded 2 5 = "05".
Proof. repeat split; reflexivity. Qed.

Example split_examples :
  PyStr.split_len "" = 0 /\ PyStr.split_len "  " = 0
  /\ PyStr.split_len " a  bc d " = 3
  /\ PyStr.strip "  a b  " = "a b" /\ PyStr.strip "   " = ""
  /\ PyStr.lower "JSON" = "json".
Proof. repeat split; reflexivity. Qed.

Example format_f_examples :
  PyFloat.format_f 1 (PyFloat.of_int 12) = "12.0"
  /\ PyFloat.format_f 1 (PyFloat.of_decimal false 1025 (-2)) = "10.2"
  /\ PyFloat.format_f 1 (PyFloat.of_decimal false 25 (-2)) = "0.2"
  /\ PyFloat.format_f 1 (PyFloat.of_decimal false 35 (-2)) = "0.3"
  /\ PyFloat.format_f 2 (PyFloat.of_decimal false 12345 (-4)) = "1.23"
  /\ PyFloat.format_f 1 (PyFloat.of_decimal true 1 (-2)) = "-0.0"
  /\ PyFloat.format_f 1 PyFloat.zero = "0.0"
  /\ PyFloat.format_comma_f 0 (PyFloat.of_decimal false 12345675 (-1))
     = "1,234,568"
  /\ PyFloat.format_comma_f 0 PyFloat.zero = "0"
  /\ PyFloat.format_comma_f 0 (PyFloat.of_decimal false 5 (-1)) = "0"
  /\ PyFloat.format_comma_f 0 (PyFloat.of_decimal false 15 (-1)) = "2".
Proof. repeat split; vm_compute; reflexivity. Qed.

Example repr_examples :
  PyFloat.repr (PyFloat.of_int 60) = "60.0"
  /\ PyFloat.repr (PyFloat.div (PyFloat.of_int 1) (PyFloat.of_int 10)) = "0.1"
  /\ PyFloat.repr (PyFloat.div (PyFloat.of_int 1) (PyFloat.of_int 3))
     = "0.3333333333333333"
  /\ PyFloat.repr (PyFloat.div (PyFloat.of_int 2) (PyFloat.of_int 3))
     = "0.6666666666666666"
  /\ PyFloat.repr (PyFloat.of_int (10 ^ 16)) = "1e+16"
  /\ PyFloat.repr (PyFloat.of_int (10 ^ 15)) = "1000000000000000.0"
  /\ PyFloat.repr (PyFloat.of_decimal false 1 (-4)) = "0.0001"
  /\ PyFloat.repr (PyFloat.of_decimal false 1 (-5)) = "1e-05"
  /\ PyFloat.repr (PyFloat.of_decimal true 15 299) = "-1.5e+300"
  /\ PyFloat.repr (PyFloat.of_decimal false 5 (-324)) = "5e-324"
  /\ PyFloat.repr (PyFloat.div (PyFloat.of_int 1) (PyFloat.of_int 1048576))
     = "9.5367431640625e-07"
  /\ PyFloat.repr (PyFloat.of_decimal false 59527 (-2)) = "595.27"
  /\ PyFloat.repr (PyFloat.sub (PyFloat.of_decimal false 3 (-1))
                     (PyFloat.of_decimal false 1 (-1)))
     = "0.19999999999999998".
Proof. repeat split; vm_compute; reflexivity. Qed.

Example path_examples :
  PyPath.name "docs/in/report.v2.pdf" = "report.v2.pdf"
  /\ PyPath.stem "docs/in/report.v2.pdf" = "report.v2"
  /\ PyPath.stem "a/.hidden" = ".hidden"
  /\ PyPath.stem "plain" = "plain"
  /\ PyPath.name "a/b/" = "b"
  /\ PyPath.join "out" "x.json" = "out/x.json".
Proof. repeat split; reflexivity. Qed.

Example sorted_examples :
  sorted ["b"; "a"; "c"; "B"] = ["B"; "a"; "b"; "c"]
  /\ PySet.distinct ["x"; "y"; "x"; "z"; "y"] = ["x"; "y"; "z"].
Proof. repeat split; reflexivity. Qed.

Example dumps_compact_example :
  Json.dumps Json.compact
    (Json.JDict [("a", Json.JList [Json.JInt 1; Json.JFloat (PyFloat.of_int 2)]);
                 ("b", Json.JDict []); ("c", Json.JStr "x")])
  = String.concat ""
      ["{"; Json.encode_str "a"; ":[1,2.0],"; Json.encode_str "b"; ":{},";
       Json.encode_str "c"; ":"; Json.encode_str "x"; "}"].
Proof. vm_compute; reflexivity. Qed.

Example dumps_indented_example :
  Json.dumps Json.indented
    (Json.JDict [("a", Json.JList [Json.JInt 1; Json.JInt 2]);
                 ("b", Json.JList [])])
  = String.concat (String Json.newline "")
      ["{";
       "  " ++ Json.encode_str "a" ++ ": [";
       "    1,";
       "    2";
       "  ],";
       "  " ++ Json.encode_str "b" ++ ": []";
       "}"].
Proof. vm_compute; reflexivity. Qed.

Example loads_examples :
  Json.loads "[1, 2.5, -3e2, true, null]"
  = Some (Json.JList [Json.JInt 1; Json.JFloat (PyFloat.of_decimal false 25 (-1));
                      Json.JFloat (PyFloat.of_int (-300)); Json.JBool true;
                      Json.JNull])
  /\ Json.loads " [ ] " = Some (Json.JList [])
  /\ Json.loads "[1,]" = None
  /\ Json.loads "01" = None
  /\ Json.loads "1 2" = None
  /\ Json.loads (Json.dumps Json.indented
                   (Json.JDict [("a", Json.JList [Json.JInt 1; Json.JStr "x y"]);
                                ("b", Json.JDict [])]))
     = Some (Json.JDict [("a", Json.JList [Json.JInt 1; Json.JStr "x y"]);
                         ("b", Json.JDict [])])
  /\ Json.float_ok (PyFloat.div (PyFloat.of_int 1) (PyFloat.of_int 3)) = true
  /\ Json.float_ok (PyFloat.of_decimal false 5 (-324)) = true.
Proof. repeat split; vm_compute; reflexivity. Qed.

(** ** The page loop *)

Section PageLoop.

Variable set_iter : PySet.t -> list string.
Variable self : Extractor.

Lemma sum_of_app {A : Type} (f : A -> Z) (l1 l2 : list A) :
  sum_of f (l1 ++ l2)%list = sum_of f l1 + sum_of f l2.
Proof.
  induction l1 as [|a l1 IH]; simpl; [reflexivity|].
  rewrite IH. lia.
Qed.

(** The loop leaves in [pages_content] the records of the attempts that
    succeeded, in order, and each total has grown by the sum over them. *)
Lemma page_loop_spec (len_doc : Z) (pgs : list (exn + Fitz.Page)) :
  forall (page_num : Z) (st : LoopState),
    let st' := fst (page_loop set_iter self len_doc pgs page_num st) in
    let got := successes (page_attempts set_iter self page_num pgs) in
    ls_pages_content st' = (ls_pages_content st ++ got)%list
    /\ ls_total_words st' = ls_total_words st + sum_of word_count got
    /\ ls_total_chars st' = ls_total_chars st + sum_of char_count got
    /\ ls_total_images st'
       = ls_total_images st
         + sum_of (fun pc => Z.of_nat (List.length (images pc))) got.
Proof.
  induction pgs as [|p rest IH]; intros page_num st; cbn zeta.
  - simpl. rewrite app_nil_r. repeat split; lia.
  - simpl page_loop. simpl page_attempts. unfold page_attempt.
    destruct (page <- p ;; _extract_page_content set_iter self page page_num)
      as [e | [pc lg]].
    + specialize (IH (page_num + 1) st). cbn zeta in IH.
      destruct (page_loop set_iter self len_doc rest (page_num + 1) st)
        as [st' lg']. simpl in *. exact IH.
    + specialize (IH (page_num + 1) (loop_add st pc)). cbn zeta in IH.
      destruct (page_loop set_iter self len_doc rest (page_num + 1)
                          (loop_add st pc)) as [st' lg'].
      simpl in *. destruct IH as (Hp & Hw & Hc & Hi).
      rewrite Hp, Hw, Hc, Hi. rewrite <- app_assoc. simpl.
      repeat split; lia.
Qed.

(** A record made at index [page_num] carries the number [page_num + 1]. *)
Lemma page_attempt_number (page_num : Z) (p : exn + Fitz.Page)
    (pc : PageContent) :
  page_attempt set_iter self page_num p = Some pc ->
  page_number pc = page_num + 1.
Proof.
  unfold page_attempt, _extract_page_content.
  destruct p as [e | page]; simpl; [discriminate|].
  destruct (Fitz.get_text page) as [e | t]; simpl; [discriminate|].
  intros H; injection H as <-; reflexivity.
Qed.

Lemma page_attempts_length (pgs : list (exn + Fitz.Page)) :
  forall page_num,
    List.length (page_attempts set_iter self page_num pgs) = List.length pgs.
Proof.
  induction pgs as [|p rest IH]; intros page_num; simpl; [reflexivity|].
  now rewrite IH.
Qed.

(** The attempt at position [i] is the attempt at index [page_num + i]. *)
Lemma page_attempts_nth (pgs : list (exn + Fitz.Page)) :
  forall (page_num : Z) (i : nat) (a : option PageContent),
    nth_error (page_attempts set_iter self page_num pgs) i = Some a ->
    exists p, nth_error pgs i = Some p
              /\ a = page_attempt set_iter self (page_num + Z.of_nat i) p.
Proof.
  induction pgs as [|p rest IH]; intros page_num i a H.
  - destruct i; discriminate.
  - destruct i as [|i]; simpl in H.
    + injection H as <-. exists p. split; [reflexivity|].
      now rewrite Z.add_0_r.
    + apply IH in H. destruct H as (q & Hq & ->). exists q.
      split; [exact Hq|]. f_equal. lia.
Qed.

End PageLoop.

(** ** Lists of attempts *)

Lemma successes_app {A : Type} (l1 l2 : list (option A)) :
  successes (l1 ++ l2) = (successes l1 ++ successes l2)%list.
Proof.
  induction l1 as [|[a|] l1 IH]; simpl; [reflexivity| |exact IH].
  now rewrite IH.
Qed.

Lemma successes_all {A : Type} (l : list (option A)) :
  Forall (fun a => exists x, a = Some x) l ->
  Forall2 (fun a x => a = Some x) l (successes l).
Proof.
  induction 1 as [|a l [x ->] _ IH]; simpl; constructor; auto.
Qed.

Lemma successes_In {A : Type} (l : list (option A)) (x : A) :
  In x (successes l) <-> exists i, nth_error l i = Some (Some x).
Proof.
  induction l as [|[a|] l IH]; simpl.
  - split; [intros []|intros [[|i] H]; discriminate].
  - split.
    + intros [<- | H]; [exists 0%nat; reflexivity|].
      apply IH in H. destruct H as [i H]. exists (S i). exact H.
    + intros [[|i] H]; simpl in H.
      * injection H as ->. now left.
      * right. apply IH. now exists i.
  - rewrite IH. split.
    + intros [i H]. exists (S i). exact H.
    + intros [[|i] H]; simpl in H; [discriminate|]. now exists i.
Qed.

Lemma nth_error_split_at {A : Type} (l : list A) (k : nat) (a : A) :
  nth_error l k = Some a -> l = (firstn k l ++ a :: skipn (S k) l)%list.
Proof.
  revert k. induction l as [|b l IH]; intros [|k] H; try discriminate.
  - simpl in H. injection H as ->. reflexivity.
  - simpl in H. simpl. f_equal. now apply IH.
Qed.

Section PageNumbers.

Variable set_iter : PySet.t -> list string.
Variable self : Extractor.

(** A number is among the page numbers of the successful attempts exactly
    when it is one more than the index of a successful attempt. *)
Lemma page_numbers_In (pgs : list (exn + Fitz.Page)) (page_num j : Z) :
  In j (map page_number
          (successes (page_attempts set_iter self page_num pgs)))
  <-> exists i pc,
        nth_error (page_attempts set_iter self page_num pgs) i
        = Some (Some pc)
        /\ j = page_num + Z.of_nat i + 1.
Proof.
  split.
  - intros H. apply in_map_iff in H. destruct H as (pc & <- & H).
    apply successes_In in H. destruct H as [i H]. exists i, pc.
    split; [exact H|].
    apply page_attempts_nth in H. destruct H as (p & _ & Hp).
    symmetry in Hp. now apply page_attempt_number in Hp.
  - intros (i & pc & H & ->). apply in_map_iff. exists pc. split.
    + pose proof H as H'. apply page_attempts_nth in H'.
      destruct H' as (p & _ & Hp). symmetry in Hp.
      now apply page_attempt_number in Hp.
    + apply successes_In. now exists i.
Qed.

(** The page numbers of the successful attempts increase strictly. *)
Lemma page_numbers_sorted (pgs : list (exn + Fitz.Page)) :
  forall page_num,
    StronglySorted Z.lt
      (map page_number
         (successes (page_attempts set_iter self page_num pgs))).
Proof.
  induction pgs as [|p rest IH]; intros page_num; simpl; [constructor|].
  destruct (page_attempt set_iter self page_num p) as [pc|] eqn:E;
    [|apply IH].
  simpl. constructor; [apply IH|].
  apply Forall_forall. intros j Hj.
  apply page_numbers_In in Hj. destruct Hj as (i & pc' & _ & ->).
  apply page_attempt_number in E. lia.
Qed.

End PageNumbers.

(** ** What the extractor object contributes to a page *)

Lemma _extract_page_content_ext (set_iter : PySet.t -> list string)
    (self self' : Extractor) (page : Fitz.Page) (page_num : Z) :
  enable_images self = enable_images self' ->
  _extract_page_content set_iter self page page_num
  = _extract_page_content set_iter self' page page_num.
Proof.
  intros H. unfold _extract_page_content, page_images. now rewrite H.
Qed.

Lemma page_loop_ext (set_iter : PySet.t -> list string)
    (self self' : Extractor) (len_doc : Z) (pgs : list (exn + Fitz.Page)) :
  enable_images self = enable_images self' ->
  forall page_num st,
    page_loop set_iter self len_doc pgs page_num st
    = page_loop set_iter self' len_doc pgs page_num st.
Proof.
  intros H. induction pgs as [|p rest IH]; intros page_num st; simpl;
    [reflexivity|].
  destruct p as [e | page]; simpl.
  - now rewrite IH.
  - rewrite (_extract_page_content_ext set_iter self self' page page_num H).
    destruct (_extract_page_content set_iter self' page page_num)
      as [e | [pc lg]]; now rewrite IH.
Qed.

(** ** The document extractor *)

Section DocumentExtractor.

Variable set_iter : PySet.t -> list string.

(** When the file exists, its bytes can be read and the reader opens it,
    the extraction returns a record: its pages are the successful attempts
    and its totals the sums over them. *)
Lemma extract_pdf_content_ok (fs : FileSystem) (self : Extractor)
    (clk : ExtractClock) (pdf_path : string) (skip_cache : bool)
    (f : FileEntry) (h : string) (doc : Fitz.Document) :
  fs pdf_path = Some f ->
  md5_hexdigest f = inr h ->
  fitz_open f = inr doc ->
  exists result self' lg,
    extract_pdf_content set_iter fs self clk pdf_path skip_cache
    = (inr result, self', lg)
    /\ pages result
       = successes (page_attempts set_iter self 0 (Fitz.load_page doc))
    /\ page_count result = Z.of_nat (List.length (pages result))
    /\ total_words result = sum_of word_count (pages result)
    /\ total_chars result = sum_of char_count (pages result)
    /\ images_count result
       = sum_of (fun pc => Z.of_nat (List.length (images pc))) (pages result)
    /\ file_hash result = h
    /\ processed_files self' = PySet.add (processed_files self) h.
Proof.
  intros Hfs Hmd5 Hopen. unfold extract_pdf_content, _calculate_file_hash.
  rewrite Hfs, Hmd5, Hopen.
  destruct (Fitz.metadata_raw doc) as [e | raw];
    pose proof (page_loop_spec set_iter self
                  (Z.of_nat (List.length (Fitz.load_page doc)))
                  (Fitz.load_page doc) 0 loop_init) as Hloop;
    cbn zeta in Hloop;
    destruct (page_loop set_iter self _ (Fitz.load_page doc) 0 loop_init)
      as [st lg]; simpl in Hloop;
    destruct Hloop as (Hp & Hw & Hc & Hi);
    eexists; eexists; eexists; (split; [reflexivity|]); simpl;
    rewrite Hp, Hw, Hc, Hi; repeat split; reflexivity.
Qed.

(** A returned record comes from a file that exists, whose bytes were read
    and which the reader opened. *)
Lemma extract_pdf_content_inv (fs : FileSystem) (self self' : Extractor)
    (clk : ExtractClock) (pdf_path : string) (skip_cache : bool)
    (result : PDFExtractionResult) (lg : list LogRecord) :
  extract_pdf_content set_iter fs self clk pdf_path skip_cache
  = (inr result, self', lg) ->
  exists f h doc,
    fs pdf_path = Some f /\ md5_hexdigest f = inr h /\ fitz_open f = inr doc.
Proof.
  unfold extract_pdf_content, _calculate_file_hash.
  destruct (fs pdf_path) as [f|]; [|discriminate].
  destruct (md5_hexdigest f) as [e | h] eqn:Hmd5; [discriminate|].
  destruct (fitz_open f) as [e | doc] eqn:Hopen; [discriminate|].
  intros _. exists f, h, doc. repeat split; assumption.
Qed.

(** What a returned record holds. *)
Lemma extract_pdf_content_returned (fs : FileSystem) (self self' : Extractor)
    (clk : ExtractClock) (pdf_path : string) (skip_cache : bool)
    (result : PDFExtractionResult) (lg : list LogRecord) :
  extract_pdf_content set_iter fs self clk pdf_path skip_cache
  = (inr result, self', lg) ->
  exists f doc,
    fs pdf_path = Some f /\ fitz_open f = inr doc
    /\ pages result
       = successes (page_attempts set_iter self 0 (Fitz.load_page doc))
    /\ page_count result = Z.of_nat (List.length (pages result))
    /\ total_words result = sum_of word_count (pages result)
    /\ total_chars result = sum_of char_count (pages result)
    /\ images_count result
       = sum_of (fun pc => Z.of_nat (List.length (images pc))) (pages result).
Proof.
  intros H. destruct (extract_pdf_content_inv _ _ _ _ _ _ _ _ H)
    as (f & h & doc & Hfs & Hmd5 & Hopen).
  destruct (extract_pdf_content_ok fs self clk pdf_path skip_cache
              f h doc Hfs Hmd5 Hopen)
    as (r & s & l & Heq & Hp & Hn & Hw & Hc & Hi & _).
  rewrite H in Heq. injection Heq as <- <- <-.
  exists f, doc. repeat split; assumption.
Qed.

(** C1: every record [extract_pdf_content] returns has
    [page_count == len(pages)], [total_words] and [total_chars] equal to
    the sums of the pages' [word_count] and [char_count], and
    [images_count] equal to the sum of the lengths of the pages' image
    lists. *)
Theorem extract_pdf_content_aggregates (fs : FileSystem)
    (self self' : Extractor) (clk : ExtractClock) (pdf_path : string)
    (skip_cache : bool) (result : PDFExtractionResult)
    (lg : list LogRecord) :
  extract_pdf_content set_iter fs self clk pdf_path skip_cache
  = (inr result, self', lg) ->
  page_count result = Z.of_nat (List.length (pages result))
  /\ total_words result = sum_of word_count (pages result)
  /\ total_chars result = sum_of char_count (pages result)
  /\ images_count result
     = sum_of (fun pc => Z.of_nat (List.length (images pc))) (pages result).
Proof.
  intros H.
  destruct (extract_pdf_content_returned _ _ _ _ _ _ _ _ H)
    as (f & doc & _ & _ & _ & Hn & Hw & Hc & Hi).
  repeat split; assumption.
Qed.

(** C2: when the attempt at exactly one page index [k] fails and those at
    all other indices succeed, [extract_pdf_content] returns a record whose
    pages are the records of the other pages in page order: one page fewer
    than the document has, and none numbered [k + 1]. *)
Theorem extract_pdf_content_isolates_page (fs : FileSystem)
    (self : Extractor) (clk : ExtractClock) (pdf_path : string)
    (skip_cache : bool) (f : FileEntry) (h : string) (doc : Fitz.Document)
    (k : nat) :
  fs pdf_path = Some f ->
  md5_hexdigest f = inr h ->
  fitz_open f = inr doc ->
  nth_error (page_attempts set_iter self 0 (Fitz.load_page doc)) k
  = Some None ->
  (forall i, i <> k -> (i < List.length (Fitz.load_page doc))%nat ->
             exists pc,
               nth_error (page_attempts set_iter self 0 (Fitz.load_page doc)) i
               = Some (Some pc)) ->
  exists result self' lg,
    extract_pdf_content set_iter fs self clk pdf_path skip_cache
    = (inr result, self', lg)
    /\ Forall2 (fun a pc => a = Some pc)
         (firstn k (page_attempts set_iter self 0 (Fitz.load_page doc))
          ++ skipn (S k) (page_attempts set_iter self 0 (Fitz.load_page doc)))
         (pages result)
    /\ page_count result = Z.of_nat (List.length (Fitz.load_page doc)) - 1
    /\ (forall pc, In pc (pages result) -> page_number pc <> Z.of_nat k + 1).
Proof.
  intros Hfs Hmd5 Hopen Hk Hothers.
  destruct (extract_pdf_content_ok fs self clk pdf_path skip_cache
              f h doc Hfs Hmd5 Hopen)
    as (result & self' & lg & Heq & Hp & Hn & _).
  exists result, self', lg. split; [exact Heq|].
  set (attempts := page_attempts set_iter self 0 (Fitz.load_page doc)) in *.
  assert (Hlen : List.length attempts = List.length (Fitz.load_page doc))
    by apply page_attempts_length.
  pose proof (nth_error_split_at attempts k None Hk) as Hsplit.
  assert (Hall : Forall (fun a => exists x : PageContent, a = Some x)
                   (firstn k attempts ++ skipn (S k) attempts)).
  { apply Forall_forall. intros a Ha. apply in_app_or in Ha.
    assert (Hklt : (k < List.length attempts)%nat)
      by (apply nth_error_Some; rewrite Hk; discriminate).
    destruct Ha as [Ha | Ha]; apply In_nth_error in Ha; destruct Ha as [i Hi].
    - assert (Hik : (i < k)%nat).
      { assert (Hi' : nth_error (firstn k attempts) i <> None)
          by (rewrite Hi; discriminate).
        apply nth_error_Some in Hi'. rewrite length_firstn in Hi'. lia. }
      rewrite nth_error_firstn in Hi.
      destruct (Nat.ltb_spec i k) as [_|]; [|lia].
      destruct (Hothers i) as [pc Hpc]; [lia|lia|].
      rewrite Hpc in Hi. injection Hi as <-. now exists pc.
    - rewrite nth_error_skipn in Hi.
      assert (Hi' : (S k + i < List.length attempts)%nat)
        by (apply nth_error_Some; rewrite Hi; discriminate).
      destruct (Hothers (S k + i)%nat) as [pc Hpc]; [lia|lia|].
      rewrite Hpc in Hi. injection Hi as <-. now exists pc. }
  assert (Hsucc : successes attempts
                  = successes (firstn k attempts ++ skipn (S k) attempts)).
  { rewrite Hsplit at 1. rewrite !successes_app. reflexivity. }
  split; [|split].
  - rewrite Hp, Hsucc. now apply successes_all.
  - rewrite Hn, Hp, Hsucc.
    rewrite <- (Forall2_length (successes_all _ Hall)).
    rewrite length_app, length_firstn, length_skipn.
    assert (Hklt : (k < List.length attempts)%nat)
      by (apply nth_error_Some; rewrite Hk; discriminate).
    lia.
  - intros pc Hin Hnum. rewrite Hp in Hin.
    assert (Hj : In (page_number pc) (map page_number (successes attempts)))
      by now apply in_map.
    apply page_numbers_In in Hj. destruct Hj as (i & pc' & Hi & Hij).
    assert (i = k) by lia. subst i. unfold attempts in *.
    rewrite Hk in Hi. discriminate.
Qed.

(** C10: in a returned record every page carries the number of its
    original index in the document, counted from one; the numbers increase
    strictly along [pages], and a number of the document is missing exactly
    when the attempt at that page failed. *)
Theorem extract_pdf_content_page_numbers (fs : FileSystem)
    (self self' : Extractor) (clk : ExtractClock) (pdf_path : string)
    (skip_cache : bool) (result : PDFExtractionResult)
    (lg : list LogRecord) :
  extract_pdf_content set_iter fs self clk pdf_path skip_cache
  = (inr result, self', lg) ->
  exists f doc,
    fs pdf_path = Some f /\ fitz_open f = inr doc
    /\ (forall pc, In pc (pages result) ->
          exists i,
            nth_error (page_attempts set_iter self 0 (Fitz.load_page doc)) i
            = Some (Some pc)
            /\ page_number pc = Z.of_nat i + 1)
    /\ StronglySorted Z.lt (map page_number (pages result))
    /\ (forall i, (i < List.length (Fitz.load_page doc))%nat ->
          (In (Z.of_nat i + 1) (map page_number (pages result))
           <-> nth_error (page_attempts set_iter self 0 (Fitz.load_page doc)) i
               <> Some None)).
Proof.
  intros H.
  destruct (extract_pdf_content_returned _ _ _ _ _ _ _ _ H)
    as (f & doc & Hfs & Hopen & Hp & _).
  exists f, doc. split; [exact Hfs|]. split; [exact Hopen|].
  rewrite Hp. split; [|split].
  - intros pc Hin. apply successes_In in Hin. destruct Hin as [i Hi].
    exists i. split; [exact Hi|].
    apply page_attempts_nth in Hi. destruct Hi as (p & _ & Hpc).
    symmetry in Hpc. apply page_attempt_number in Hpc. lia.
  - apply page_numbers_sorted.
  - intros i Hi. rewrite page_numbers_In. split.
    + intros (i' & pc & Hi' & Heq). assert (i' = i) by lia. subst i'.
      rewrite Hi'. discriminate.
    + intros Hne.
      destruct (nth_error (page_attempts set_iter self 0 (Fitz.load_page doc)) i)
        as [[pc|]|] eqn:E.
      * exists i, pc. split; [exact E|lia].
      * now elim Hne.
      * apply nth_error_None in E. rewrite page_attempts_length in E. lia.
Qed.

(** C4: when the hash of the file is already among the processed files,
    [extract_pdf_content] returns what it returns for an extractor whose
    set of processed files is empty, a record whenever the reader opens the
    file, and its log differs by the cache notice alone. *)
Theorem extract_pdf_content_cache_advisory (fs : FileSystem)
    (self : Extractor) (clk : ExtractClock) (pdf_path : string)
    (f : FileEntry) (h : string) :
  fs pdf_path = Some f ->
  md5_hexdigest f = inr h ->
  PySet.mem h (processed_files self) = true ->
  let fresh := {| output_dir := output_dir self;
                  enable_images := enable_images self;
                  processed_files := PySet.empty |} in
  let hit := extract_pdf_content set_iter fs self clk pdf_path false in
  let miss := extract_pdf_content set_iter fs fresh clk pdf_path false in
  fst (fst hit) = fst (fst miss)
  /\ snd hit
     = (INFO, " File already processed (cached): " ++ PyPath.name pdf_path)
       :: snd miss
  /\ (forall doc, fitz_open f = inr doc ->
        exists result, fst (fst hit) = inr result).
Proof.
  intros Hfs Hmd5 Hmem fresh hit miss. subst hit miss.
  unfold extract_pdf_content, _calculate_file_hash. rewrite Hfs, Hmd5, Hmem. simpl.
  destruct (fitz_open f) as [e | doc].
  - simpl. repeat split. intros doc Hdoc. discriminate.
  - rewrite (page_loop_ext set_iter self fresh _ (Fitz.load_page doc) eq_refl).
    destruct (Fitz.metadata_raw doc) as [e | raw];
      destruct (page_loop set_iter fresh _ (Fitz.load_page doc) 0 loop_init)
        as [st lg]; simpl; repeat split; intros; eexists; reflexivity.
Qed.

End DocumentExtractor.

(** *** The document extractor on the sample document *)

Example extract_sample_document :
  exists result self' lg,
    extract_pdf_content Sample.insertion_order Sample.fs Sample.extractor
      Sample.clock "in/a.pdf" false = (inr result, self', lg)
    /\ map page_number (pages result) = [1; 2; 3; 5]
    /\ map word_count (pages result) = [2; 0; 3; 2]
    /\ map char_count (pages result) = [11; 2; 13; 9]
    /\ map fonts (pages result)
       = [["Arial (12.0pt)"]; []; ["Times (10.5pt)"; "Arial (12.0pt)"]; []]
    /\ map (fun pc => map index (images pc)) (pages result)
       = [[]; []; [0]; []]
    /\ page_count result = 4 /\ total_words result = 7
    /\ total_chars result = 35 /\ images_count result = 1
    /\ fonts_used result = ["Arial (12.0pt)"; "Times (10.5pt)"]
    /\ metadata result = [("title", "Report"); ("producer", "pdfTeX")]
    /\ PyFloat.repr (file_size_mb result) = "3.0"
    /\ PyFloat.repr (extraction_time result) = "2.5"
    /\ processed_files self' = ["0cc175b9c0f1b6a831c399e269772661"].
Proof.
  eexists; eexists; eexists. split; [vm_compute; reflexivity|].
  repeat split; vm_compute; reflexivity.
Qed.

Lemma extract_pdf_content_aggregates_witness :
  exists result self' lg,
    extract_pdf_content Sample.insertion_order Sample.fs Sample.extractor
      Sample.clock "in/a.pdf" false = (inr result, self', lg)
    /\ (page_count result = Z.of_nat (List.length (pages result))
        /\ total_words result = sum_of word_count (pages result)
        /\ total_chars result = sum_of char_count (pages result)
        /\ images_count result
           = sum_of (fun pc => Z.of_nat (List.length (images pc)))
                    (pages result)).
Proof.
  eexists; eexists; eexists. split; [vm_compute; reflexivity|].
  eapply (extract_pdf_content_aggregates Sample.insertion_order Sample.fs
            Sample.extractor _ Sample.clock "in/a.pdf" false _ _).
  vm_compute; reflexivity.
Defined.

Lemma extract_pdf_content_isolates_page_witness :
  exists result self' lg,
    extract_pdf_content Sample.insertion_order Sample.fs Sample.extractor
      Sample.clock "in/a.pdf" false = (inr result, self', lg)
    /\ Forall2 (fun a pc => a = Some pc)
         (firstn 3 (page_attempts Sample.insertion_order Sample.extractor 0
                      (Fitz.load_page Sample.five_pages))
          ++ skipn 4 (page_attempts Sample.insertion_order Sample.extractor 0
                        (Fitz.load_page Sample.five_pages)))
         (pages result)
    /\ page_count result
       = Z.of_nat (List.length (Fitz.load_page Sample.five_pages)) - 1
    /\ (forall pc, In pc (pages result) -> page_number pc <> Z.of_nat 3 + 1).
Proof.
  eapply (extract_pdf_content_isolates_page Sample.insertion_order Sample.fs
            Sample.extractor Sample.clock "in/a.pdf" false _ _
            Sample.five_pages 3).
  - reflexivity.
  - reflexivity.
  - reflexivity.
  - vm_compute; reflexivity.
  - intros i Hne Hlt.
    destruct i as [|[|[|[|[|i]]]]];
      try (eexists; vm_compute; reflexivity);
      [now elim Hne | simpl in Hlt; lia].
Defined.

Lemma extract_pdf_content_page_numbers_witness :
  exists f doc,
    Sample.fs "in/a.pdf" = Some f /\ fitz_open f = inr doc
    /\ (forall pc,
          In pc (successes (page_attempts Sample.insertion_order
                              Sample.extractor 0 (Fitz.load_page doc))) ->
          exists i,
            nth_error (page_attempts Sample.insertion_order Sample.extractor 0
                         (Fitz.load_page doc)) i = Some (Some pc)
            /\ page_number pc = Z.of_nat i + 1)
    /\ StronglySorted Z.lt
         (map page_number
            (successes (page_attempts Sample.insertion_order
                          Sample.extractor 0 (Fitz.load_page doc))))
    /\ (forall i, (i < List.length (Fitz.load_page doc))%nat ->
          (In (Z.of_nat i + 1)
              (map page_number
                 (successes (page_attempts Sample.insertion_order
                               Sample.extractor 0 (Fitz.load_page doc))))
           <-> nth_error (page_attempts Sample.insertion_order
                            Sample.extractor 0 (Fitz.load_page doc)) i
               <> Some None)).
Proof.
  assert (H : exists result self' lg,
             extract_pdf_content Sample.insertion_order Sample.fs
               Sample.extractor Sample.clock "in/a.pdf" false
             = (inr result, self', lg)
             /\ pages result
                = successes (page_attempts Sample.insertion_order
                               Sample.extractor 0
                               (Fitz.load_page Sample.five_pages))).
  { eexists; eexists; eexists. split; vm_compute; reflexivity. }
  destruct H as (result & self' & lg & H & Hp).
  destruct (extract_pdf_content_page_numbers Sample.insertion_order Sample.fs
              Sample.extractor self' Sample.clock "in/a.pdf" false result lg H)
    as (f & doc & Hfs & Hopen & Hrest).
  exists f, doc. split; [exact Hfs|]. split; [exact Hopen|].
  assert (doc = Sample.five_pages) as ->.
  { vm_compute in Hfs. injection Hfs as <-. vm_compute in Hopen.
    injection Hopen as <-. reflexivity. }
  rewrite <- Hp. exact Hrest.
Defined.

Lemma extract_pdf_content_cache_advisory_witness :
  let fresh := {| output_dir := "out"; enable_images := true;
                  processed_files := PySet.empty |} in
  let hit := extract_pdf_content Sample.insertion_order Sample.fs
               Sample.seasoned Sample.clock "in/a.pdf" false in
  let miss := extract_pdf_content Sample.insertion_order Sample.fs fresh
                Sample.clock "in/a.pdf" false in
  fst (fst hit) = fst (fst miss)
  /\ snd hit
     = (INFO, " File already processed (cached): " ++ PyPath.name "in/a.pdf")
       :: snd miss
  /\ (forall doc,
        fitz_open {| st_size := 3 * 1024 * 1024;
                     md5_hexdigest := inr "0cc175b9c0f1b6a831c399e269772661";
                     fitz_open := inr Sample.five_pages |} = inr doc ->
        exists result, fst (fst hit) = inr result).
Proof.
  apply (extract_pdf_content_cache_advisory Sample.insertion_order Sample.fs
           Sample.seasoned Sample.clock "in/a.pdf"
           {| st_size := 3 * 1024 * 1024;
              md5_hexdigest := inr "0cc175b9c0f1b6a831c399e269772661";
              fitz_open := inr Sample.five_pages |}
           "0cc175b9c0f1b6a831c399e269772661");
    reflexivity.
Defined.

(** ** The fonts of a page *)

Lemma fold_add_fonts (sps : list Fitz.Span) (acc : PySet.t) :
  fold_left (fun s sp => PySet.add s (font_info sp)) sps acc
  = (acc ++ map font_info sps)%list.
Proof.
  revert acc. induction sps as [|sp sps IH]; intros acc; simpl.
  - now rewrite app_nil_r.
  - rewrite IH. unfold PySet.add. now rewrite <- app_assoc.
Qed.

Lemma fonts_of_lines_spans (lns : list Fitz.Line) :
  forall (acc : PySet.t) (sps : list Fitz.Span),
    spans_of_lines lns = Some sps ->
    fonts_of_lines acc lns = inr (acc ++ map font_info sps)%list.
Proof.
  induction lns as [|ln lns IH]; intros acc sps H; simpl in *.
  - injection H as <-. simpl. now rewrite app_nil_r.
  - unfold fonts_of_line.
    destruct (Fitz.line_spans ln) as [here|]; [|discriminate].
    destruct (spans_of_lines lns) as [more|]; [|discriminate].
    injection H as <-. simpl. rewrite fold_add_fonts.
    rewrite (IH _ more eq_refl). now rewrite map_app, app_assoc.
Qed.

Lemma fonts_of_blocks_spans (bs : list Fitz.Block) :
  forall (acc : PySet.t) (sps : list Fitz.Span),
    spans_of_blocks bs = Some sps ->
    fonts_of_blocks acc bs = inr (acc ++ map font_info sps)%list.
Proof.
  induction bs as [|b bs IH]; intros acc sps H; simpl in *.
  - injection H as <-. simpl. now rewrite app_nil_r.
  - destruct (Fitz.block_lines b) as [lns|].
    + destruct (spans_of_lines lns) as [here|] eqn:E; [|discriminate].
      destruct (spans_of_blocks bs) as [more|]; [|discriminate].
      injection H as <-. rewrite (fonts_of_lines_spans lns acc here E).
      simpl. rewrite (IH _ more eq_refl). now rewrite map_app, app_assoc.
    + destruct (spans_of_blocks bs) as [more|]; [|discriminate].
      injection H as <-. simpl. now apply IH.
Qed.

(** C5, as the code has it: a page whose text has no word, be it empty or
    blank, gets no fonts; for a page whose text has a word and whose
    structured text is read without error, the signature of every span is
    collected into a set and the elements of the set are stored in
    [fonts], in the order the set yields them: each signature once, in no
    particular order, under a runtime whose sets yield each element
    once. *)
Theorem page_fonts_of_worded_page (set_iter : PySet.t -> list string)
    (self : Extractor) (page : Fitz.Page) (page_num : Z)
    (pc : PageContent) (lg : list LogRecord) :
  _extract_page_content set_iter self page page_num = inr (pc, lg) ->
  (word_count pc = 0 -> fonts pc = [])
  /\ (forall td sps,
        0 < word_count pc ->
        Fitz.get_text_dict page = inr td ->
        spans_of td = Some sps ->
        fonts pc = set_iter (map font_info sps)
        /\ (set_iter_ok set_iter ->
            NoDup (fonts pc)
            /\ forall sig, In sig (fonts pc)
                           <-> exists sp, In sp sps /\ sig = font_info sp)).
Proof.
  unfold _extract_page_content.
  destruct (Fitz.get_text page) as [e | t]; simpl; [discriminate|].
  intros H. injection H as <- _. simpl. unfold page_fonts. split.
  - intros ->. now rewrite andb_false_r.
  - intros td sps Hwc Htd Hsps.
    assert (Ht : PyStr.truthy t = true).
    { destruct (PyStr.truthy t); [reflexivity|]. lia. }
    rewrite Ht in *. simpl.
    apply Z.ltb_lt in Hwc. rewrite Hwc.
    unfold fonts_on_page. rewrite Htd. simpl.
    unfold spans_of in Hsps.
    rewrite (fonts_of_blocks_spans _ PySet.empty sps Hsps). simpl.
    split; [reflexivity|].
    intros Hok. destruct (Hok (map font_info sps)) as [Hnd Hin].
    split; [exact Hnd|].
    intros sig. rewrite Hin, in_map_iff.
    split; intros (sp & H1 & H2); exists sp; auto.
Qed.

Lemma insertion_order_ok : set_iter_ok Sample.insertion_order.
Proof.
  intros s. unfold Sample.insertion_order.
  induction s as [|x s [IHnd IHin]]; simpl.
  - split; [constructor|]. intros y; split; intros [].
  - split.
    + constructor.
      * intros Hx. apply filter_In in Hx. destruct Hx as [_ Hx].
        now rewrite String.eqb_refl in Hx.
      * now apply NoDup_filter.
    + intros y. rewrite filter_In, IHin. split.
      * intros [-> | [Hy _]]; auto.
      * intros [-> | Hy]; [now left|].
        destruct (String.eqb x y) eqn:E.
        -- apply String.eqb_eq in E. now left.
        -- right. split; [exact Hy|reflexivity].
Qed.

Lemma page_fonts_of_worded_page_witness :
  exists pc lg,
    _extract_page_content Sample.insertion_order Sample.extractor
      Sample.mixed_page 2 = inr (pc, lg)
    /\ fonts pc = ["Times (10.5pt)"; "Arial (12.0pt)"]
    /\ NoDup (fonts pc).
Proof.
  eexists; eexists. split; [vm_compute; reflexivity|].
  destruct (page_fonts_of_worded_page Sample.insertion_order Sample.extractor
              Sample.mixed_page 2 _ _ eq_refl) as [_ H].
  destruct (H (Sample.one_block [Sample.span "Times" 105;
                                 Sample.span "Arial" 120;
                                 Sample.span "Times" 105])
              [Sample.span "Times" 105; Sample.span "Arial" 120;
               Sample.span "Times" 105])
    as [Hfonts Hset]; [reflexivity | reflexivity | reflexivity |].
  split; [vm_compute; reflexivity|].
  exact (proj1 (Hset insertion_order_ok)).
Defined.

(** C5 as it is worded fails on the code: a page of blanks has a non-empty
    text, yet its fonts stay empty although its structured text has a span;
    and the fonts of a page are the elements of a set as the runtime yields
    them, which need not be sorted. *)
Lemma page_fonts_counterexample :
  (exists pc lg,
     _extract_page_content Sample.insertion_order Sample.extractor
       Sample.blank_page 1 = inr (pc, lg)
     /\ text pc <> ""
     /\ Spec.page_fonts Sample.blank_page = ["Arial (12.0pt)"]
     /\ fonts pc = [])
  /\ (exists pc lg,
        _extract_page_content Sample.insertion_order Sample.extractor
          Sample.mixed_page 2 = inr (pc, lg)
        /\ text pc <> ""
        /\ Spec.page_fonts Sample.mixed_page
           = ["Arial (12.0pt)"; "Times (10.5pt)"]
        /\ fonts pc = ["Times (10.5pt)"; "Arial (12.0pt)"]).
Proof.
  split; eexists; eexists; (split; [vm_compute; reflexivity|]);
    (split; [discriminate|]); split; vm_compute; reflexivity.
Qed.

(** ** Strings *)

Lemma occurs_middle (a sub b : string) : occurs sub (a ++ sub ++ b).
Proof. exists a, b. reflexivity. Qed.

Lemma string_app_assoc (a b c : string) : (a ++ b) ++ c = a ++ b ++ c.
Proof.
  induction a as [|ch a IH]; simpl; [reflexivity|]. now rewrite IH.
Qed.

Lemma string_app_nil_r (a : string) : a ++ "" = a.
Proof. induction a as [|ch a IH]; simpl; [reflexivity|]. now rewrite IH. Qed.

Lemma concat_empty_cons (a : string) (l : list string) :
  String.concat "" (a :: l) = a ++ String.concat "" l.
Proof.
  destruct l as [|b l]; simpl; [now rewrite string_app_nil_r|reflexivity].
Qed.

Lemma concat_empty_app (l1 l2 : list string) :
  String.concat "" (l1 ++ l2)
  = String.concat "" l1 ++ String.concat "" l2.
Proof.
  induction l1 as [|a l1 IH]; [reflexivity|].
  change ((a :: l1) ++ l2)%list with (a :: (l1 ++ l2))%list.
  rewrite !concat_empty_cons, IH. now rewrite string_app_assoc.
Qed.

Lemma occurs_after (a sub s : string) : occurs sub s -> occurs sub (a ++ s).
Proof.
  intros (pre & post & ->). exists (a ++ pre), post.
  now rewrite string_app_assoc.
Qed.

Lemma concat_map_occurs {A : Type} (f : A -> string) (l : list A) (x : A) :
  In x l -> occurs (f x) (String.concat "" (map f l)).
Proof.
  intros H. apply in_split in H. destruct H as (l1 & l2 & ->).
  rewrite map_app, concat_empty_app.
  change (map f (x :: l2)) with (f x :: map f l2).
  rewrite concat_empty_cons. apply occurs_middle.
Qed.


(** ** Reading back what the encoder writes *)

(** *** Digits *)

Lemma digit_char_value (d : Z) :
  0 <= d < 10 ->
  Json.is_digit (PyInt.digit_char d) = true
  /\ Json.digit_value (PyInt.digit_char d) = d.
Proof.
  intros H.
  assert (d = 0 \/ d = 1 \/ d = 2 \/ d = 3 \/ d = 4 \/ d = 5 \/ d = 6
          \/ d = 7 \/ d = 8 \/ d = 9) as Hd by lia.
  repeat destruct Hd as [-> | Hd]; try subst d; split; reflexivity.
Qed.

Lemma digit_char_zero (d : Z) :
  0 <= d < 10 -> PyInt.digit_char d = "0"%char -> d = 0.
Proof.
  intros H.
  assert (d = 0 \/ d = 1 \/ d = 2 \/ d = 3 \/ d = 4 \/ d = 5 \/ d = 6
          \/ d = 7 \/ d = 8 \/ d = 9) as Hd by lia.
  repeat destruct Hd as [-> | Hd]; try subst d;
    solve [reflexivity | discriminate].
Qed.

Lemma all_digits_app (a b : string) :
  all_digits (a ++ b) = all_digits a && all_digits b.
Proof.
  induction a as [|c a IH]; simpl; [reflexivity|].
  now rewrite IH, andb_assoc.
Qed.

Lemma digits_value_app (a b : string) (acc : Z) :
  Json.digits_value acc (a ++ b)
  = Json.digits_value (Json.digits_value acc a) b.
Proof.
  revert acc. induction a as [|c a IH]; intros acc; simpl; [reflexivity|].
  apply IH.
Qed.

Lemma digits_fuel_S (f : nat) (n : Z) (acc : string) :
  PyInt.digits_fuel (S f) n acc
  = if n <? 10 then String (PyInt.digit_char (n mod 10)) acc
    else PyInt.digits_fuel f (n / 10)
           (String (PyInt.digit_char (n mod 10)) acc).
Proof. reflexivity. Qed.

(** The decimal digits of a number: digits only, at least one, denoting the
    number, with no leading zero but for zero itself. *)
Lemma digits_fuel_spec (fuel : nat) :
  forall (n : Z) (acc : string),
    0 <= n < 2 ^ Z.of_nat (S fuel) ->
    exists ds,
      PyInt.digits_fuel (S fuel) n acc = ds ++ acc
      /\ all_digits ds = true
      /\ Json.digits_value 0 ds = n
      /\ ds <> ""
      /\ (head ds = "0"%char -> ds = "0").
Proof.
  induction fuel as [|fuel IH]; intros n acc Hn.
  - exists (String (PyInt.digit_char n) "").
    assert (Hd : 0 <= n < 10) by (change (2 ^ Z.of_nat 1) with 2 in Hn; lia).
    destruct (digit_char_value n Hd) as [H1 H2].
    rewrite digits_fuel_S. destruct (Z.ltb_spec n 10) as [_|]; [|lia].
    rewrite Z.mod_small by lia. simpl.
    rewrite H1, H2. repeat split; try reflexivity; try discriminate.
    intros H0. apply digit_char_zero in H0; [now subst|exact Hd].
  - rewrite digits_fuel_S.
    destruct (Z.ltb_spec n 10) as [Hlt|Hge].
    + exists (String (PyInt.digit_char n) "").
      assert (Hd : 0 <= n < 10) by lia.
      destruct (digit_char_value n Hd) as [H1 H2].
      rewrite Z.mod_small by lia. simpl.
      rewrite H1, H2. repeat split; try reflexivity; try discriminate.
      intros H0. apply digit_char_zero in H0; [now subst|exact Hd].
    + assert (Hq : 0 <= n / 10 < 2 ^ Z.of_nat (S fuel)).
      { split; [apply Z.div_pos; lia|].
        apply Z.div_lt_upper_bound; [lia|].
        rewrite (Nat2Z.inj_succ (S fuel)), Z.pow_succ_r in Hn by lia. lia. }
      destruct (IH (n / 10) (String (PyInt.digit_char (n mod 10)) acc) Hq)
        as (ds & Heq & Hall & Hval & Hne & Hhead).
      exists (ds ++ String (PyInt.digit_char (n mod 10)) "").
      assert (Hd : 0 <= n mod 10 < 10) by (apply Z.mod_pos_bound; lia).
      destruct (digit_char_value (n mod 10) Hd) as [H1 H2].
      rewrite Heq. split.
      { clear. induction ds as [|c ds IHds]; simpl; [reflexivity|].
        now rewrite IHds. }
      split; [rewrite all_digits_app, Hall; simpl; now rewrite H1|].
      split.
      { rewrite digits_value_app, Hval. cbn [Json.digits_value]. rewrite H2.
        pose proof (Z.div_mod n 10 ltac:(lia)). lia. }
      split; [destruct ds; [now elim Hne|discriminate]|].
      intros H0. destruct ds as [|c ds]; [now elim Hne|].
      simpl in H0. specialize (Hhead H0). rewrite Hhead in Hval.
      simpl in Hval. assert (n / 10 > 0) by (apply Z.lt_gt, Z.div_str_pos; lia).
      change (Json.digit_value "0") with 0 in Hval. lia.
Qed.

Lemma digits_spec (n : Z) :
  0 <= n ->
  all_digits (PyInt.digits n) = true
  /\ Json.digits_value 0 (PyInt.digits n) = n
  /\ PyInt.digits n <> ""
  /\ (head (PyInt.digits n) = "0"%char -> PyInt.digits n = "0").
Proof.
  intros Hn. unfold PyInt.digits.
  destruct (digits_fuel_spec (Z.to_nat (Z.log2 n)) n "") as (ds & Heq & H).
  - split; [exact Hn|].
    rewrite Nat2Z.inj_succ, Z2Nat.id by apply Z.log2_nonneg.
    destruct (Z.eq_dec n 0) as [-> | Hne]; [reflexivity|].
    apply Z.log2_spec. lia.
  - rewrite Heq.
    replace (ds ++ "") with ds; [exact H|].
    clear. induction ds as [|c ds IH]; simpl; [reflexivity|]. now rewrite <- IH.
Qed.

(** *** Numbers *)

Lemma stop_char (c : ascii) (r : string) :
  stop (String c r) = true ->
  Json.is_digit c = false /\ Ascii.eqb c "." = false
  /\ Ascii.eqb c "e" = false /\ Ascii.eqb c "E" = false
  /\ Ascii.eqb c "+" = false /\ Ascii.eqb c "-" = false
  /\ Ascii.eqb c "0" = false.
Proof.
  unfold stop, number_char. intros H. apply negb_true_iff in H.
  repeat (apply orb_false_elim in H; destruct H as [H ?]).
  repeat split; try assumption.
  destruct (Ascii.eqb_spec c "0") as [-> |]; [discriminate H|reflexivity].
Qed.

Ltac use_stop H :=
  let H1 := fresh in let H2 := fresh in let H3 := fresh in
  let H4 := fresh in let H5 := fresh in let H6 := fresh in
  let H7 := fresh in
  destruct (stop_char _ _ H) as (H1 & H2 & H3 & H4 & H5 & H6 & H7);
  cbn;
  repeat (progress (rewrite ?H1, ?H2, ?H3, ?H4, ?H5, ?H6, ?H7); cbn).

Lemma take_digits_app (rest : string) :
  stop rest = true ->
  forall s,
    Json.take_digits (s ++ rest)
    = (fst (Json.take_digits s), snd (Json.take_digits s) ++ rest).
Proof.
  intros Hstop. induction s as [|c s IH].
  - destruct rest as [|c r]; [reflexivity|]. use_stop Hstop. reflexivity.
  - cbn. destruct (Json.is_digit c); [|reflexivity].
    rewrite IH. destruct (Json.take_digits s). reflexivity.
Qed.

Lemma take_digits_all (s : string) :
  all_digits s = true -> Json.take_digits s = (s, "").
Proof.
  induction s as [|c s IH]; simpl; [reflexivity|].
  intros H. apply andb_prop in H. destruct H as [-> H].
  now rewrite (IH H).
Qed.

Lemma take_sign_app (rest : string) :
  stop rest = true ->
  forall s,
    Json.take_sign (s ++ rest)
    = (fst (Json.take_sign s), snd (Json.take_sign s) ++ rest).
Proof.
  intros Hstop [|c s].
  - destruct rest as [|c r]; [reflexivity|]. use_stop Hstop. reflexivity.
  - cbn. destruct (Ascii.eqb c "-"); reflexivity.
Qed.

Lemma take_int_app (rest : string) :
  stop rest = true ->
  forall s,
    Json.take_int (s ++ rest)
    = match Json.take_int s with
      | Some (ip, r) => Some (ip, r ++ rest)
      | None => None
      end.
Proof.
  intros Hstop [|c s].
  - destruct rest as [|c r]; [reflexivity|]. use_stop Hstop. reflexivity.
  - cbn. destruct (Ascii.eqb c "0"); [reflexivity|].
    destruct (Json.is_digit c); [|reflexivity].
    rewrite (take_digits_app rest Hstop).
    destruct (Json.take_digits s). reflexivity.
Qed.

Lemma take_frac_app (rest : string) :
  stop rest = true ->
  forall s,
    Json.take_frac (s ++ rest)
    = (fst (Json.take_frac s), snd (Json.take_frac s) ++ rest).
Proof.
  intros Hstop [|c s].
  - destruct rest as [|c r]; [reflexivity|]. use_stop Hstop. reflexivity.
  - cbn. destruct (Ascii.eqb c "."); [|reflexivity].
    rewrite (take_digits_app rest Hstop).
    destruct (Json.take_digits s) as [[|d ds] r]; reflexivity.
Qed.

Lemma take_exp_app (rest : string) :
  stop rest = true ->
  forall s,
    Json.take_exp (s ++ rest)
    = (fst (Json.take_exp s), snd (Json.take_exp s) ++ rest).
Proof.
  intros Hstop [|c s].
  - destruct rest as [|c r]; [reflexivity|]. use_stop Hstop. reflexivity.
  - cbn. destruct (Ascii.eqb c "e" || Ascii.eqb c "E"); [|reflexivity].
    destruct s as [|sg s].
    + cbn. destruct rest as [|c' r]; [reflexivity|].
      use_stop Hstop. reflexivity.
    + cbn. destruct (Ascii.eqb sg "-"); [|destruct (Ascii.eqb sg "+")].
      * rewrite (take_digits_app rest Hstop).
        destruct (Json.take_digits s) as [[|d ds] r]; reflexivity.
      * rewrite (take_digits_app rest Hstop).
        destruct (Json.take_digits s) as [[|d ds] r]; reflexivity.
      * change (String sg (s ++ rest)) with (String sg s ++ rest).
        rewrite (take_digits_app rest Hstop).
        destruct (Json.take_digits (String sg s)) as [[|d ds] r];
          reflexivity.
Qed.

(** A number followed by something that does not go on it is read as the
    number alone. *)
Lemma parse_number_app (rest : string) :
  stop rest = true ->
  forall s,
    Json.parse_number (s ++ rest)
    = match Json.parse_number s with
      | Some (v, r) => Some (v, r ++ rest)
      | None => None
      end.
Proof.
  intros Hstop s. unfold Json.parse_number.
  rewrite (take_sign_app rest Hstop).
  destruct (Json.take_sign s) as [neg s1]. cbn [fst snd].
  rewrite (take_int_app rest Hstop).
  destruct (Json.take_int s1) as [[ip s2]|]; [|reflexivity].
  rewrite (take_frac_app rest Hstop).
  destruct (Json.take_frac s2) as [frac s3]. cbn [fst snd].
  rewrite (take_exp_app rest Hstop).
  destruct (Json.take_exp s3) as [exp s4]. cbn [fst snd].
  destruct frac, exp; reflexivity.
Qed.

Lemma is_digit_cases (c : ascii) :
  Json.is_digit c = true ->
  c = "0"%char \/ c = "1"%char \/ c = "2"%char \/ c = "3"%char
  \/ c = "4"%char \/ c = "5"%char \/ c = "6"%char \/ c = "7"%char
  \/ c = "8"%char \/ c = "9"%char.
Proof.
  destruct c as [[] [] [] [] [] [] [] []]; intros H;
    try discriminate H; clear H;
    repeat (first [left; reflexivity | right]); reflexivity.
Qed.

Lemma parse_number_digits (ds : string) (neg : bool) :
  all_digits ds = true -> ds <> "" ->
  (head ds = "0"%char -> ds = "0") ->
  Json.parse_number ((if neg then "-" else "") ++ ds)
  = Some (Json.JInt (if neg then - Json.digits_value 0 ds
                     else Json.digits_value 0 ds), "").
Proof.
  intros Hall Hne Hhead. destruct ds as [|c ds]; [now elim Hne|].
  simpl in Hall. apply andb_prop in Hall. destruct Hall as [Hc Hall].
  assert (Hint : Json.take_int (String c ds) = Some (String c ds, "")).
  { unfold Json.take_int. destruct (Ascii.eqb_spec c "0") as [-> | Hn0].
    - injection (Hhead eq_refl) as ->. reflexivity.
    - rewrite Hc, (take_digits_all ds Hall). reflexivity. }
  assert (Hminus : Ascii.eqb c "-" = false).
  { destruct (is_digit_cases c Hc) as [H|H];
      repeat (destruct H as [H|H]); subst c; reflexivity. }
  unfold Json.parse_number.
  destruct neg.
  - change ("-" ++ String c ds) with (String "-" (String c ds)).
    cbn [Json.take_sign]. change (Ascii.eqb "-" "-") with true. cbn iota.
    rewrite Hint. reflexivity.
  - change ("" ++ String c ds) with (String c ds).
    cbn [Json.take_sign]. rewrite Hminus. rewrite Hint. reflexivity.
Qed.

(** An integer is read back from its decimal form. *)
Lemma parse_number_str (n : Z) :
  Json.parse_number (PyInt.str n) = Some (Json.JInt n, "").
Proof.
  unfold PyInt.str. destruct (Z.ltb_spec n 0) as [Hneg | Hpos].
  - destruct (digits_spec (- n)) as (Hall & Hval & Hne & Hhead); [lia|].
    etransitivity; [exact (parse_number_digits _ true Hall Hne Hhead)|].
    rewrite Hval. do 2 f_equal. f_equal. lia.
  - destruct (digits_spec n Hpos) as (Hall & Hval & Hne & Hhead).
    etransitivity; [exact (parse_number_digits _ false Hall Hne Hhead)|].
    now rewrite Hval.
Qed.

(** *** String literals *)

Lemma parse_string_escape_char (c : ascii) (t : string) :
  Json.parse_string (Json.escape_char c ++ t)
  = match Json.parse_string t with
    | Some (u, r) => Some (String c u, r)
    | None => None
    end.
Proof.
  destruct c as [[] [] [] [] [] [] [] []]; reflexivity.
Qed.

Lemma parse_string_escape (s rest : string) :
  Json.parse_string (Json.escape s ++ String Json.dquote rest)
  = Some (s, rest).
Proof.
  induction s as [|c s IH]; [reflexivity|].
  cbn [Json.escape]. rewrite string_app_assoc.
  now rewrite parse_string_escape_char, IH.
Qed.

Lemma encode_str_app (s rest : string) :
  Json.encode_str s ++ rest
  = String Json.dquote (Json.escape s ++ String Json.dquote rest).
Proof.
  unfold Json.encode_str. cbn [append]. f_equal.
  now rewrite string_app_assoc.
Qed.

(** *** Whitespace and the start of a value *)

Lemma string_length_app (a b : string) :
  String.length (a ++ b) = (String.length a + String.length b)%nat.
Proof. induction a as [|c a IH]; simpl; [reflexivity|]. now rewrite IH. Qed.

Lemma skip_ws_idem (s : string) : Json.skip_ws (Json.skip_ws s) = Json.skip_ws s.
Proof.
  induction s as [|c s IH]; simpl; [reflexivity|].
  destruct (Json.is_ws c) eqn:E; [exact IH|]. simpl. now rewrite E.
Qed.

Lemma skip_ws_blank_app (w s : string) :
  blank w -> Json.skip_ws (w ++ s) = Json.skip_ws s.
Proof.
  unfold blank. induction w as [|c w IH]; simpl; [reflexivity|].
  destruct (Json.is_ws c); [exact IH|discriminate].
Qed.

Lemma blank_spaces (n : nat) : blank (PyStr.repeat_char " " n).
Proof. induction n as [|n IH]; [reflexivity|exact IH]. Qed.

Lemma blank_newline_indent (ly : Json.layout) (level : nat) :
  blank (Json.newline_indent ly level).
Proof.
  unfold Json.newline_indent. destruct (Json.indent ly); [|reflexivity].
  apply blank_spaces.
Qed.

(** The decoder looks at a string from its first non-blank character. *)
Lemma parse_value_skip (fuel : nat) (s : string) :
  Json.parse_value fuel s = Json.parse_value fuel (Json.skip_ws s).
Proof.
  destruct fuel as [|f]; [reflexivity|].
  cbn [Json.parse_value]. now rewrite skip_ws_idem.
Qed.

Lemma parse_value_blank (fuel : nat) (w s : string) :
  blank w -> Json.parse_value fuel (w ++ s) = Json.parse_value fuel s.
Proof.
  intros H. rewrite parse_value_skip, (skip_ws_blank_app w s H).
  symmetry. apply parse_value_skip.
Qed.

Lemma value_start_skip (s : string) :
  value_start s = true -> Json.skip_ws s = s.
Proof.
  destruct s as [|c s]; [discriminate|]. simpl.
  destruct (Json.is_ws c); [discriminate|reflexivity].
Qed.

Lemma value_start_app (s r : string) :
  value_start s = true -> value_start (s ++ r) = true.
Proof. destruct s; [discriminate|exact (fun H => H)]. Qed.

Lemma value_start_length (s : string) :
  value_start s = true -> (1 <= String.length s)%nat.
Proof. destruct s; [discriminate|simpl; lia]. Qed.

(** What a number starts with. *)
Lemma parse_number_head (s : string) (p : Json.value * string) :
  Json.parse_number s = Some p ->
  exists c s',
    s = String c s'
    /\ (Json.is_digit c = true
        \/ (c = "-"%char /\ exists d s'', s' = String d s''
                                     /\ Json.is_digit d = true)).
Proof.
  unfold Json.parse_number, Json.take_sign.
  destruct s as [|c s]; [discriminate|].
  destruct (Ascii.eqb_spec c "-") as [-> | Hc].
  - destruct s as [|d s]; [discriminate|]. intros H.
    exists "-"%char, (String d s). split; [reflexivity|]. right.
    split; [reflexivity|]. exists d, s. split; [reflexivity|].
    unfold Json.take_int in H.
    destruct (Ascii.eqb_spec d "0") as [-> |]; [reflexivity|].
    destruct (Json.is_digit d); [reflexivity|discriminate].
  - intros H. exists c, s. split; [reflexivity|]. left.
    unfold Json.take_int in H.
    destruct (Ascii.eqb_spec c "0") as [-> |]; [reflexivity|].
    destruct (Json.is_digit c); [reflexivity|discriminate].
Qed.

Lemma parse_number_start (s : string) (p : Json.value * string) :
  Json.parse_number s = Some p -> value_start s = true.
Proof.
  intros H. destruct (parse_number_head s p H) as (c & s' & -> & Hc).
  destruct Hc as [Hc | [-> _]]; [|reflexivity].
  destruct (is_digit_cases c Hc) as [E|E];
    repeat (destruct E as [E|E]); subst c; reflexivity.
Qed.

(** A number is read by the number reader. *)
Lemma parse_value_number (f : nat) (s rest : string)
    (p : Json.value * string) :
  Json.parse_number s = Some p ->
  Json.parse_value (S f) (s ++ rest) = Json.parse_number (s ++ rest).
Proof.
  intros H. destruct (parse_number_head s p H) as (c & s' & -> & Hc).
  destruct Hc as [Hc | [-> (d & s'' & -> & Hd)]].
  - destruct (is_digit_cases c Hc) as [E|E];
      repeat (destruct E as [E|E]); subst c; reflexivity.
  - destruct (is_digit_cases d Hd) as [E|E];
      repeat (destruct E as [E|E]); subst d; reflexivity.
Qed.

Lemma float_eqb_eq (x y : PyFloat.float) : PyFloat.eqb x y = true -> x = y.
Proof.
  destruct x as [s|s| |s m e], y as [t|t| |t n f]; simpl;
    try discriminate; intros H.
  - apply Bool.eqb_prop in H. now subst.
  - apply Bool.eqb_prop in H. now subst.
  - reflexivity.
  - apply andb_prop in H. destruct H as [H He].
    apply andb_prop in H. destruct H as [Hs Hm].
    apply Bool.eqb_prop in Hs. apply Pos.eqb_eq in Hm. apply Z.eqb_eq in He.
    now subst.
Qed.

(** What a float that reads back gives. *)
Lemma float_ok_spec (x : PyFloat.float) :
  Json.float_ok x = true ->
  Json.parse_number (Json.encode_float x) = Some (Json.JFloat x, "").
Proof.
  unfold Json.float_ok, Json.encode_float.
  destruct x as [s|s| |s m e]; try discriminate.
  - destruct (Json.parse_number (PyFloat.repr (S754_zero s)))
      as [[[| | |y| | |] [|]]|]; try discriminate.
    intros H. apply float_eqb_eq in H. now subst.
  - destruct (Json.parse_number (PyFloat.repr (S754_finite s m e)))
      as [[[| | |y| | |] [|]]|]; try discriminate.
    intros H. apply float_eqb_eq in H. now subst.
Qed.

(** *** Containers *)

Lemma encode_list (ly : Json.layout) (level : nat) (x : Json.value)
    (xs : list Json.value) :
  Json.encode ly level (Json.JList (x :: xs))
  = "[" ++ Json.newline_indent ly (S level) ++ Json.encode ly (S level) x
    ++ more_items ly level xs ++ Json.newline_indent ly level ++ "]".
Proof. reflexivity. Qed.

Lemma encode_dict (ly : Json.layout) (level : nat) (k : string)
    (x : Json.value) (xs : list (string * Json.value)) :
  Json.encode ly level (Json.JDict ((k, x) :: xs))
  = "{" ++ Json.newline_indent ly (S level)
    ++ Json.encode_str k ++ Json.key_separator ly
    ++ Json.encode ly (S level) x
    ++ more_members ly level xs ++ Json.newline_indent ly level ++ "}".
Proof. reflexivity. Qed.

(** Every value that reads back starts as a value does. *)
Lemma encode_start (ly : Json.layout) (level : nat) (v : Json.value)
    (r : string) :
  Json.wf v = true -> value_start (Json.encode ly level v ++ r) = true.
Proof.
  intros Hwf. apply value_start_app.
  destruct v as [|[]|n|x|s|[|x xs]|[|[k x] xs]]; try reflexivity.
  - eapply parse_number_start. apply parse_number_str.
  - eapply parse_number_start. apply float_ok_spec. exact Hwf.
Qed.

Lemma stop_after_items (ly : Json.layout) (level : nat)
    (xs : list Json.value) (rest : string) :
  good_layout ly ->
  stop (more_items ly level xs ++ Json.newline_indent ly level
        ++ String "]" rest) = true.
Proof.
  intros [Hsep _]. destruct xs as [|y ys].
  - simpl. unfold Json.newline_indent.
    destruct (Json.indent ly); reflexivity.
  - cbn [more_items]. rewrite Hsep. reflexivity.
Qed.

Lemma stop_after_members (ly : Json.layout) (level : nat)
    (xs : list (string * Json.value)) (rest : string) :
  good_layout ly ->
  stop (more_members ly level xs ++ Json.newline_indent ly level
        ++ String "}" rest) = true.
Proof.
  intros [Hsep _]. destruct xs as [|[k y] ys].
  - simpl. unfold Json.newline_indent.
    destruct (Json.indent ly); reflexivity.
  - cbn [more_members]. rewrite Hsep. reflexivity.
Qed.

(** The items of a list are read back one after the other, by any reader
    that reads each of them back. *)
Lemma parse_elems_items (ly : Json.layout) (level : nat)
    (pv : string -> option (Json.value * string)) (rest : string) :
  good_layout ly ->
  forall (xs : list Json.value) (x : Json.value) (n : nat),
    (List.length (x :: xs) <= n)%nat ->
    (forall y, In y (x :: xs) ->
       forall w r, blank w -> stop r = true ->
         pv (w ++ Json.encode ly (S level) y ++ r) = Some (y, r)) ->
    Json.parse_elems pv n
      (Json.newline_indent ly (S level) ++ Json.encode ly (S level) x
       ++ more_items ly level xs ++ Json.newline_indent ly level
       ++ String "]" rest)
    = Some (x :: xs, rest).
Proof.
  intros Hgood. induction xs as [|y ys IH]; intros x n Hn Hpv;
    (destruct n as [|n]; [simpl in Hn; lia|]); cbn [Json.parse_elems].
  - rewrite (Hpv x (or_introl eq_refl) _ _
               (blank_newline_indent ly (S level))
               (stop_after_items ly level [] rest Hgood)).
    cbn [more_items append].
    rewrite (skip_ws_blank_app _ _ (blank_newline_indent ly level)).
    reflexivity.
  - rewrite (Hpv x (or_introl eq_refl) _ _
               (blank_newline_indent ly (S level))
               (stop_after_items ly level (y :: ys) rest Hgood)).
    cbn [more_items]. destruct Hgood as [Hsep Hkey]. rewrite Hsep.
    cbn [append Json.skip_ws]. change (Json.is_ws ",") with false. cbn iota.
    change (Ascii.eqb "," ",") with true. cbn iota.
    rewrite !string_app_assoc.
    rewrite (IH y n).
    + reflexivity.
    + simpl in Hn |- *. lia.
    + intros z Hz. apply Hpv. now right.
Qed.

Lemma parse_members_fields (ly : Json.layout) (level : nat)
    (pv : string -> option (Json.value * string)) (rest : string) :
  good_layout ly ->
  forall (xs : list (string * Json.value)) (k : string) (x : Json.value)
         (n : nat),
    (List.length ((k, x) :: xs) <= n)%nat ->
    (forall kv, In kv ((k, x) :: xs) ->
       forall w r, blank w -> stop r = true ->
         pv (w ++ Json.encode ly (S level) (snd kv) ++ r) = Some (snd kv, r)) ->
    Json.parse_members pv n
      (Json.newline_indent ly (S level) ++ Json.encode_str k
       ++ Json.key_separator ly ++ Json.encode ly (S level) x
       ++ more_members ly level xs ++ Json.newline_indent ly level
       ++ String "}" rest)
    = Some ((k, x) :: xs, rest).
Proof.
  intros Hgood.
  assert (Hkey : forall s,
             exists w, blank w
                       /\ Json.key_separator ly ++ s = String ":" (w ++ s)).
  { destruct Hgood as [_ [-> | ->]]; intros s.
    - exists "". split; reflexivity.
    - exists " ". split; reflexivity. }
  induction xs as [|[k' y] ys IH]; intros k x n Hn Hpv;
    (destruct n as [|n]; [simpl in Hn; lia|]); cbn [Json.parse_members].
  - rewrite (skip_ws_blank_app _ _ (blank_newline_indent ly (S level))).
    rewrite encode_str_app. cbn [Json.skip_ws].
    change (Json.is_ws Json.dquote) with false. cbn iota.
    change (Ascii.eqb Json.dquote Json.dquote) with true. cbn iota.
    rewrite parse_string_escape.
    destruct (Hkey (Json.encode ly (S level) x ++ more_members ly level []
                    ++ Json.newline_indent ly level ++ String "}" rest))
      as (w & Hw & ->).
    cbn [Json.skip_ws]. change (Json.is_ws ":") with false. cbn iota.
    change (Ascii.eqb ":" ":") with true. cbn iota.
    pose proof (Hpv (k, x) (or_introl eq_refl) w _ Hw
                  (stop_after_members ly level [] rest Hgood)) as Hx.
    cbn [snd] in Hx. rewrite Hx.
    cbn [more_members append].
    rewrite (skip_ws_blank_app _ _ (blank_newline_indent ly level)).
    reflexivity.
  - rewrite (skip_ws_blank_app _ _ (blank_newline_indent ly (S level))).
    rewrite encode_str_app. cbn [Json.skip_ws].
    change (Json.is_ws Json.dquote) with false. cbn iota.
    change (Ascii.eqb Json.dquote Json.dquote) with true. cbn iota.
    rewrite parse_string_escape.
    destruct (Hkey (Json.encode ly (S level) x
                    ++ more_members ly level ((k', y) :: ys)
                    ++ Json.newline_indent ly level ++ String "}" rest))
      as (w & Hw & ->).
    cbn [Json.skip_ws]. change (Json.is_ws ":") with false. cbn iota.
    change (Ascii.eqb ":" ":") with true. cbn iota.
    pose proof (Hpv (k, x) (or_introl eq_refl) w _ Hw
                  (stop_after_members ly level ((k', y) :: ys) rest Hgood))
      as Hx.
    cbn [snd] in Hx. rewrite Hx.
    cbn [more_members]. destruct Hgood as [Hsep Hks]. rewrite Hsep.
    cbn [append Json.skip_ws]. change (Json.is_ws ",") with false. cbn iota.
    change (Ascii.eqb "," ",") with true. cbn iota.
    rewrite !string_app_assoc.
    rewrite (IH k' y n).
    + reflexivity.
    + simpl in Hn |- *. lia.
    + intros z Hz. apply Hpv. now right.
Qed.

(** *** Dictionaries with distinct keys *)

Lemma distinct_keys_NoDup (ks : list string) :
  Json.distinct_keys ks = true -> NoDup ks.
Proof.
  induction ks as [|k ks IH]; simpl; intros H; [constructor|].
  apply andb_prop in H. destruct H as [Hk Hks].
  constructor; [|now apply IH].
  intros Hin. apply negb_true_iff in Hk.
  assert (existsb (String.eqb k) ks = true); [|congruence].
  apply existsb_exists. exists k. split; [exact Hin|apply String.eqb_refl].
Qed.

Lemma dict_put_fresh (d : list (string * Json.value)) (k : string)
    (v : Json.value) :
  ~ In k (map fst d) -> Json.dict_put d k v = (d ++ [(k, v)])%list.
Proof.
  induction d as [|[k' v'] d IH]; simpl; intros H; [reflexivity|].
  destruct (String.eqb_spec k k') as [-> | _]; [elim H; now left|].
  rewrite IH; [reflexivity|]. intros Hin. apply H. now right.
Qed.

Lemma fold_dict_put (l : list (string * Json.value)) :
  forall acc,
    NoDup (map fst acc ++ map fst l) ->
    fold_left (fun d kv => Json.dict_put d (fst kv) (snd kv)) l acc
    = (acc ++ l)%list.
Proof.
  induction l as [|[k v] l IH]; intros acc H; simpl.
  - now rewrite app_nil_r.
  - simpl in H. rewrite dict_put_fresh.
    + rewrite IH; [now rewrite <- app_assoc|].
      rewrite map_app, <- app_assoc. exact H.
    + apply NoDup_remove_2 in H. intros Hin. apply H.
      apply in_or_app. now left.
Qed.

(** *** Lengths *)

Lemma more_items_bounds (ly : Json.layout) (level : nat)
    (xs : list Json.value) :
  good_layout ly ->
  (List.length xs <= String.length (more_items ly level xs))%nat
  /\ forall y, In y xs ->
       (String.length (Json.encode ly (S level) y)
        <= String.length (more_items ly level xs))%nat.
Proof.
  intros [Hsep _]. induction xs as [|x xs [IH1 IH2]]; simpl.
  - split; [lia|]. intros y [].
  - rewrite Hsep. cbn [append String.length].
    rewrite !string_length_app. split; [lia|].
    intros y [<- | Hy]; [lia|]. specialize (IH2 y Hy). lia.
Qed.

Lemma more_members_bounds (ly : Json.layout) (level : nat)
    (xs : list (string * Json.value)) :
  good_layout ly ->
  (List.length xs <= String.length (more_members ly level xs))%nat
  /\ forall kv, In kv xs ->
       (String.length (Json.encode ly (S level) (snd kv))
        <= String.length (more_members ly level xs))%nat.
Proof.
  intros [Hsep _]. induction xs as [|[k x] xs [IH1 IH2]].
  - simpl. split; [lia|]. intros y [].
  - cbn [more_members List.length]. rewrite Hsep.
    rewrite !string_length_app. cbn [String.length]. split; [lia|].
    intros y [<- | Hy]; [cbn [snd]; lia|]. specialize (IH2 y Hy). lia.
Qed.

(** *** Values *)

Lemma parse_value_list (f : nat) (R : string) (c : ascii) (r : string) :
  Json.skip_ws R = String c r -> Ascii.eqb c "]" = false ->
  Json.parse_value (S f) (String "[" R)
  = match Json.parse_elems (Json.parse_value f) f R with
    | Some (vs, r') => Some (Json.JList vs, r')
    | None => None
    end.
Proof.
  intros H1 H2. cbn [Json.parse_value Json.skip_ws].
  change (Json.is_ws "[") with false. cbn iota.
  change (Ascii.eqb "[" Json.dquote) with false. cbn iota.
  change (Ascii.eqb "[" "[") with true. cbn iota.
  now rewrite H1, H2.
Qed.

Lemma parse_value_dict (f : nat) (R : string) (c : ascii) (r : string) :
  Json.skip_ws R = String c r -> Ascii.eqb c "}" = false ->
  Json.parse_value (S f) (String "{" R)
  = match Json.parse_members (Json.parse_value f) f R with
    | Some (ms, r') =>
        Some (Json.JDict (fold_left (fun d kv =>
                                       Json.dict_put d (fst kv) (snd kv))
                                    ms []), r')
    | None => None
    end.
Proof.
  intros H1 H2. cbn [Json.parse_value Json.skip_ws].
  change (Json.is_ws "{") with false. cbn iota.
  change (Ascii.eqb "{" Json.dquote) with false. cbn iota.
  change (Ascii.eqb "{" "[") with false. cbn iota.
  change (Ascii.eqb "{" "{") with true. cbn iota.
  now rewrite H1, H2.
Qed.

Lemma value_start_head (s : string) :
  value_start s = true ->
  exists c r, Json.skip_ws s = String c r
              /\ Ascii.eqb c "]" = false /\ Ascii.eqb c "}" = false.
Proof.
  intros H. rewrite (value_start_skip s H).
  destruct s as [|c r]; [discriminate|]. exists c, r.
  simpl in H. apply andb_prop in H. destruct H as [H H3].
  apply andb_prop in H. destruct H as [_ H2].
  apply negb_true_iff in H2, H3. now repeat split.
Qed.

(** The decoder reads back what the encoder writes for a value that reads
    back, whatever blanks come before it, when what follows does not go on
    a number. *)
Lemma parse_value_encode (ly : Json.layout) :
  good_layout ly ->
  forall v,
    Json.wf v = true ->
    forall (level fuel : nat) (w rest : string),
      blank w -> stop rest = true ->
      (String.length (Json.encode ly level v) <= fuel)%nat ->
      Json.parse_value fuel (w ++ Json.encode ly level v ++ rest)
      = Some (v, rest).
Proof.
  intros Hgood v.
  induction v as [|b|n|x|s|items IH|fields IH] using value_ind';
    intros Hwf level fuel w rest Hw Hstop Hfuel;
    rewrite (parse_value_blank fuel w _ Hw);
    (destruct fuel as [|f];
     [pose proof (value_start_length _
                    (encode_start ly level _ "" Hwf)) as Hlen;
      rewrite string_app_nil_r in Hlen; lia|]).
  - reflexivity.
  - destruct b; reflexivity.
  - cbn [Json.encode].
    rewrite (parse_value_number f _ rest _ (parse_number_str n)).
    now rewrite (parse_number_app rest Hstop), parse_number_str.
  - cbn [Json.encode]. simpl in Hwf.
    rewrite (parse_value_number f _ rest _ (float_ok_spec x Hwf)).
    now rewrite (parse_number_app rest Hstop), (float_ok_spec x Hwf).
  - cbn [Json.encode]. rewrite encode_str_app.
    cbn [Json.parse_value Json.skip_ws].
    change (Json.is_ws Json.dquote) with false. cbn iota.
    change (Ascii.eqb Json.dquote Json.dquote) with true. cbn iota.
    now rewrite parse_string_escape.
  - destruct items as [|x xs]; [reflexivity|].
    rewrite encode_list in Hfuel |- *.
    rewrite !string_app_assoc. cbn [append].
    cbn [append String.length] in Hfuel.
    rewrite !string_length_app in Hfuel.
    cbn [String.length] in Hfuel.
    simpl in Hwf. apply andb_prop in Hwf. destruct Hwf as [Hwx Hwxs].
    destruct (more_items_bounds ly level xs Hgood) as [Hcount Hlen].
    pose proof (value_start_length _
                  (encode_start ly (S level) x "" Hwx)) as Hx.
    rewrite string_app_nil_r in Hx.
    assert (Hhead : value_start
                      (Json.encode ly (S level) x
                       ++ more_items ly level xs
                       ++ Json.newline_indent ly level ++ String "]" rest)
                    = true) by now apply encode_start.
    apply value_start_head in Hhead. destruct Hhead as (c & r & Hc & Hc1 & _).
    rewrite <- (skip_ws_blank_app _ _ (blank_newline_indent ly (S level)))
      in Hc.
    rewrite (parse_value_list f _ c r Hc Hc1).
    rewrite (parse_elems_items ly level (Json.parse_value f) rest Hgood
               xs x f).
    + reflexivity.
    + simpl. lia.
    + intros y Hy w' r' Hw' Hr'.
      rewrite Forall_forall in IH. apply (IH y Hy); try assumption.
      * destruct Hy as [<- | Hy]; [exact Hwx|].
        rewrite forallb_forall in Hwxs. now apply Hwxs.
      * destruct Hy as [<- | Hy]; [lia|]. specialize (Hlen y Hy). lia.
  - destruct fields as [|[k x] xs]; [reflexivity|].
    rewrite encode_dict in Hfuel |- *.
    rewrite !string_app_assoc. cbn [append].
    cbn [append String.length] in Hfuel.
    rewrite !string_length_app in Hfuel.
    cbn [String.length] in Hfuel.
    simpl in Hwf. apply andb_prop in Hwf. destruct Hwf as [Hkeys Hwf].
    apply andb_prop in Hwf. destruct Hwf as [Hwx Hwxs].
    destruct (more_members_bounds ly level xs Hgood) as [Hcount Hlen].
    pose proof (value_start_length _
                  (encode_start ly (S level) x "" Hwx)) as Hx.
    rewrite string_app_nil_r in Hx.
    assert (Hskip : Json.skip_ws
                      (Json.newline_indent ly (S level)
                       ++ Json.encode_str k ++ Json.key_separator ly
                       ++ Json.encode ly (S level) x
                       ++ more_members ly level xs
                       ++ Json.newline_indent ly level ++ String "}" rest)
                    = String Json.dquote
                        (Json.escape k
                         ++ String Json.dquote
                              (Json.key_separator ly
                               ++ Json.encode ly (S level) x
                               ++ more_members ly level xs
                               ++ Json.newline_indent ly level
                               ++ String "}" rest))).
    { rewrite (skip_ws_blank_app _ _ (blank_newline_indent ly (S level))).
      rewrite encode_str_app. reflexivity. }
    rewrite (parse_value_dict f _ _ _ Hskip eq_refl).
    rewrite (parse_members_fields ly level (Json.parse_value f) rest Hgood
               xs k x f).
    + rewrite (fold_dict_put ((k, x) :: xs) []); [reflexivity|].
      simpl. apply (distinct_keys_NoDup (k :: map fst xs)).
      simpl. now rewrite Hkeys.
    + simpl. lia.
    + intros kv Hkv w' r' Hw' Hr'.
      rewrite Forall_forall in IH. apply (IH kv Hkv); try assumption.
      * destruct Hkv as [<- | Hkv]; [exact Hwx|].
        rewrite forallb_forall in Hwxs. now apply Hwxs.
      * destruct Hkv as [<- | Hkv]; [simpl; lia|].
        specialize (Hlen kv Hkv). lia.
Qed.

(** What [json.dump] writes, [json.loads] reads back. *)
Lemma loads_dumps (ly : Json.layout) (v : Json.value) :
  good_layout ly -> Json.wf v = true -> Json.loads (Json.dumps ly v) = Some v.
Proof.
  intros Hgood Hwf. unfold Json.loads, Json.dumps.
  pose proof (parse_value_encode ly Hgood v Hwf 0
                (S (String.length (Json.encode ly 0 v))) "" ""
                eq_refl eq_refl ltac:(lia)) as H.
  cbn [append] in H. rewrite string_app_nil_r in H. now rewrite H.
Qed.

(** ** The result serializer *)

Lemma compact_good : good_layout Json.compact.
Proof. split; [reflexivity|now left]. Qed.

Lemma indented_good : good_layout Json.indented.
Proof. split; [reflexivity|now right]. Qed.

Lemma json_layout_good (result : PDFExtractionResult) :
  good_layout (json_layout result).
Proof.
  unfold json_layout.
  destruct (PyFloat.gtb _ _); [apply compact_good|apply indented_good].
Qed.


(** *** Records that read back *)

Lemma wf_strings (l : list string) : forallb Json.wf (map Json.JStr l) = true.
Proof. induction l as [|s l IH]; [reflexivity|exact IH]. Qed.

Lemma wf_floats (l : list PyFloat.float) :
  forallb Json.wf (map Json.JFloat l) = forallb Json.float_ok l.
Proof. induction l as [|x l IH]; simpl; [reflexivity|]. now rewrite IH. Qed.

Lemma wf_images (l : list ImageInfo) :
  forallb Json.wf (map image_to_json l) = true.
Proof. induction l as [|im l IH]; [reflexivity|exact IH]. Qed.

Lemma wf_page (pc : PageContent) :
  Json.wf (page_to_json pc) = page_floats_ok pc.
Proof.
  unfold page_to_json, page_floats_ok.
  cbn [Json.wf map fst snd forallb].
  rewrite wf_strings, wf_images, wf_floats.
  change (Json.distinct_keys _) with true. cbn [andb].
  now rewrite andb_true_r.
Qed.

Lemma wf_pages (l : list PageContent) :
  forallb Json.wf (map page_to_json l) = forallb page_floats_ok l.
Proof.
  induction l as [|pc l IH]; [reflexivity|].
  cbn [map forallb]. now rewrite wf_page, IH.
Qed.

Lemma wf_metadata (md : list (string * string)) :
  Json.wf (metadata_to_json md) = Json.distinct_keys (map fst md).
Proof.
  unfold metadata_to_json. cbn [Json.wf].
  rewrite map_map. cbn [fst].
  replace (forallb _ _) with true; [apply andb_true_r|].
  induction md as [|kv md IH]; [reflexivity|exact IH].
Qed.

(** The dictionary of a record that reads back reads back. *)
Lemma record_ok_wf (r : PDFExtractionResult) :
  record_ok r = true -> Json.wf (asdict r) = true.
Proof.
  unfold record_ok. intros H.
  repeat (apply andb_prop in H; destruct H as [H ?]).
  unfold asdict, extracted_data_to_json.
  cbn [Json.wf map fst snd forallb].
  rewrite !wf_strings, !wf_pages, !wf_metadata.
  change (Json.distinct_keys
            ["file_path"; "file_hash"; "timestamp"; "page_count";
             "total_words"; "total_chars"; "fonts_used"; "images_count";
             "metadata"; "pages"; "extraction_time"; "file_size_mb";
             "basic_extraction"]) with true.
  change (Json.distinct_keys
            ["page_count"; "text_stats"; "fonts_used"; "images_count";
             "metadata"; "pages"]) with true.
  change (Json.distinct_keys ["total_words"; "total_chars"]) with true.
  cbn [andb].
  repeat match goal with
         | Hx : _ = true |- _ => rewrite Hx; clear Hx
         end.
  reflexivity.
Qed.

(** *** The metadata of an extracted record *)

Lemma NoDup_distinct_keys (ks : list string) :
  NoDup ks -> Json.distinct_keys ks = true.
Proof.
  induction 1 as [|k ks Hk _ IH]; [reflexivity|].
  simpl. rewrite IH, andb_true_r. apply negb_true_iff.
  destruct (existsb (String.eqb k) ks) eqn:E; [|reflexivity].
  apply existsb_exists in E. destruct E as (k' & Hin & Heq).
  apply String.eqb_eq in Heq. subst k'. now elim Hk.
Qed.

Lemma dict_set_keys (d : list (string * string)) (k v : string) :
  forall k', In k' (map fst (dict_set d k v))
             <-> k' = k \/ In k' (map fst d).
Proof.
  induction d as [|[k0 v0] d IH]; intros k'; simpl.
  - intuition.
  - destruct (String.eqb_spec k k0) as [-> | Hne]; simpl.
    + intuition.
    + rewrite IH. intuition.
Qed.

Lemma dict_set_NoDup (d : list (string * string)) (k v : string) :
  NoDup (map fst d) -> NoDup (map fst (dict_set d k v)).
Proof.
  induction d as [|[k0 v0] d IH]; simpl; intros H.
  - constructor; [intros []|constructor].
  - inversion H as [|? ? Hk0 Hd]; subst.
    destruct (String.eqb_spec k k0) as [-> | Hne]; simpl.
    + now constructor.
    + constructor; [|now apply IH].
      rewrite dict_set_keys. intros [E | Hin]; [now elim Hne|now elim Hk0].
Qed.

(** The metadata the extraction keeps have distinct keys. *)
Lemma clean_metadata_NoDup (raw : list (string * option string)) :
  NoDup (map fst (clean_metadata raw)).
Proof.
  unfold clean_metadata.
  assert (H : forall acc, NoDup (map fst acc) ->
                NoDup (map fst
                         (fold_left
                            (fun d kv =>
                               match snd kv with
                               | Some v =>
                                   if PyStr.truthy v
                                      && PyStr.truthy (PyStr.strip v)
                                   then dict_set d (fst kv) (PyStr.strip v)
                                   else d
                               | None => d
                               end) raw acc))).
  { induction raw as [|[k [v|]] raw IH]; intros acc Hacc; simpl;
      [exact Hacc| |now apply IH].
    destruct (PyStr.truthy v && PyStr.truthy (PyStr.strip v));
      apply IH; [now apply dict_set_NoDup|exact Hacc]. }
  apply H. constructor.
Qed.

(** In a record the extraction returns, the two copies of the metadata
    have distinct keys and the two copies of the pages are the same. *)
Lemma extract_pdf_content_dictionaries (set_iter : PySet.t -> list string)
    (fs : FileSystem) (self self' : Extractor) (clk : ExtractClock)
    (pdf_path : string) (skip_cache : bool) (result : PDFExtractionResult)
    (lg : list LogRecord) :
  extract_pdf_content set_iter fs self clk pdf_path skip_cache
  = (inr result, self', lg) ->
  Json.distinct_keys (map fst (metadata result)) = true
  /\ ed_metadata (basic_extraction result) = metadata result
  /\ ed_pages (basic_extraction result) = pages result.
Proof.
  unfold extract_pdf_content, _calculate_file_hash.
  destruct (fs pdf_path) as [f|]; [|discriminate].
  destruct (md5_hexdigest f) as [e | h]; [discriminate|].
  destruct (fitz_open f) as [e | doc]; [discriminate|].
  destruct (Fitz.metadata_raw doc) as [e | raw];
    destruct (page_loop set_iter self _ (Fitz.load_page doc) 0 loop_init)
      as [st lg'];
    intros H; injection H as <- _ _; simpl; repeat split.
  apply NoDup_distinct_keys, clean_metadata_NoDup.
Qed.

(** What the full format writes for a record the extraction returns reads
    back as soon as the floats of the record do. *)
Lemma extracted_record_reads_back (set_iter : PySet.t -> list string)
    (fs : FileSystem) (self self' : Extractor) (clk : ExtractClock)
    (pdf_path : string) (skip_cache : bool) (result : PDFExtractionResult)
    (lg : list LogRecord) :
  extract_pdf_content set_iter fs self clk pdf_path skip_cache
  = (inr result, self', lg) ->
  Json.float_ok (extraction_time result) = true ->
  Json.float_ok (file_size_mb result) = true ->
  forallb page_floats_ok (pages result) = true ->
  Json.loads (Json.dumps (json_layout result) (asdict result))
  = Some (asdict result).
Proof.
  intros H Ht Hs Hp.
  destruct (extract_pdf_content_dictionaries _ _ _ _ _ _ _ _ _ H)
    as (Hk & Hm & Hpg).
  apply loads_dumps; [apply json_layout_good|].
  apply record_ok_wf. unfold record_ok.
  now rewrite Hm, Hpg, Ht, Hs, Hp, Hk.
Qed.

(** *** The fields of the full format *)

(** C6, as the code has it: the full format writes one file holding the
    encoding of [asdict(result)]; its field names are those of the
    dataclass, among them [extraction_time], [file_size_mb] and the
    additional [basic_extraction], and each page has the fields
    [page_number], [text], [word_count], [char_count], [fonts], [images]
    and [bbox]; these are the names read back from the text written. *)
Theorem save_result_json_fields (self : Extractor) (strftime_now : string)
    (result : PDFExtractionResult) :
  (exists path,
     save_result self strftime_now result "json"
     = (inr path,
        [(path, Json.dumps (json_layout result) (asdict result))],
        [(INFO, " Saved: " ++ path)]))
  /\ Json.keys (asdict result) = result_keys
  /\ (exists fields,
        asdict result = Json.JDict fields
        /\ Json.lookup "pages" fields
           = Some (Json.JList (map page_to_json (pages result)))
        /\ Json.lookup "basic_extraction" fields
           = Some (extracted_data_to_json (basic_extraction result)))
  /\ (forall pc, Json.keys (page_to_json pc) = page_keys)
  /\ (forall im, Json.keys (image_to_json im) = image_keys)
  /\ (forall ed, Json.keys (extracted_data_to_json ed) = extracted_data_keys)
  /\ (record_ok result = true ->
      exists v,
        Json.loads (Json.dumps (json_layout result) (asdict result)) = Some v
        /\ Json.keys v = result_keys).
Proof.
  split; [eexists; reflexivity|].
  split; [reflexivity|].
  split; [eexists; repeat split; reflexivity|].
  split; [reflexivity|]. split; [reflexivity|]. split; [reflexivity|].
  intros Hok. exists (asdict result). split; [|reflexivity].
  apply loads_dumps; [apply json_layout_good|now apply record_ok_wf].
Qed.

Lemma save_result_json_fields_witness :
  let result := Sample.record 1048576 2 Sample.half_second in
  exists v,
    Json.loads (Json.dumps (json_layout result) (asdict result)) = Some v
    /\ Json.keys v = result_keys.
Proof.
  intros result.
  apply (save_result_json_fields Sample.extractor "20240501_100003" result).
  vm_compute; reflexivity.
Defined.

(** C6 as it is worded fails on the code: the persisted record has no
    field [extraction_time_seconds] and has a field [basic_extraction],
    and a page has no field [bounding_box] but a field [bbox]. *)
Lemma save_result_json_fields_counterexample :
  let result := Sample.record 1048576 2 Sample.half_second in
  ~ In "extraction_time_seconds" (Json.keys (asdict result))
  /\ In "extraction_time_seconds" Spec.document_fields
  /\ In "basic_extraction" (Json.keys (asdict result))
  /\ ~ In "basic_extraction" Spec.document_fields
  /\ Forall (fun pc => ~ In "bounding_box" (Json.keys (page_to_json pc))
                       /\ In "bbox" (Json.keys (page_to_json pc)))
            (pages result)
  /\ In "bounding_box" Spec.page_fields
  /\ ~ In "bbox" Spec.page_fields.
Proof.
  cbn zeta. repeat split; try solve [key_absent | key_present].
  repeat constructor; solve [key_absent | key_present].
Qed.

(** *** The summary report *)

(** Every font has its bullet line in the fonts section. *)
Lemma fonts_section_lists (fs : list string) (font : string) :
  In font fs -> occurs (bullet ++ " " ++ font ++ nl) (fonts_section fs).
Proof.
  intros H. unfold fonts_section.
  do 5 apply occurs_after.
  exact (concat_map_occurs (fun f => bullet ++ " " ++ f ++ nl) fs font H).
Qed.

(** C8: the report holds the fonts section, with a line for every font,
    when the record has at most ten fonts, and goes from the metadata
    lines straight to the rate line when it has more; the rate it reports
    is [total_words / extraction_time], and [0] when the extraction time
    is zero. *)
Theorem summary_report_fonts_and_rate (result : PDFExtractionResult) :
  (Z.of_nat (List.length (fonts_used result)) <= 10 ->
   _generate_summary_report result
   = report_header result ++ metadata_lines (metadata result)
     ++ fonts_section (fonts_used result) ++ rate_line result
   /\ forall font, In font (fonts_used result) ->
                   occurs (bullet ++ " " ++ font ++ nl)
                          (fonts_section (fonts_used result)))
  /\ (10 < Z.of_nat (List.length (fonts_used result)) ->
      _generate_summary_report result
      = report_header result ++ metadata_lines (metadata result)
        ++ rate_line result)
  /\ rate_line result
     = nl ++ "Processing Rate: "
       ++ PyFloat.format_comma_f 0 (processing_rate result)
       ++ " words/second" ++ nl
  /\ (PyFloat.gtb (extraction_time result) PyFloat.zero = true ->
      processing_rate result
      = PyFloat.div (PyFloat.of_int (total_words result))
                    (extraction_time result))
  /\ (forall s, extraction_time result = S754_zero s ->
      processing_rate result = PyFloat.zero
      /\ rate_line result
         = nl ++ "Processing Rate: 0 words/second" ++ nl).
Proof.
  unfold _generate_summary_report. repeat split.
  - apply Z.leb_le in H. now rewrite H.
  - apply fonts_section_lists.
  - intros H. apply Z.leb_gt in H. now rewrite H.
  - unfold processing_rate. intros ->. reflexivity.
  - unfold processing_rate. now rewrite H.
  - unfold rate_line, processing_rate. rewrite H. reflexivity.
Qed.

Lemma summary_report_fonts_and_rate_witness :
  let ten := Sample.record 1048576 10 Sample.half_second in
  let eleven := Sample.record 1048576 11 (S754_zero false) in
  (_generate_summary_report ten
   = report_header ten ++ metadata_lines (metadata ten)
     ++ fonts_section (fonts_used ten) ++ rate_line ten
   /\ forall font, In font (fonts_used ten) ->
                   occurs (bullet ++ " " ++ font ++ nl)
                          (fonts_section (fonts_used ten)))
  /\ processing_rate ten = PyFloat.of_int 4
  /\ _generate_summary_report eleven
     = report_header eleven ++ metadata_lines (metadata eleven)
       ++ rate_line eleven
  /\ rate_line eleven = nl ++ "Processing Rate: 0 words/second" ++ nl.
Proof.
  intros ten eleven.
  destruct (summary_report_fonts_and_rate ten) as (H10 & _ & _ & Hrate & _).
  destruct (summary_report_fonts_and_rate eleven)
    as (_ & H11 & _ & _ & Hzero).
  split; [apply H10; vm_compute; discriminate|].
  split; [rewrite Hrate; vm_compute; reflexivity|].
  split; [apply H11; vm_compute; reflexivity|].
  exact (proj2 (Hzero false eq_refl)).
Defined.

Example summary_report_sample :
  _generate_summary_report (Sample.record 3145728 2 Sample.half_second)
  = String.concat nl
      ["PDF EXTRACTION SUMMARY";
       margin ++ PyStr.repeat_char "=" 50;
       "";
       margin ++ "File: a.pdf";
       margin ++ "Size: 3.0 MB";
       margin ++ "Hash: 0cc175b9c0f1b6a8...";
       margin ++ "Processed: 2024-05-01T10:00:00.000000";
       margin ++ "Time: 0.50 seconds";
       "";
       margin ++ "CONTENT STATISTICS";
       margin ++ PyStr.repeat_char "-" 30;
       margin ++ "Pages: 1";
       margin ++ "Words: 2";
       margin ++ "Characters: 11";
       margin ++ "Images: 1";
       margin ++ "Fonts: 2";
       "";
       margin ++ "METADATA";
       margin ++ PyStr.repeat_char "-" 30;
       margin ++ "title: Report";
       "producer: pdfTeX";
       "";
       "FONTS USED";
       PyStr.repeat_char "-" 30;
       bullet ++ " Font0 (10.0pt)";
       bullet ++ " Font1 (10.0pt)";
       "";
       "Processing Rate: 4 words/second";
       ""].
Proof. vm_compute; reflexivity. Qed.

(** *** The formats *)




(** *** The two encodings of the full format *)

(** C7: the full format picks its encoding by the size alone: above 50 MB
    the compact one, with no indentation and the separators [,] and [:],
    otherwise the one indented by two; and in both cases the text written
    reads back as the dictionary that was written, for a record as Python
    holds it: one whose floats are finite, so that they read back from
    their [repr], and whose metadata have distinct keys. *)
Theorem save_result_json_encoding (self : Extractor) (strftime_now : string)
    (result : PDFExtractionResult) :
  (exists path lg,
     save_result self strftime_now result "json"
     = (inr path,
        [(path, Json.dumps (json_layout result) (asdict result))], lg))
  /\ (PyFloat.gtb (file_size_mb result) (PyFloat.of_int 50) = true ->
      json_layout result
      = {| Json.indent := None; Json.item_separator := ",";
           Json.key_separator := ":" |})
  /\ (PyFloat.gtb (file_size_mb result) (PyFloat.of_int 50) = false ->
      json_layout result
      = {| Json.indent := Some 2%nat; Json.item_separator := ",";
           Json.key_separator := ": " |})
  /\ (record_ok result = true ->
      Json.loads (Json.dumps Json.compact (asdict result))
      = Some (asdict result)
      /\ Json.loads (Json.dumps Json.indented (asdict result))
         = Some (asdict result)
      /\ Json.loads (Json.dumps (json_layout result) (asdict result))
         = Some (asdict result)).
Proof.
  split; [eexists; eexists; reflexivity|].
  unfold json_layout. split; [intros ->; reflexivity|].
  split; [intros ->; reflexivity|].
  intros Hok. pose proof (record_ok_wf result Hok) as Hwf.
  split; [|split].
  - apply loads_dumps; [apply compact_good|exact Hwf].
  - apply loads_dumps; [apply indented_good|exact Hwf].
  - apply loads_dumps; [apply json_layout_good|exact Hwf].
Qed.

Lemma save_result_json_encoding_witness :
  let large := Sample.record (60 * 1024 * 1024) 2 Sample.half_second in
  let small := Sample.record (10 * 1024 * 1024) 2 Sample.half_second in
  json_layout large = Json.compact
  /\ json_layout small = Json.indented
  /\ Json.loads (Json.dumps (json_layout large) (asdict large))
     = Some (asdict large)
  /\ Json.loads (Json.dumps (json_layout small) (asdict small))
     = Some (asdict small).
Proof.
  intros large small.
  destruct (save_result_json_encoding Sample.extractor "20240501_100003"
              large) as (_ & Hc & _ & Hl).
  destruct (save_result_json_encoding Sample.extractor "20240501_100003"
              small) as (_ & _ & Hi & Hs).
  split; [apply Hc; vm_compute; reflexivity|].
  split; [apply Hi; vm_compute; reflexivity|].
  split.
  - apply Hl. vm_compute; reflexivity.
  - apply Hs. vm_compute; reflexivity.
Defined.

(** The record extracted from the sample document reads back, and so does
    the text the full format writes for it. *)
Example sample_record_reads_back :
  exists result self' lg,
    extract_pdf_content Sample.insertion_order Sample.fs Sample.extractor
      Sample.clock "in/a.pdf" false = (inr result, self', lg)
    /\ record_ok result = true
    /\ Json.loads (Json.dumps Json.indented (asdict result))
       = Some (asdict result).
Proof.
  eexists; eexists; eexists. split; [vm_compute; reflexivity|].
  split; vm_compute; reflexivity.
Qed.

Example compact_text_sample :
  Json.dumps Json.compact
    (page_to_json
       {| page_number := 1; text := "a b"; word_count := 2; char_count := 3;
          fonts := ["Arial (12.0pt)"]; images := [];
          bbox := [PyFloat.zero; PyFloat.zero; PyFloat.of_int 612;
                   PyFloat.of_decimal false 7925 (-1)] |})
  = String.concat ""
      ["{"; Json.encode_str "page_number"; ":1,";
       Json.encode_str "text"; ":"; Json.encode_str "a b"; ",";
       Json.encode_str "word_count"; ":2,";
       Json.encode_str "char_count"; ":3,";
       Json.encode_str "fonts"; ":["; Json.encode_str "Arial (12.0pt)"; "],";
       Json.encode_str "images"; ":[],";
       Json.encode_str "bbox"; ":[0.0,0.0,612.0,792.5]}"].
Proof. vm_compute; reflexivity. Qed.

(** ** The batch orchestrator *)

Lemma truthy_app_r (a b : string) :
  PyStr.truthy b = true -> PyStr.truthy (a ++ b) = true.
Proof. destruct a; simpl; auto. Qed.

Lemma join_truthy (d n : string) :
  PyStr.truthy n = true -> PyStr.truthy (PyPath.join d n) = true.
Proof.
  intros H. unfold PyPath.join.
  destruct (String.eqb d "."); [exact H|].
  destruct (String.eqb d "/"); apply truthy_app_r; [exact H|].
  reflexivity.
Qed.

(** A path [save_result] returns is not the empty string. *)
Lemma save_result_path_truthy (self : Extractor) (strftime_now : string)
    (result : PDFExtractionResult) (format_type path : string)
    (w : list (string * string)) (lg : list LogRecord) :
  save_result self strftime_now result format_type = (inr path, w, lg) ->
  PyStr.truthy path = true.
Proof.
  unfold save_result.
  destruct (String.eqb (PyStr.lower format_type) "json");
    [|destruct (String.eqb (PyStr.lower format_type) "summary")];
    intros H; try discriminate H; injection H as <- _ _;
    apply join_truthy; apply truthy_app_r; reflexivity.
Qed.

Lemma save_result_ext (self self' : Extractor) (strftime_now : string)
    (result : PDFExtractionResult) (format_type : string) :
  output_dir self = output_dir self' ->
  save_result self strftime_now result format_type
  = save_result self' strftime_now result format_type.
Proof. intros H. unfold save_result. now rewrite H. Qed.

Section BatchFacts.

Variable set_iter : PySet.t -> list string.
Variable fs : FileSystem.
Variable listdir : string -> option (list string).
Variable completion : list string -> list string.
Variable clock_of : string -> TaskClock.

(** The extraction keeps the configuration of the extractor, and what it
    returns does not depend on the processed files. *)
Lemma extract_pdf_content_config (self : Extractor) (clk : ExtractClock)
    (pdf_path : string) (skip_cache : bool) :
  same_config
    (snd (fst (extract_pdf_content set_iter fs self clk pdf_path skip_cache)))
    self.
Proof.
  unfold extract_pdf_content, _calculate_file_hash, same_config.
  destruct (fs pdf_path) as [f|]; [|now split].
  destruct (md5_hexdigest f) as [e | h]; [now split|].
  destruct (fitz_open f) as [e | doc]; [now split|].
  destruct (Fitz.metadata_raw doc);
    destruct (page_loop set_iter self _ (Fitz.load_page doc) 0 loop_init);
    now split.
Qed.

Lemma extract_pdf_content_ext (self self' : Extractor) (clk : ExtractClock)
    (pdf_path : string) (skip_cache : bool) :
  same_config self self' ->
  fst (fst (extract_pdf_content set_iter fs self clk pdf_path skip_cache))
  = fst (fst (extract_pdf_content set_iter fs self' clk pdf_path skip_cache)).
Proof.
  intros [Hd Hi]. unfold extract_pdf_content, _calculate_file_hash.
  destruct (fs pdf_path) as [f|]; [|reflexivity].
  destruct (md5_hexdigest f) as [e | h]; [reflexivity|].
  destruct (fitz_open f) as [e | doc]; [reflexivity|].
  rewrite (page_loop_ext set_iter self self' _ (Fitz.load_page doc) Hi).
  destruct (Fitz.metadata_raw doc);
    destruct (page_loop set_iter self' _ (Fitz.load_page doc) 0 loop_init);
    reflexivity.
Qed.

(** What a task returns depends on the configuration alone, and the task
    keeps the configuration. *)
Lemma _process_single_file_ext (self self' : Extractor)
    (pdf_path save_format : string) :
  same_config self self' ->
  returned (_process_single_file set_iter fs clock_of self pdf_path save_format)
  = returned (_process_single_file set_iter fs clock_of self' pdf_path
                save_format)
  /\ same_config
       (extractor (_process_single_file set_iter fs clock_of self pdf_path
                     save_format))
       self.
Proof.
  intros Hc. unfold _process_single_file.
  pose proof (extract_pdf_content_ext self self'
                (tc_extract (clock_of pdf_path)) pdf_path false Hc) as Hr.
  pose proof (extract_pdf_content_config self
                (tc_extract (clock_of pdf_path)) pdf_path false) as H1.
  pose proof (extract_pdf_content_config self'
                (tc_extract (clock_of pdf_path)) pdf_path false) as H2.
  destruct (extract_pdf_content set_iter fs self _ pdf_path false)
    as [[r s] l].
  destruct (extract_pdf_content set_iter fs self' _ pdf_path false)
    as [[r' s'] l'].
  simpl in *. subst r'.
  destruct r as [e | result]; simpl; [now split|].
  assert (Hd : output_dir s = output_dir s').
  { destruct H1 as [-> _]. destruct H2 as [-> _]. apply Hc. }
  rewrite (save_result_ext s s' _ result save_format Hd).
  destruct (save_result s' _ result save_format) as [[[e | path] w] lg];
    simpl; now split.
Qed.

(** Each future holds what the task of its file returns. *)
Lemma run_tasks_returned (save_format : string) (files : list string) :
  forall self self0,
    same_config self self0 ->
    returned (run_tasks set_iter fs clock_of self save_format files)
    = map (fun f => (f, returned (_process_single_file set_iter fs clock_of
                                    self0 f save_format)))
          files.
Proof.
  induction files as [|f files IH]; intros self self0 Hc; simpl;
    [reflexivity|].
  destruct (_process_single_file_ext self self0 f save_format Hc)
    as [Hr Hk].
  rewrite Hr. f_equal. apply IH.
  destruct Hk as [Hk1 Hk2], Hc as [Hc1 Hc2]. split; congruence.
Qed.

Lemma collect_spec (futures : list (string * option string)) :
  forall c,
    output_files (collect futures c)
    = (output_files c ++ flat_map success_of futures)%list
    /\ failed_files (collect futures c)
       = (failed_files c ++ flat_map failure_of futures)%list.
Proof.
  induction futures as [|[f o] futures IH]; intros c; simpl.
  - now rewrite !app_nil_r.
  - unfold success_of, failure_of, success_of. simpl.
    destruct o as [path|]; [destruct (PyStr.truthy path)|];
      match goal with
      | |- context [collect futures ?c'] => destruct (IH c') as [-> ->]
      end; simpl; rewrite <- ?app_assoc; simpl; split; reflexivity.
Qed.


(** A path a task returns is not the empty string. *)
Lemma _process_single_file_truthy (self : Extractor)
    (pdf_path save_format path : string) :
  returned (_process_single_file set_iter fs clock_of self pdf_path
              save_format) = Some path ->
  PyStr.truthy path = true.
Proof.
  unfold _process_single_file.
  destruct (extract_pdf_content set_iter fs self _ pdf_path false)
    as [[[e | result] s] l0]; simpl; [discriminate|].
  destruct (save_result s _ result save_format)
    as [[[e | p] w] lg] eqn:Es; simpl; [discriminate|].
  intros E. injection E as <-. eapply save_result_path_truthy. exact Es.
Qed.


Lemma flat_map_singletons {A B : Type} (g : A -> option B) (l : list A) :
  flat_map (fun a => match g a with Some b => [b] | None => [] end) l
  = successes (map g l).
Proof.
  induction l as [|a l IH]; simpl; [reflexivity|].
  destruct (g a); simpl; now rewrite IH.
Qed.



End BatchFacts.

Example batch_process_sample :
  let o := batch_process Sample.insertion_order Sample.fs Sample.listdir
             Sample.reversed Sample.task_clock Sample.extractor "7.5"
             "in" 4 "json" in
  returned o
  = inr ["out/c_20240501_100003.json"; "out/a_20240501_100003.json"]
  /\ map fst (written o)
     = ["out/c_20240501_100003.json"; "out/a_20240501_100003.json"]
  /\ failed_files
       (returned (batch_run Sample.insertion_order Sample.fs Sample.reversed
                    Sample.task_clock Sample.extractor "json"
                    (glob_pdf "in" ["a.pdf"; "b.pdf"; "notes.txt"; "c.pdf"])))
     = ["in/b.pdf"]
  /\ returned (batch_process Sample.insertion_order Sample.fs Sample.listdir
                 Sample.reversed Sample.task_clock Sample.extractor "7.5"
                 "in" 4 "yaml")
     = inr []
  /\ (exists e,
        returned (batch_process Sample.insertion_order Sample.fs
                    Sample.listdir Sample.reversed Sample.task_clock
                    Sample.extractor "7.5" "elsewhere" 4 "json")
        = inl e /\ exn_type e = FileNotFoundError).
Proof.
  cbn zeta. repeat split; try (vm_compute; reflexivity).
  eexists. split; vm_compute; reflexivity.
Qed.


(** * Further properties *)

(** ** The page extractor, further *)

Lemma count_words_bounds (s : string) :
  forall in_word,
    0 <= PyStr.count_words_from in_word s
    /\ 2 * PyStr.count_words_from in_word s
       <= PyStr.len s + (if in_word then 0 else 1).
Proof.
  unfold PyStr.len.
  induction s as [|c s IH]; intros in_word; cbn [PyStr.count_words_from].
  - cbn [String.length]. destruct in_word; lia.
  - cbn [String.length]. rewrite Nat2Z.inj_succ.
    destruct (PyStr.is_space c).
    + destruct (IH false) as [H1 H2]. destruct in_word; lia.
    + destruct (IH true) as [H1 H2]. destruct in_word; lia.
Qed.

Lemma count_words_blank (s : string) :
  forall in_word,
    only_spaces s = true -> PyStr.count_words_from in_word s = 0.
Proof.
  induction s as [|c s IH]; intros in_word; simpl; [reflexivity|].
  destruct (PyStr.is_space c); simpl; [apply IH|discriminate].
Qed.

Lemma count_words_some (s : string) :
  only_spaces s = false -> 0 < PyStr.count_words_from false s.
Proof.
  induction s as [|c s IH]; cbn [only_spaces PyStr.count_words_from];
    [discriminate|].
  destruct (PyStr.is_space c); cbn [andb]; [exact IH|].
  intros _. pose proof (count_words_bounds s true). lia.
Qed.

(** X1: in the record of a page, [char_count] is the length of the text
    the reader gave; [word_count] is never negative and never more than
    half the characters, rounded up; and it is zero exactly when the text
    is empty or made of whitespace only. *)
Theorem page_record_counts (set_iter : PySet.t -> list string)
    (self : Extractor) (page : Fitz.Page) (page_num : Z)
    (pc : PageContent) (lg : list LogRecord) :
  _extract_page_content set_iter self page page_num = inr (pc, lg) ->
  Fitz.get_text page = inr (text pc)
  /\ char_count pc = PyStr.len (text pc)
  /\ 0 <= word_count pc
  /\ 2 * word_count pc <= char_count pc + 1
  /\ (word_count pc = 0 <-> only_spaces (text pc) = true).
Proof.
  unfold _extract_page_content.
  destruct (Fitz.get_text page) as [e | t]; cbn [bind]; [discriminate|].
  intros H. injection H as <- _.
  cbn [text char_count word_count].
  assert (Hw : (if PyStr.truthy t then PyStr.split_len t else 0)
               = PyStr.split_len t) by (destruct t; reflexivity).
  rewrite Hw. unfold PyStr.split_len.
  destruct (count_words_bounds t false) as [H0 H1].
  split; [reflexivity|]. split; [reflexivity|].
  split; [exact H0|]. split; [lia|]. split.
  - intros Hz. destruct (only_spaces t) eqn:E; [reflexivity|].
    apply count_words_some in E. lia.
  - apply count_words_blank.
Qed.

Lemma page_record_counts_witness :
  exists pc lg,
    _extract_page_content Sample.insertion_order Sample.extractor
      Sample.mixed_page 2 = inr (pc, lg)
    /\ char_count pc = 13 /\ word_count pc = 3
    /\ 2 * word_count pc <= char_count pc + 1
    /\ (word_count pc = 0 <-> only_spaces (text pc) = true).
Proof.
  eexists; eexists. split; [vm_compute; reflexivity|].
  split; [reflexivity|]. split; [reflexivity|].
  eapply (page_record_counts Sample.insertion_order Sample.extractor
            Sample.mixed_page 2). vm_compute; reflexivity.
Defined.

(** The image records of a list of cross-reference numbers, from a given
    position on. *)
Lemma images_info_spec (page : Fitz.Page) (image_list : list Z) :
  forall img_index,
    StronglySorted Z.lt (map index (images_info page img_index image_list))
    /\ List.length (images_info page img_index image_list)
       = List.length (filter (resolves page) image_list)
    /\ forall im,
         In im (images_info page img_index image_list) ->
         img_index <= index im
         /\ exists xref base_image,
              nth_error image_list (Z.to_nat (index im - img_index))
              = Some xref
              /\ Fitz.parent_extract_image page xref = inr base_image
              /\ im = image_record (index im) base_image.
Proof.
  induction image_list as [|xref rest IH]; intros img_index.
  - simpl. split; [constructor|]. split; [reflexivity|]. intros im [].
  - destruct (IH (img_index + 1)) as (Hs & Hl & Hin).
    cbn [images_info filter]. unfold resolves at 1.
    destruct (Fitz.parent_extract_image page xref) as [e | base_image] eqn:E.
    + split; [exact Hs|]. split; [exact Hl|].
      intros im Him. destruct (Hin im Him) as (Hle & x & b & Hn & Hx & Hr).
      split; [lia|]. exists x, b. split; [|now split].
      replace (Z.to_nat (index im - img_index))
        with (S (Z.to_nat (index im - (img_index + 1)))) by lia.
      exact Hn.
    + split; [|split].
      * cbn [map index]. constructor; [exact Hs|].
        apply Forall_forall. intros j Hj. apply in_map_iff in Hj.
        destruct Hj as (im & <- & Him). destruct (Hin im Him) as [Hle _].
        lia.
      * cbn [List.length]. now rewrite Hl.
      * intros im [<- | Him].
        -- cbn [index]. split; [lia|]. exists xref, base_image.
           rewrite Z.sub_diag. repeat split; exact E.
        -- destruct (Hin im Him) as (Hle & x & b & Hn & Hx & Hr).
           split; [lia|]. exists x, b. split; [|now split].
           replace (Z.to_nat (index im - img_index))
             with (S (Z.to_nat (index im - (img_index + 1)))) by lia.
           exact Hn.
Qed.

(** X2: the images of a page record are those of the page's image list
    that resolve, each under its position in that list: the positions
    increase strictly, an image that does not resolve leaves a gap, and
    with images disabled the record has none. *)
Theorem page_images_positions (set_iter : PySet.t -> list string)
    (self : Extractor) (page : Fitz.Page) (page_num : Z)
    (pc : PageContent) (lg : list LogRecord) :
  _extract_page_content set_iter self page page_num = inr (pc, lg) ->
  (enable_images self = false -> images pc = [])
  /\ (forall image_list,
        enable_images self = true ->
        Fitz.get_images page = inr image_list ->
        StronglySorted Z.lt (map index (images pc))
        /\ List.length (images pc)
           = List.length (filter (resolves page) image_list)
        /\ forall im,
             In im (images pc) ->
             0 <= index im
             /\ exists xref base_image,
                  nth_error image_list (Z.to_nat (index im)) = Some xref
                  /\ Fitz.parent_extract_image page xref = inr base_image
                  /\ im = image_record (index im) base_image).
Proof.
  unfold _extract_page_content.
  destruct (Fitz.get_text page) as [e | t]; cbn [bind]; [discriminate|].
  intros H. injection H as <- _. cbn [images]. unfold page_images. split.
  - intros ->. reflexivity.
  - intros image_list -> ->. cbn [fst].
    destruct (images_info_spec page image_list 0) as (Hs & Hl & Hin).
    split; [exact Hs|]. split; [exact Hl|].
    intros im Him. destruct (Hin im Him) as (Hle & x & b & Hn & Hx & Hr).
    split; [exact Hle|]. exists x, b. rewrite Z.sub_0_r in Hn.
    now repeat split.
Qed.

Lemma page_images_positions_witness :
  exists pc lg,
    _extract_page_content Sample.insertion_order Sample.extractor
      Sample.mixed_page 2 = inr (pc, lg)
    /\ map index (images pc) = [0]
    /\ List.length (images pc)
       = List.length (filter (resolves Sample.mixed_page) [7; 8]).
Proof.
  eexists; eexists. split; [vm_compute; reflexivity|].
  split; [reflexivity|].
  destruct (page_images_positions Sample.insertion_order Sample.extractor
              Sample.mixed_page 2 _ _ eq_refl) as [_ H].
  exact (proj1 (proj2 (H [7; 8] eq_refl eq_refl))).
Defined.

(** X3: the page extractor raises exactly when the text of the page
    cannot be read, with the reader's exception.  A failure of the
    structured text or of the image list is absorbed: it is logged as a
    warning and leaves the fonts, or the images, of the record empty; the
    extractor logs nothing but such warnings, at most two. *)
Theorem page_failures_absorbed (set_iter : PySet.t -> list string)
    (self : Extractor) (page : Fitz.Page) (page_num : Z) :
  (forall e, _extract_page_content set_iter self page page_num = inl e
             <-> Fitz.get_text page = inl e)
  /\ (forall pc lg,
        _extract_page_content set_iter self page page_num = inr (pc, lg) ->
        Forall (fun r => fst r = WARNING) lg
        /\ (List.length lg <= 2)%nat
        /\ (forall e,
              0 < word_count pc -> fonts_on_page page = inl e ->
              fonts pc = []
              /\ In (WARNING, "Font extraction failed for page "
                              ++ PyInt.str (page_num + 1) ++ ": "
                              ++ exn_str e) lg)
        /\ (forall e,
              enable_images self = true -> Fitz.get_images page = inl e ->
              images pc = []
              /\ In (WARNING, "Image extraction failed for page "
                              ++ PyInt.str (page_num + 1) ++ ": "
                              ++ exn_str e) lg)).
Proof.
  unfold _extract_page_content. split.
  - intros e. destruct (Fitz.get_text page) as [e' | t]; cbn [bind].
    + split; intros H; injection H as ->; reflexivity.
    + split; discriminate.
  - intros pc lg. destruct (Fitz.get_text page) as [e' | t]; cbn [bind];
      [discriminate|].
    intros H. injection H as <- <-. cbn [fonts images word_count].
    assert (Hw : (if PyStr.truthy t then PyStr.split_len t else 0)
                 = PyStr.split_len t) by (destruct t; reflexivity).
    rewrite Hw.
    assert (Ht : 0 < PyStr.split_len t ->
                 PyStr.truthy t && (0 <? PyStr.split_len t) = true).
    { intros Hp. destruct t; [cbn in Hp; lia|].
      cbn [PyStr.truthy andb]. now apply Z.ltb_lt. }
    unfold page_fonts, page_images.
    split; [|split; [|split]].
    + apply Forall_app. split.
      * destruct (PyStr.truthy t && (0 <? PyStr.split_len t));
          [destruct (fonts_on_page page)|]; cbn [snd]; repeat constructor.
      * destruct (enable_images self);
          [destruct (Fitz.get_images page)|]; cbn [snd]; repeat constructor.
    + rewrite length_app.
      destruct (PyStr.truthy t && (0 <? PyStr.split_len t));
        [destruct (fonts_on_page page)|];
        (destruct (enable_images self);
          [destruct (Fitz.get_images page)|]); cbn [snd List.length]; lia.
    + intros e Hp He. rewrite (Ht Hp), He. cbn [fst snd]. split; [reflexivity|].
      apply in_or_app. left. now left.
    + intros e -> ->. cbn [fst snd]. split; [reflexivity|].
      apply in_or_app. right. now left.
Qed.

Lemma page_failures_absorbed_witness :
  exists pc,
    _extract_page_content Sample.insertion_order Sample.extractor
      Sample.opaque_page 4
    = inr (pc,
           [(WARNING, "Font extraction failed for page 5: no text dict");
            (WARNING, "Image extraction failed for page 5: no images")])
    /\ fonts pc = [] /\ images pc = [].
Proof.
  eexists. split; [vm_compute; reflexivity|].
  destruct (page_failures_absorbed Sample.insertion_order Sample.extractor
              Sample.opaque_page 4) as [_ H].
  destruct (H _ _ eq_refl) as (_ & _ & Hf & Hi).
  split.
  - apply (Hf (Raise RuntimeError "no text dict")); [vm_compute|]; reflexivity.
  - apply (Hi (Raise RuntimeError "no images")); reflexivity.
Defined.

(** ** Sorting *)

Lemma ascii_compare_refl (c : ascii) : Ascii.compare c c = Eq.
Proof. unfold Ascii.compare. apply N.compare_refl. Qed.

Lemma ascii_compare_trans (a b c : ascii) (r : comparison) :
  Ascii.compare a b = r -> Ascii.compare b c = r -> Ascii.compare a c = r.
Proof.
  unfold Ascii.compare. destruct r; intros H1 H2.
  - apply N.compare_eq_iff in H1, H2. apply N.compare_eq_iff. congruence.
  - rewrite N.compare_lt_iff in *. lia.
  - rewrite N.compare_gt_iff in *. lia.
Qed.

Lemma string_compare_lt_trans (s1 : string) :
  forall s2 s3,
    String.compare s1 s2 = Lt -> String.compare s2 s3 = Lt ->
    String.compare s1 s3 = Lt.
Proof.
  induction s1 as [|a s1 IH]; intros [|b s2] [|c s3]; simpl;
    try discriminate; try reflexivity.
  destruct (Ascii.compare a b) eqn:Eab; try discriminate;
    destruct (Ascii.compare b c) eqn:Ebc; try discriminate; intros H1 H2.
  - rewrite (ascii_compare_trans a b c Eq Eab Ebc). now apply (IH s2).
  - apply Ascii.compare_eq_iff in Eab. subst b. now rewrite Ebc.
  - apply Ascii.compare_eq_iff in Ebc. subst c. now rewrite Eab.
  - now rewrite (ascii_compare_trans a b c Lt Eab Ebc).
Qed.

Lemma string_leb_trans (s1 s2 s3 : string) :
  String.leb s1 s2 = true -> String.leb s2 s3 = true ->
  String.leb s1 s3 = true.
Proof.
  unfold String.leb.
  destruct (String.compare s1 s2) eqn:E12; try discriminate;
    destruct (String.compare s2 s3) eqn:E23; try discriminate; intros _ _.
  - apply String.compare_eq_iff in E12. subst. now rewrite E23.
  - apply String.compare_eq_iff in E12. subst. now rewrite E23.
  - apply String.compare_eq_iff in E23. subst. now rewrite E12.
  - now rewrite (string_compare_lt_trans s1 s2 s3 E12 E23).
Qed.

Lemma insert_sorted_perm (x : string) (l : list string) :
  Permutation (insert_sorted x l) (x :: l).
Proof.
  induction l as [|y l IH]; simpl; [reflexivity|].
  destruct (String.leb x y); [reflexivity|].
  rewrite IH. apply perm_swap.
Qed.

Lemma sorted_perm (l : list string) : Permutation (sorted l) l.
Proof.
  induction l as [|x l IH]; simpl; [reflexivity|].
  rewrite insert_sorted_perm. now constructor.
Qed.

Lemma insert_sorted_sorted (x : string) (l : list string) :
  StronglySorted (fun a b => String.leb a b = true) l ->
  StronglySorted (fun a b => String.leb a b = true) (insert_sorted x l).
Proof.
  induction 1 as [|y l Hs IH Hy]; simpl.
  - repeat constructor.
  - destruct (String.leb x y) eqn:E.
    + constructor; [now constructor|]. constructor; [exact E|].
      eapply Forall_impl; [|exact Hy]. intros z Hz. cbv beta in Hz.
      now apply (string_leb_trans x y z).
    + constructor; [exact IH|].
      assert (Hyx : String.leb y x = true).
      { destruct (String.leb_total x y) as [H | H]; [congruence|exact H]. }
      eapply Permutation_Forall;
        [apply Permutation_sym, insert_sorted_perm|].
      now constructor.
Qed.

Lemma sorted_sorted (l : list string) :
  StronglySorted (fun a b => String.leb a b = true) (sorted l).
Proof.
  induction l as [|x l IH]; simpl; [constructor|].
  now apply insert_sorted_sorted.
Qed.

(** ** The fonts of a document *)

Section DocumentFonts.

Variable set_iter : PySet.t -> list string.
Variable self : Extractor.

(** The loop gathers in [all_fonts] the fonts of the records it keeps. *)
Lemma page_loop_fonts (len_doc : Z) (pgs : list (exn + Fitz.Page)) :
  forall (page_num : Z) (st : LoopState),
    ls_all_fonts (fst (page_loop set_iter self len_doc pgs page_num st))
    = (ls_all_fonts st
       ++ flat_map fonts
            (successes (page_attempts set_iter self page_num pgs)))%list.
Proof.
  induction pgs as [|p rest IH]; intros page_num st.
  - simpl. now rewrite app_nil_r.
  - simpl page_loop. simpl page_attempts. unfold page_attempt.
    destruct (page <- p ;; _extract_page_content set_iter self page page_num)
      as [e | [pc lg]].
    + specialize (IH (page_num + 1) st).
      destruct (page_loop set_iter self len_doc rest (page_num + 1) st)
        as [st' lg']. exact IH.
    + specialize (IH (page_num + 1) (loop_add st pc)).
      destruct (page_loop set_iter self len_doc rest (page_num + 1)
                          (loop_add st pc)) as [st' lg'].
      simpl in *. rewrite IH. unfold PySet.update.
      now rewrite <- app_assoc.
Qed.

End DocumentFonts.

Lemma extract_pdf_content_fonts (set_iter : PySet.t -> list string)
    (fs : FileSystem) (self self' : Extractor) (clk : ExtractClock)
    (pdf_path : string) (skip_cache : bool) (result : PDFExtractionResult)
    (lg : list LogRecord) :
  extract_pdf_content set_iter fs self clk pdf_path skip_cache
  = (inr result, self', lg) ->
  fonts_used result = sorted (set_iter (flat_map fonts (pages result)))
  /\ ed_fonts_used (basic_extraction result) = fonts_used result.
Proof.
  intros H.
  destruct (extract_pdf_content_returned _ _ _ _ _ _ _ _ _ H)
    as (f & doc & Hfs & Hopen & Hp & _).
  revert H. unfold extract_pdf_content, _calculate_file_hash. rewrite Hfs.
  destruct (md5_hexdigest f) as [e | h]; [discriminate|]. rewrite Hopen.
  pose proof (page_loop_fonts set_iter self
                (Z.of_nat (List.length (Fitz.load_page doc)))
                (Fitz.load_page doc) 0 loop_init) as Hfonts.
  destruct (Fitz.metadata_raw doc) as [e | raw];
    destruct (page_loop set_iter self _ (Fitz.load_page doc) 0 loop_init)
      as [st lg0]; cbn [fst] in Hfonts;
    intros H; injection H as <- _ _; cbn [fonts_used basic_extraction
      ed_fonts_used pages] in *;
    rewrite Hfonts, <- Hp; split; reflexivity.
Qed.

(** X4: the fonts of a returned record are in ascending order; on a
    runtime whose sets yield each element once they are without
    repetition and are exactly the fonts of the pages of the record. *)
Theorem extract_pdf_content_fonts_used (set_iter : PySet.t -> list string)
    (fs : FileSystem) (self self' : Extractor) (clk : ExtractClock)
    (pdf_path : string) (skip_cache : bool) (result : PDFExtractionResult)
    (lg : list LogRecord) :
  extract_pdf_content set_iter fs self clk pdf_path skip_cache
  = (inr result, self', lg) ->
  StronglySorted (fun a b => String.leb a b = true) (fonts_used result)
  /\ (set_iter_ok set_iter ->
      NoDup (fonts_used result)
      /\ forall font,
           In font (fonts_used result)
           <-> exists pc, In pc (pages result) /\ In font (fonts pc)).
Proof.
  intros H. destruct (extract_pdf_content_fonts _ _ _ _ _ _ _ _ _ H)
    as [Hf Hed].
  split; [rewrite Hf; apply sorted_sorted|].
  intros Hok. destruct (Hok (flat_map fonts (pages result))) as [Hnd Hin].
  rewrite Hf. split.
  - eapply Permutation_NoDup; [apply Permutation_sym, sorted_perm|exact Hnd].
  - intros font. split.
    + intros Hi. apply (Permutation_in _ (sorted_perm _)) in Hi.
      apply Hin in Hi. apply in_flat_map in Hi. exact Hi.
    + intros Hi. apply (Permutation_in _ (Permutation_sym (sorted_perm _))).
      apply Hin. apply in_flat_map. exact Hi.
Qed.

Lemma extract_pdf_content_fonts_used_witness :
  exists result self' lg,
    extract_pdf_content Sample.insertion_order Sample.fs Sample.extractor
      Sample.clock "in/a.pdf" false = (inr result, self', lg)
    /\ fonts_used result = ["Arial (12.0pt)"; "Times (10.5pt)"]
    /\ NoDup (fonts_used result).
Proof.
  eexists; eexists; eexists. split; [vm_compute; reflexivity|].
  split; [reflexivity|].
  eapply (extract_pdf_content_fonts_used Sample.insertion_order Sample.fs
            Sample.extractor _ Sample.clock "in/a.pdf" false).
  - vm_compute; reflexivity.
  - exact insertion_order_ok.
Defined.

(** ** Stripping *)

Lemma lstrip_head (s : string) :
  match PyStr.lstrip s with
  | String c _ => PyStr.is_space c = false
  | EmptyString => True
  end.
Proof.
  induction s as [|c s IH]; simpl; [exact I|].
  destruct (PyStr.is_space c) eqn:E; [exact IH|exact E].
Qed.

Lemma rstrip_cons (c : ascii) (s : string) :
  PyStr.is_space c = false ->
  PyStr.rstrip (String c s) = String c (PyStr.rstrip s).
Proof.
  intros H. simpl. rewrite H. now destruct (PyStr.rstrip s).
Qed.

Lemma rstrip_idem (s : string) :
  PyStr.rstrip (PyStr.rstrip s) = PyStr.rstrip s.
Proof.
  induction s as [|c s IH]; [reflexivity|].
  cbn [PyStr.rstrip]. destruct (PyStr.rstrip s) as [|d r] eqn:E.
  - destruct (PyStr.is_space c) eqn:Ec; [reflexivity|].
    simpl. now rewrite Ec.
  - cbn [PyStr.rstrip]. cbn [PyStr.rstrip] in IH. rewrite IH. reflexivity.
Qed.

Lemma strip_idem (s : string) : PyStr.strip (PyStr.strip s) = PyStr.strip s.
Proof.
  unfold PyStr.strip. pose proof (lstrip_head s) as H.
  destruct (PyStr.lstrip s) as [|c r]; [reflexivity|].
  rewrite (rstrip_cons c r H). cbn [PyStr.lstrip]. rewrite H.
  rewrite (rstrip_cons c _ H). now rewrite rstrip_idem.
Qed.

(** ** The metadata of a document *)

Lemma dict_set_fresh (d : list (string * string)) (k v : string) :
  ~ In k (map fst d) -> dict_set d k v = (d ++ [(k, v)])%list.
Proof.
  induction d as [|[k' v'] d IH]; simpl; [reflexivity|].
  intros H. destruct (String.eqb_spec k k') as [-> | Hne].
  - elim H. now left.
  - f_equal. apply IH. intros Hin. apply H. now right.
Qed.

Lemma kept_metadata_step (d : list (string * string))
    (kv : string * option string) :
  ~ In (fst kv) (map fst d) ->
  match snd kv with
  | Some v =>
      if PyStr.truthy v && PyStr.truthy (PyStr.strip v)
      then dict_set d (fst kv) (PyStr.strip v) else d
  | None => d
  end = (d ++ kept_metadata kv)%list.
Proof.
  intros H. unfold kept_metadata. destruct (snd kv) as [v|];
    [|now rewrite app_nil_r].
  destruct v as [|c v]; [cbn; now rewrite app_nil_r|].
  cbn [PyStr.truthy andb].
  destruct (PyStr.truthy (PyStr.strip (String c v)));
    [now apply dict_set_fresh|now rewrite app_nil_r].
Qed.

Lemma kept_metadata_keys (kv : string * option string) (k : string) :
  In k (map fst (kept_metadata kv)) -> k = fst kv.
Proof.
  unfold kept_metadata. destruct (snd kv) as [v|]; [|intros []].
  destruct (PyStr.truthy (PyStr.strip v)); [|intros []].
  intros [<- | []]. reflexivity.
Qed.

Lemma clean_metadata_from (raw : list (string * option string)) :
  forall d,
    NoDup (map fst raw) ->
    (forall k, In k (map fst raw) -> ~ In k (map fst d)) ->
    fold_left
      (fun d kv =>
         match snd kv with
         | Some v =>
             if PyStr.truthy v && PyStr.truthy (PyStr.strip v)
             then dict_set d (fst kv) (PyStr.strip v) else d
         | None => d
         end)
      raw d
    = (d ++ flat_map kept_metadata raw)%list.
Proof.
  induction raw as [|kv raw IH]; intros d Hnd Hd.
  - simpl. now rewrite app_nil_r.
  - cbn [fold_left flat_map]. inversion Hnd as [|k0 l0 Hk Hnd']; subst.
    rewrite (kept_metadata_step d kv) by (apply Hd; now left).
    rewrite IH; [now rewrite <- app_assoc|exact Hnd'|].
    intros k Hin Hin'. rewrite map_app in Hin'. apply in_app_or in Hin'.
    destruct Hin' as [Hin' | Hin'].
    + apply (Hd k); [now right|exact Hin'].
    + apply kept_metadata_keys in Hin'. subst k. contradiction.
Qed.

(** The metadata of a dictionary: its entries in order, each kept or
    dropped on its own. *)
Lemma clean_metadata_spec (raw : list (string * option string)) :
  NoDup (map fst raw) -> clean_metadata raw = flat_map kept_metadata raw.
Proof.
  intros H. unfold clean_metadata.
  now rewrite (clean_metadata_from raw [] H) by (intros k _ []).
Qed.

Lemma dict_set_In (d : list (string * string)) (k v k' v' : string) :
  In (k, v) (dict_set d k' v') -> (k, v) = (k', v') \/ In (k, v) d.
Proof.
  induction d as [|[k0 v0] d IH]; simpl.
  - intros [H | []]. left. now symmetry.
  - destruct (String.eqb k' k0).
    + intros [H | H]; [left; now symmetry|right; now right].
    + intros [H | H]; [right; now left|].
      destruct (IH H) as [Heq | Hin]; [now left|right; now right].
Qed.

(** Every value the metadata loop stores is non-empty and stripped. *)
Lemma clean_metadata_values (raw : list (string * option string)) :
  forall k v, In (k, v) (clean_metadata raw) ->
              v <> "" /\ PyStr.strip v = v.
Proof.
  unfold clean_metadata.
  assert (H : forall d,
             (forall k v, In (k, v) d -> v <> "" /\ PyStr.strip v = v) ->
             forall k v,
               In (k, v)
                  (fold_left
                     (fun d kv =>
                        match snd kv with
                        | Some v =>
                            if PyStr.truthy v
                               && PyStr.truthy (PyStr.strip v)
                            then dict_set d (fst kv) (PyStr.strip v) else d
                        | None => d
                        end) raw d) ->
               v <> "" /\ PyStr.strip v = v).
  { induction raw as [|[k0 [v0|]] raw IH]; intros d Hd; cbn [fold_left snd fst];
      [exact Hd| |apply IH; exact Hd].
    destruct (PyStr.truthy v0 && PyStr.truthy (PyStr.strip v0)) eqn:E;
      [|apply IH; exact Hd].
    apply IH. intros k v Hin. apply dict_set_In in Hin.
    destruct Hin as [Heq | Hin]; [|exact (Hd k v Hin)].
    injection Heq as -> ->. apply andb_true_iff in E. destruct E as [_ E].
    split; [|apply strip_idem].
    intros Hs. rewrite Hs in E. discriminate. }
  apply (H []). intros k v [].
Qed.

Lemma extract_pdf_content_metadata_of (set_iter : PySet.t -> list string)
    (fs : FileSystem) (self self' : Extractor) (clk : ExtractClock)
    (pdf_path : string) (skip_cache : bool) (result : PDFExtractionResult)
    (lg : list LogRecord) :
  extract_pdf_content set_iter fs self clk pdf_path skip_cache
  = (inr result, self', lg) ->
  exists f doc,
    fs pdf_path = Some f /\ fitz_open f = inr doc
    /\ match Fitz.metadata_raw doc with
       | inr raw => metadata result = clean_metadata raw
       | inl e =>
           metadata result = []
           /\ In (WARNING, "Metadata extraction failed: " ++ exn_str e) lg
       end.
Proof.
  intros H.
  destruct (extract_pdf_content_inv _ _ _ _ _ _ _ _ _ H)
    as (f & h & doc & Hfs & Hmd5 & Hopen).
  exists f, doc. split; [exact Hfs|]. split; [exact Hopen|].
  revert H. unfold extract_pdf_content, _calculate_file_hash.
  rewrite Hfs, Hmd5, Hopen.
  destruct (Fitz.metadata_raw doc) as [e | raw];
    destruct (page_loop set_iter self _ (Fitz.load_page doc) 0 loop_init)
      as [st lg0]; intros H; injection H as <- _ <-; cbn [metadata];
    [|reflexivity].
  split; [reflexivity|].
  apply in_or_app. right. right. now left.
Qed.

(** X5: the metadata of a returned record are the entries of the
    document's metadata, in their order, whose value is a string with
    something besides whitespace, each value stripped; so every value kept
    is non-empty and has no blank at either end.  When the metadata
    cannot be read the record has none and a warning is logged. *)
Theorem extract_pdf_content_metadata (set_iter : PySet.t -> list string)
    (fs : FileSystem) (self self' : Extractor) (clk : ExtractClock)
    (pdf_path : string) (skip_cache : bool) (result : PDFExtractionResult)
    (lg : list LogRecord) :
  extract_pdf_content set_iter fs self clk pdf_path skip_cache
  = (inr result, self', lg) ->
  exists f doc,
    fs pdf_path = Some f /\ fitz_open f = inr doc
    /\ (forall raw,
          Fitz.metadata_raw doc = inr raw -> NoDup (map fst raw) ->
          metadata result = flat_map kept_metadata raw)
    /\ (forall e,
          Fitz.metadata_raw doc = inl e ->
          metadata result = []
          /\ In (WARNING, "Metadata extraction failed: " ++ exn_str e) lg)
    /\ (forall k v, In (k, v) (metadata result) ->
                    v <> "" /\ PyStr.strip v = v).
Proof.
  intros H.
  destruct (extract_pdf_content_metadata_of _ _ _ _ _ _ _ _ _ H)
    as (f & doc & Hfs & Hopen & Hm).
  exists f, doc. split; [exact Hfs|]. split; [exact Hopen|].
  destruct (Fitz.metadata_raw doc) as [e | raw].
  - destruct Hm as [Hm Hlog]. split; [discriminate|]. split.
    + intros e' He'. injection He' as <-. now split.
    + rewrite Hm. intros k v [].
  - split.
    + intros raw' Hr Hnd. injection Hr as <-. rewrite Hm.
      now apply clean_metadata_spec.
    + split; [discriminate|].
      rewrite Hm. apply clean_metadata_values.
Qed.

Lemma extract_pdf_content_metadata_witness :
  exists result self' lg,
    extract_pdf_content Sample.insertion_order Sample.fs Sample.extractor
      Sample.clock "in/a.pdf" false = (inr result, self', lg)
    /\ metadata result = [("title", "Report"); ("producer", "pdfTeX")]
    /\ (forall k v, In (k, v) (metadata result) ->
                    v <> "" /\ PyStr.strip v = v).
Proof.
  eexists; eexists; eexists. split; [vm_compute; reflexivity|].
  split; [reflexivity|].
  destruct (extract_pdf_content_metadata Sample.insertion_order Sample.fs
              Sample.extractor _ Sample.clock "in/a.pdf" false _ _ eq_refl)
    as (f & doc & _ & _ & _ & _ & H).
  exact H.
Defined.

(** ** What the extraction logs and when it raises *)

Lemma of_level_app (l : log_level) (a b : list LogRecord) :
  of_level l (a ++ b)%list = (of_level l a ++ of_level l b)%list.
Proof. apply filter_app. Qed.

Lemma of_level_none (l : log_level) (lg : list LogRecord) :
  Forall (fun r => has_level l r = false) lg -> of_level l lg = [].
Proof.
  induction 1 as [|r lg Hr _ IH]; [reflexivity|].
  unfold of_level in *. simpl. now rewrite Hr.
Qed.

(** The page extractor logs warnings only. *)
Lemma page_log_warnings (set_iter : PySet.t -> list string)
    (self : Extractor) (page : Fitz.Page) (page_num : Z)
    (pc : PageContent) (lg : list LogRecord) :
  _extract_page_content set_iter self page page_num = inr (pc, lg) ->
  Forall (fun r => fst r = WARNING) lg.
Proof.
  unfold _extract_page_content.
  destruct (Fitz.get_text page) as [e | t]; cbn [bind]; [discriminate|].
  intros H. injection H as _ <-. apply Forall_app.
  unfold page_fonts, page_images. split.
  - destruct (PyStr.truthy t && _); [destruct (fonts_on_page page)|];
      cbn [snd]; repeat constructor.
  - destruct (enable_images self); [destruct (Fitz.get_images page)|];
      cbn [snd]; repeat constructor.
Qed.

Lemma warnings_no_error (lg : list LogRecord) :
  Forall (fun r => fst r = WARNING) lg -> of_level ERROR lg = [].
Proof.
  intros H. apply of_level_none. eapply Forall_impl; [|exact H].
  intros [l m] Hl. simpl in Hl. subst l. reflexivity.
Qed.

Section PageLoopLog.

Variable set_iter : PySet.t -> list string.
Variable self : Extractor.

(** The loop logs one error per page it passes over, and no other. *)
Lemma page_loop_errors (len_doc : Z) (pgs : list (exn + Fitz.Page)) :
  forall (page_num : Z) (st : LoopState),
    let lg := snd (page_loop set_iter self len_doc pgs page_num st) in
    (List.length (of_level ERROR lg)
     + List.length (successes (page_attempts set_iter self page_num pgs))
     = List.length pgs)%nat
    /\ forall (i : nat) (p : exn + Fitz.Page) (e : exn),
         nth_error pgs i = Some p ->
         page_error set_iter self (page_num + Z.of_nat i) p = Some e ->
         In (ERROR, "Error processing page "
                    ++ PyInt.str (page_num + Z.of_nat i + 1) ++ ": "
                    ++ exn_str e) lg.
Proof.
  induction pgs as [|p rest IH]; intros page_num st; cbn zeta.
  - split; [reflexivity|]. intros [|i] q e H; discriminate.
  - simpl page_loop. simpl page_attempts. unfold page_attempt.
    destruct (page <- p ;; _extract_page_content set_iter self page page_num)
      as [e0 | [pc lg0]] eqn:E.
    + specialize (IH (page_num + 1) st). cbn zeta in IH.
      destruct (page_loop set_iter self len_doc rest (page_num + 1) st)
        as [st' lg']. cbn [snd] in *. destruct IH as [Hn Hin]. split.
      * unfold of_level in *.
        cbn [filter has_level fst List.length successes]. lia.
      * intros [|i] q e Hq He.
        -- injection Hq as <-. unfold page_error in He.
           rewrite Z.add_0_r in He. rewrite E in He. injection He as <-.
           left. now rewrite Z.add_0_r.
        -- right. cbn [nth_error] in Hq.
           replace (page_num + Z.of_nat (S i))
             with (page_num + 1 + Z.of_nat i) in * by lia.
           now apply (Hin i q e).
    + specialize (IH (page_num + 1) (loop_add st pc)). cbn zeta in IH.
      destruct (page_loop set_iter self len_doc rest (page_num + 1)
                          (loop_add st pc)) as [st' lg'].
      cbn [snd] in *. destruct IH as [Hn Hin].
      assert (Hw : of_level ERROR lg0 = []).
      { destruct p as [e1 | page]; [discriminate|]. cbn [bind] in E.
        apply warnings_no_error. eapply page_log_warnings. exact E. }
      split.
      * rewrite !of_level_app, Hw. cbn [app successes].
        rewrite length_app.
        destruct ((page_num + 1) mod 10 =? 0);
          unfold of_level at 1; cbn [filter has_level fst List.length]; lia.
      * intros [|i] q e Hq He.
        -- injection Hq as <-. unfold page_error in He.
           rewrite Z.add_0_r in He. rewrite E in He. discriminate.
        -- apply in_or_app. right. apply in_or_app. right.
           cbn [nth_error] in Hq.
           replace (page_num + Z.of_nat (S i))
             with (page_num + 1 + Z.of_nat i) in * by lia.
           now apply (Hin i q e).
Qed.

End PageLoopLog.

(** X6: the extraction returns a record exactly when the file exists, its
    bytes can be read and the reader opens it, whatever its pages do.  A
    missing file raises [FileNotFoundError] before anything is logged; a
    file the reader cannot open raises a plain [Exception] that wraps the
    reader's message.  An extraction that raises leaves the extractor as it
    was: the file is not recorded as processed. *)
Theorem extract_pdf_content_failures (set_iter : PySet.t -> list string)
    (fs : FileSystem) (self : Extractor) (clk : ExtractClock)
    (pdf_path : string) (skip_cache : bool) :
  let out := extract_pdf_content set_iter fs self clk pdf_path skip_cache in
  (fs pdf_path = None ->
   out = (inl (Raise FileNotFoundError ("PDF file not found: " ++ pdf_path)),
          self, []))
  /\ (forall f h e,
        fs pdf_path = Some f -> md5_hexdigest f = inr h ->
        fitz_open f = inl e ->
        fst (fst out)
        = inl (Raise Exception ("Cannot open PDF file: " ++ exn_str e)))
  /\ (forall e, fst (fst out) = inl e ->
                snd (fst out) = self /\ of_level ERROR (snd out) = []
                /\ of_level WARNING (snd out) = [])
  /\ ((exists result, fst (fst out) = inr result)
      <-> exists f h doc,
            fs pdf_path = Some f /\ md5_hexdigest f = inr h
            /\ fitz_open f = inr doc).
Proof.
  cbn zeta. split; [|split; [|split]].
  - intros H. unfold extract_pdf_content. now rewrite H.
  - intros f h e Hfs Hmd5 Hopen. unfold extract_pdf_content,
      _calculate_file_hash. now rewrite Hfs, Hmd5, Hopen.
  - intros e. unfold extract_pdf_content, _calculate_file_hash.
    destruct (fs pdf_path) as [f|]; [|now repeat split].
    destruct (md5_hexdigest f) as [e1 | h]; [now repeat split|].
    destruct (fitz_open f) as [e2 | doc].
    + intros _. cbn [fst snd]. split; [reflexivity|].
      destruct (negb skip_cache && PySet.mem h (processed_files self));
        split; reflexivity.
    + destruct (Fitz.metadata_raw doc);
        destruct (page_loop set_iter self _ (Fitz.load_page doc) 0 loop_init);
        discriminate.
  - split.
    + intros [result H].
      destruct (extract_pdf_content set_iter fs self clk pdf_path skip_cache)
        as [[r s] l] eqn:E. cbn [fst] in H. subst r.
      exact (extract_pdf_content_inv _ _ _ _ _ _ _ _ _ E).
    + intros (f & h & doc & Hfs & Hmd5 & Hopen).
      destruct (extract_pdf_content_ok set_iter fs self clk pdf_path
                  skip_cache f h doc Hfs Hmd5 Hopen)
        as (result & s & l & E & _).
      exists result. now rewrite E.
Qed.

Lemma extract_pdf_content_failures_witness :
  (extract_pdf_content Sample.insertion_order Sample.fs Sample.extractor
     Sample.clock "in/none.pdf" false
   = (inl (Raise FileNotFoundError "PDF file not found: in/none.pdf"),
      Sample.extractor, []))
  /\ fst (fst (extract_pdf_content Sample.insertion_order Sample.fs
                 Sample.extractor Sample.clock "in/b.pdf" false))
     = inl (Raise Exception "Cannot open PDF file: not a PDF")
  /\ snd (fst (extract_pdf_content Sample.insertion_order Sample.fs
                 Sample.extractor Sample.clock "in/b.pdf" false))
     = Sample.extractor.
Proof.
  destruct (extract_pdf_content_failures Sample.insertion_order Sample.fs
              Sample.extractor Sample.clock "in/none.pdf" false)
    as (H1 & _).
  destruct (extract_pdf_content_failures Sample.insertion_order Sample.fs
              Sample.extractor Sample.clock "in/b.pdf" false)
    as (_ & H2 & H3 & _).
  split; [apply H1; reflexivity|]. split.
  - exact (H2 {| st_size := 10;
                 md5_hexdigest := inr "92eb5ffee6ae2fec3ad71c777531578f";
                 fitz_open := inl (Raise RuntimeError "not a PDF") |}
              "92eb5ffee6ae2fec3ad71c777531578f"
              (Raise RuntimeError "not a PDF") eq_refl eq_refl eq_refl).
  - exact (proj1 (H3 (Raise Exception "Cannot open PDF file: not a PDF")
                     eq_refl)).
Defined.

(** X7: the log of an extraction that returns a record has one error
    record for each page the record lacks, and no other: their number is
    the length of the document less [page_count], and the page whose pass
    raised is named, by its number counted from one, with the message of
    the exception. *)
Theorem extract_pdf_content_error_log (set_iter : PySet.t -> list string)
    (fs : FileSystem) (self self' : Extractor) (clk : ExtractClock)
    (pdf_path : string) (skip_cache : bool) (result : PDFExtractionResult)
    (lg : list LogRecord) :
  extract_pdf_content set_iter fs self clk pdf_path skip_cache
  = (inr result, self', lg) ->
  exists f doc,
    fs pdf_path = Some f /\ fitz_open f = inr doc
    /\ Z.of_nat (List.length (of_level ERROR lg))
       = Z.of_nat (List.length (Fitz.load_page doc)) - page_count result
    /\ forall (i : nat) (p : exn + Fitz.Page) (e : exn),
         nth_error (Fitz.load_page doc) i = Some p ->
         page_error set_iter self (Z.of_nat i) p = Some e ->
         In (ERROR, "Error processing page " ++ PyInt.str (Z.of_nat i + 1)
                    ++ ": " ++ exn_str e) lg.
Proof.
  intros H.
  destruct (extract_pdf_content_returned _ _ _ _ _ _ _ _ _ H)
    as (f & doc & Hfs & Hopen & Hp & Hn & _).
  exists f, doc. split; [exact Hfs|]. split; [exact Hopen|].
  revert H. unfold extract_pdf_content, _calculate_file_hash. rewrite Hfs.
  destruct (md5_hexdigest f) as [e | h]; [discriminate|]. rewrite Hopen.
  pose proof (page_loop_errors set_iter self
                (Z.of_nat (List.length (Fitz.load_page doc)))
                (Fitz.load_page doc) 0 loop_init) as Hloop.
  cbn zeta in Hloop. rewrite <- Hp in Hloop.
  destruct (page_loop set_iter self _ (Fitz.load_page doc) 0 loop_init)
    as [st lg0]. cbn [snd] in Hloop. destruct Hloop as [Hcount Hin].
  unfold of_level in *.
  destruct (Fitz.metadata_raw doc) as [e | raw]; intros H;
    apply (f_equal snd) in H; cbv zeta in H; cbn [snd] in H; subst lg;
    (split;
     [destruct (negb skip_cache && PySet.mem h (processed_files self));
      rewrite !filter_app; cbn [filter has_level fst app];
      rewrite ?length_app; cbn [List.length]; lia
     |intros i p e' Hi He; specialize (Hin i p e' Hi He);
      rewrite Z.add_0_l in Hin;
      apply in_or_app; right; apply in_or_app; right;
      apply in_or_app; right; apply in_or_app; left; exact Hin]).
Qed.

Lemma extract_pdf_content_error_log_witness :
  exists result self' lg,
    extract_pdf_content Sample.insertion_order Sample.fs Sample.extractor
      Sample.clock "in/a.pdf" false = (inr result, self', lg)
    /\ of_level ERROR lg
       = [(ERROR, "Error processing page 4: cannot load page")]
    /\ Z.of_nat (List.length (of_level ERROR lg)) = 5 - page_count result.
Proof.
  eexists; eexists; eexists. split; [vm_compute; reflexivity|].
  split; [vm_compute; reflexivity|].
  destruct (extract_pdf_content_error_log Sample.insertion_order Sample.fs
              Sample.extractor _ Sample.clock "in/a.pdf" false _ _ eq_refl)
    as (f & doc & Hfs & Hopen & Hcount & _).
  vm_compute in Hfs. injection Hfs as <-.
  vm_compute in Hopen. injection Hopen as <-.
  exact Hcount.
Defined.

(** ** The dictionary kept in [basic_extraction] *)

(** X8: the dictionary a returned record keeps in [basic_extraction]
    holds the same counts, fonts, metadata and pages as the record itself,
    so the pages are carried twice; its counts are those of its own
    pages. *)
Theorem extract_pdf_content_basic_extraction
    (set_iter : PySet.t -> list string) (fs : FileSystem)
    (self self' : Extractor) (clk : ExtractClock) (pdf_path : string)
    (skip_cache : bool) (result : PDFExtractionResult)
    (lg : list LogRecord) :
  extract_pdf_content set_iter fs self clk pdf_path skip_cache
  = (inr result, self', lg) ->
  let basic_content := basic_extraction result in
  basic_content
  = {| ed_page_count := page_count result;
       ed_total_words := total_words result;
       ed_total_chars := total_chars result;
       ed_fonts_used := fonts_used result;
       ed_images_count := images_count result;
       ed_metadata := metadata result;
       ed_pages := pages result |}
  /\ ed_page_count basic_content
     = Z.of_nat (List.length (ed_pages basic_content))
  /\ ed_total_words basic_content
     = sum_of word_count (ed_pages basic_content)
  /\ ed_total_chars basic_content
     = sum_of char_count (ed_pages basic_content)
  /\ ed_images_count basic_content
     = sum_of (fun pc => Z.of_nat (List.length (images pc)))
              (ed_pages basic_content).
Proof.
  intros H. cbn zeta.
  destruct (extract_pdf_content_returned _ _ _ _ _ _ _ _ _ H)
    as (f & doc & _ & _ & _ & Hn & Hw & Hc & Hi).
  assert (Hb : basic_extraction result
               = {| ed_page_count := page_count result;
                    ed_total_words := total_words result;
                    ed_total_chars := total_chars result;
                    ed_fonts_used := fonts_used result;
                    ed_images_count := images_count result;
                    ed_metadata := metadata result;
                    ed_pages := pages result |}).
  { revert H. unfold extract_pdf_content, _calculate_file_hash.
    destruct (fs pdf_path) as [f0|]; [|discriminate].
    destruct (md5_hexdigest f0) as [e | h]; [discriminate|].
    destruct (fitz_open f0) as [e | doc0]; [discriminate|].
    destruct (Fitz.metadata_raw doc0) as [e | raw];
      destruct (page_loop set_iter self _ (Fitz.load_page doc0) 0 loop_init)
        as [st lg'];
      intros H; injection H as <- _ _; reflexivity. }
  rewrite Hb. cbn [ed_page_count ed_total_words ed_total_chars
                   ed_images_count ed_pages].
  repeat split; assumption.
Qed.

Lemma extract_pdf_content_basic_extraction_witness :
  exists result self' lg,
    extract_pdf_content Sample.insertion_order Sample.fs Sample.extractor
      Sample.clock "in/a.pdf" false = (inr result, self', lg)
    /\ ed_page_count (basic_extraction result) = 4
    /\ ed_pages (basic_extraction result) = pages result
    /\ ed_total_words (basic_extraction result)
       = sum_of word_count (ed_pages (basic_extraction result)).
Proof.
  eexists; eexists; eexists. split; [vm_compute; reflexivity|].
  split; [reflexivity|]. split; [reflexivity|].
  eapply (extract_pdf_content_basic_extraction Sample.insertion_order
            Sample.fs Sample.extractor _ Sample.clock "in/a.pdf" false).
  vm_compute. reflexivity.
Defined.

(** ** The processed files and the statistics *)

Lemma distinct_add (s : PySet.t) (x : string) :
  PySet.distinct (PySet.add s x)
  = (PySet.distinct s ++ (if PySet.mem x s then [] else [x]))%list.
Proof.
  unfold PySet.add, PySet.mem. induction s as [|a s IH].
  - reflexivity.
  - cbn [app PySet.distinct existsb]. rewrite IH, filter_app.
    f_equal. f_equal. rewrite (String.eqb_sym x a).
    destruct (String.eqb a x) eqn:E; cbn [orb].
    + destruct (existsb (String.eqb x) s); [reflexivity|].
      cbn [filter]. now rewrite E.
    + destruct (existsb (String.eqb x) s); [reflexivity|].
      cbn [filter]. now rewrite E.
Qed.

Lemma set_len_add (s : PySet.t) (x : string) :
  set_len (PySet.add s x) = set_len s + (if PySet.mem x s then 0 else 1).
Proof.
  unfold set_len. rewrite distinct_add, length_app.
  destruct (PySet.mem x s); cbn [List.length]; lia.
Qed.

Lemma mem_add (s : PySet.t) (x y : string) :
  PySet.mem y (PySet.add s x) = PySet.mem y s || String.eqb y x.
Proof.
  unfold PySet.mem, PySet.add. rewrite existsb_app. cbn [existsb].
  now rewrite orb_false_r.
Qed.

(** X9: [files_processed] counts file contents, not calls.  An
    extraction that returns a record adds the hash of the file to the
    processed files, keeping those that were there: the statistics then
    show one file more when the hash is new and the same number when a
    file of the same bytes had been processed.  An extraction that raises
    leaves the statistics as they were, and the other entries never
    change. *)
Theorem get_processing_stats_counts (set_iter : PySet.t -> list string)
    (fs : FileSystem) (numpy_available : bool) (self : Extractor)
    (clk : ExtractClock) (pdf_path : string) (skip_cache : bool) :
  let out := extract_pdf_content set_iter fs self clk pdf_path skip_cache in
  let self' := snd (fst out) in
  (forall e, fst (fst out) = inl e ->
             get_processing_stats numpy_available self'
             = get_processing_stats numpy_available self)
  /\ (forall result,
        fst (fst out) = inr result ->
        PySet.mem (file_hash result) (processed_files self') = true
        /\ (forall h, PySet.mem h (processed_files self) = true ->
                      PySet.mem h (processed_files self') = true)
        /\ get_processing_stats numpy_available self'
           = [("files_processed",
               SInt (set_len (processed_files self)
                     + (if PySet.mem (file_hash result) (processed_files self)
                        then 0 else 1)));
              ("output_directory", SStr (output_dir self));
              ("image_extraction_enabled", SBool (enable_images self));
              ("numpy_available", SBool numpy_available)]).
Proof.
  cbn zeta. split.
  - intros e. unfold extract_pdf_content, _calculate_file_hash.
    destruct (fs pdf_path) as [f|]; [|reflexivity].
    destruct (md5_hexdigest f) as [e1 | h]; [reflexivity|].
    destruct (fitz_open f) as [e2 | doc]; [reflexivity|].
    destruct (Fitz.metadata_raw doc);
      destruct (page_loop set_iter self _ (Fitz.load_page doc) 0 loop_init);
      discriminate.
  - intros result H.
    destruct (extract_pdf_content set_iter fs self clk pdf_path skip_cache)
      as [[r s] l] eqn:E. cbn [fst snd] in *. subst r.
    destruct (extract_pdf_content_inv _ _ _ _ _ _ _ _ _ E)
      as (f & h & doc & Hfs & Hmd5 & Hopen).
    destruct (extract_pdf_content_ok set_iter fs self clk pdf_path
                skip_cache f h doc Hfs Hmd5 Hopen)
      as (r' & s' & l' & E' & _ & _ & _ & _ & _ & Hh & Hs).
    rewrite E in E'. injection E' as <- <- <-.
    pose proof (extract_pdf_content_config set_iter fs self clk pdf_path
                  skip_cache) as [Hd Hi].
    rewrite E in Hd, Hi. cbn [fst snd] in Hd, Hi.
    rewrite Hh. split; [|split].
    + rewrite Hs, mem_add, String.eqb_refl. apply orb_true_r.
    + intros h' Hm. rewrite Hs, mem_add, Hm. reflexivity.
    + unfold get_processing_stats. rewrite Hs, set_len_add, Hd, Hi.
      reflexivity.
Qed.

Lemma get_processing_stats_counts_witness :
  let out := extract_pdf_content Sample.insertion_order Sample.fs
               Sample.seasoned Sample.clock "in/c.pdf" false in
  get_processing_stats false Sample.seasoned
  = [("files_processed", SInt 1); ("output_directory", SStr "out");
     ("image_extraction_enabled", SBool true);
     ("numpy_available", SBool false)]
  /\ exists result,
       fst (fst out) = inr result
       /\ PySet.mem (file_hash result) (processed_files (snd (fst out)))
          = true
       /\ get_processing_stats false (snd (fst out))
          = [("files_processed", SInt 2); ("output_directory", SStr "out");
             ("image_extraction_enabled", SBool true);
             ("numpy_available", SBool false)].
Proof.
  cbn zeta. split; [reflexivity|].
  eexists. split; [vm_compute; reflexivity|].
  destruct (get_processing_stats_counts Sample.insertion_order Sample.fs
              false Sample.seasoned Sample.clock "in/c.pdf" false)
    as [_ H].
  destruct (H _ eq_refl) as (Hm & _ & Hs).
  split; [exact Hm|exact Hs].
Defined.

(** ** Suffixes *)

Lemma substring_all (s : string) : String.substring 0 (String.length s) s = s.
Proof. induction s as [|c s IH]; simpl; [reflexivity|now rewrite IH]. Qed.

Lemma substring_app_r (a s : string) :
  String.substring (String.length a) (String.length s) (a ++ s) = s.
Proof. induction a as [|c a IH]; simpl; [apply substring_all|exact IH]. Qed.

Lemma substring_split (s : string) :
  forall n k, (n + k = String.length s)%nat ->
              s = String.substring 0 n s ++ String.substring n k s.
Proof.
  induction s as [|c s IH]; intros n k H.
  - destruct n, k; try discriminate. reflexivity.
  - destruct n as [|n].
    + cbn [Nat.add] in H. subst k. cbn [String.length].
      change (String.substring 0 0 (String c s)) with "".
      cbn [append]. change (S (String.length s))
        with (String.length (String c s)). now rewrite substring_all.
    + cbn [String.length] in H. cbn [String.substring append].
      f_equal. apply IH. lia.
Qed.

(** [ends_with suffix s] holds exactly when [s] is something followed by
    [suffix]. *)
Lemma ends_with_spec (suffix s : string) :
  PyPath.ends_with suffix s = true <-> exists a, s = a ++ suffix.
Proof.
  unfold PyPath.ends_with. split.
  - intros H. apply andb_true_iff in H. destruct H as [Hle Heq].
    apply Nat.leb_le in Hle. apply String.eqb_eq in Heq.
    exists (String.substring 0 (String.length s - String.length suffix) s).
    pose proof (substring_split s
                  (String.length s - String.length suffix)
                  (String.length suffix) ltac:(lia)) as Hs.
    rewrite Heq in Hs. exact Hs.
  - intros [a ->]. rewrite string_length_app. apply andb_true_iff. split.
    + apply Nat.leb_le. lia.
    + replace (String.length a + String.length suffix
               - String.length suffix)%nat with (String.length a) by lia.
      rewrite substring_app_r. apply String.eqb_refl.
Qed.

Lemma app_last_char (a b : string) (c d : ascii) :
  a ++ String c "" = b ++ String d "" -> c = d.
Proof.
  revert b. induction a as [|x a IH]; intros [|y b] H; simpl in H.
  - now injection H.
  - injection H as _ H. destruct b; discriminate.
  - injection H as _ H. destruct a; discriminate.
  - injection H as _ H. now apply (IH b).
Qed.

Lemma json_not_summary (a b : string) : a ++ ".json" <> b ++ "_summary.txt".
Proof.
  intros H.
  change (a ++ ".json") with (a ++ ".jso" ++ String "n" "") in H.
  change (b ++ "_summary.txt") with (b ++ "_summary.tx" ++ String "t" "") in H.
  rewrite <- !string_app_assoc in H. apply app_last_char in H. discriminate.
Qed.

Lemma join_suffix (d n : string) : exists pre, PyPath.join d n = pre ++ n.
Proof.
  unfold PyPath.join. destruct (String.eqb d "."); [now exists ""|].
  destruct (String.eqb d "/"); [now exists d|].
  exists (d ++ "/"). now rewrite string_app_assoc.
Qed.

Lemma join_ends (d x y z suffix : string) :
  exists a, PyPath.join d (x ++ y ++ z ++ suffix) = a ++ suffix.
Proof.
  destruct (join_suffix d (x ++ y ++ z ++ suffix)) as [pre E].
  exists (pre ++ x ++ y ++ z). rewrite E. now rewrite !string_app_assoc.
Qed.

(** ** The paths of the files written *)

(** What [save_result] returns on each of its three branches. *)
Lemma save_result_cases (self : Extractor) (strftime_now : string)
    (result : PDFExtractionResult) (format_type : string) :
  let stem := PyPath.stem (file_path result) in
  (PyStr.lower format_type = "json"
   /\ exists path,
        path = PyPath.join (output_dir self)
                 (stem ++ "_" ++ strftime_now ++ ".json")
        /\ save_result self strftime_now result format_type
           = (inr path,
              [(path, Json.dumps (json_layout result) (asdict result))],
              [(INFO, " Saved: " ++ path)]))
  \/ (PyStr.lower format_type = "summary"
      /\ exists path,
           path = PyPath.join (output_dir self)
                    (stem ++ "_" ++ strftime_now ++ "_summary.txt")
           /\ save_result self strftime_now result format_type
              = (inr path, [(path, _generate_summary_report result)],
                 [(INFO, " Saved: " ++ path)]))
  \/ (PyStr.lower format_type <> "json"
      /\ PyStr.lower format_type <> "summary"
      /\ save_result self strftime_now result format_type
         = (inl (Raise ValueError ("Unsupported format: " ++ format_type)),
            [], [])).
Proof.
  cbn zeta. unfold save_result.
  destruct (String.eqb_spec (PyStr.lower format_type) "json") as [Hj | Hj].
  - left. split; [exact Hj|]. eexists. split; reflexivity.
  - destruct (String.eqb_spec (PyStr.lower format_type) "summary")
      as [Hs | Hs].
    + right. left. split; [exact Hs|]. eexists. split; reflexivity.
    + right. right. now repeat split.
Qed.

(** X10: the file [save_result] writes is named after the stem of the
    source file and the second of the save: its path ends in [.json]
    exactly for the JSON format and in [_summary.txt] exactly for the
    summary, so a save in one format never lands on the path of a save in
    the other; two saves in the same format, under the same output
    directory, of sources with the same stem within the same second land on
    the same path. *)
Theorem save_result_paths (self1 self2 : Extractor) (now1 now2 : string)
    (result1 result2 : PDFExtractionResult) (format1 format2 : string)
    (path1 path2 : string) (w1 w2 : list (string * string))
    (lg1 lg2 : list LogRecord) :
  save_result self1 now1 result1 format1 = (inr path1, w1, lg1) ->
  save_result self2 now2 result2 format2 = (inr path2, w2, lg2) ->
  (PyPath.ends_with ".json" path1 = true <-> PyStr.lower format1 = "json")
  /\ (PyPath.ends_with "_summary.txt" path1 = true
      <-> PyStr.lower format1 = "summary")
  /\ (PyStr.lower format1 <> PyStr.lower format2 -> path1 <> path2)
  /\ (PyStr.lower format1 = PyStr.lower format2 ->
      output_dir self1 = output_dir self2 ->
      PyPath.stem (file_path result1) = PyPath.stem (file_path result2) ->
      now1 = now2 -> path1 = path2).
Proof.
  intros H1 H2.
  destruct (save_result_cases self1 now1 result1 format1)
    as [(F1 & p1 & P1 & E1) | [(F1 & p1 & P1 & E1) | (_ & _ & E1)]];
    rewrite E1 in H1; [| |discriminate]; injection H1 as <- _ _;
    (destruct (save_result_cases self2 now2 result2 format2)
       as [(F2 & p2 & P2 & E2) | [(F2 & p2 & P2 & E2) | (_ & _ & E2)]];
     rewrite E2 in H2; [| |discriminate]; injection H2 as <- _ _);
    rewrite F1, F2;
    destruct (join_ends (output_dir self1) (PyPath.stem (file_path result1))
                "_" now1 ".json") as [a1 A1];
    destruct (join_ends (output_dir self1) (PyPath.stem (file_path result1))
                "_" now1 "_summary.txt") as [b1 B1];
    destruct (join_ends (output_dir self2) (PyPath.stem (file_path result2))
                "_" now2 ".json") as [a2 A2];
    destruct (join_ends (output_dir self2) (PyPath.stem (file_path result2))
                "_" now2 "_summary.txt") as [b2 B2].
  - (* json, json *)
    split; [|split; [|split]].
    + split; [reflexivity|]. intros _. apply ends_with_spec.
      rewrite P1, A1. eexists. reflexivity.
    + split; [|discriminate]. intros H. apply ends_with_spec in H.
      destruct H as [c H]. rewrite P1, A1 in H.
      now apply json_not_summary in H.
    + intros H. now elim H.
    + intros _ Hd Hs Hn. rewrite P1, P2, Hd, Hs, Hn. reflexivity.
  - (* json, summary *)
    split; [|split; [|split]].
    + split; [reflexivity|]. intros _. apply ends_with_spec.
      rewrite P1, A1. eexists. reflexivity.
    + split; [|discriminate]. intros H. apply ends_with_spec in H.
      destruct H as [c H]. rewrite P1, A1 in H.
      now apply json_not_summary in H.
    + intros _ H. rewrite P1, P2, A1, B2 in H.
      now apply json_not_summary in H.
    + discriminate.
  - (* summary, json *)
    split; [|split; [|split]].
    + split; [|discriminate]. intros H. apply ends_with_spec in H.
      destruct H as [c H]. rewrite P1, B1 in H. symmetry in H.
      now apply json_not_summary in H.
    + split; [reflexivity|]. intros _. apply ends_with_spec.
      rewrite P1, B1. eexists. reflexivity.
    + intros _ H. rewrite P1, P2, B1, A2 in H. symmetry in H.
      now apply json_not_summary in H.
    + discriminate.
  - (* summary, summary *)
    split; [|split; [|split]].
    + split; [|discriminate]. intros H. apply ends_with_spec in H.
      destruct H as [c H]. rewrite P1, B1 in H. symmetry in H.
      now apply json_not_summary in H.
    + split; [reflexivity|]. intros _. apply ends_with_spec.
      rewrite P1, B1. eexists. reflexivity.
    + intros H. now elim H.
    + intros _ Hd Hs Hn. rewrite P1, P2, Hd, Hs, Hn. reflexivity.
Qed.

Lemma save_result_paths_witness :
  let result := Sample.record 1048576 2 Sample.half_second in
  exists path1 path2 w1 w2 lg1 lg2,
    save_result Sample.extractor "20240501_100003" result "JSON"
    = (inr path1, w1, lg1)
    /\ save_result Sample.extractor "20240501_100003" result "summary"
       = (inr path2, w2, lg2)
    /\ path1 = "out/a_20240501_100003.json"
    /\ path2 = "out/a_20240501_100003_summary.txt"
    /\ path1 <> path2.
Proof.
  cbn zeta. do 6 eexists.
  split; [vm_compute; reflexivity|]. split; [vm_compute; reflexivity|].
  split; [reflexivity|]. split; [reflexivity|].
  refine (proj1 (proj2 (proj2
            (save_result_paths Sample.extractor Sample.extractor
               "20240501_100003" "20240501_100003"
               (Sample.record 1048576 2 Sample.half_second)
               (Sample.record 1048576 2 Sample.half_second)
               "JSON" "summary" _ _ _ _ _ _ eq_refl eq_refl))) _).
  vm_compute. discriminate.
Defined.

(** ** One task of the batch, further *)

Section TaskFacts.

Variable set_iter : PySet.t -> list string.
Variable fs : FileSystem.
Variable clock_of : string -> TaskClock.

(** What a task leaves: nothing when it failed, its one file when it
    succeeded. *)
Lemma _process_single_file_written (self : Extractor)
    (pdf_path save_format : string) :
  let o := _process_single_file set_iter fs clock_of self pdf_path
             save_format in
  map fst (written o)
  = match returned o with Some path => [path] | None => [] end.
Proof.
  cbn zeta. unfold _process_single_file.
  destruct (extract_pdf_content set_iter fs self
              (tc_extract (clock_of pdf_path)) pdf_path false)
    as [[[e | result] self'] lg]; [reflexivity|].
  destruct (save_result_cases self' (tc_strftime (clock_of pdf_path))
              result save_format)
    as [(_ & p & _ & E) | [(_ & p & _ & E) | (_ & _ & E)]];
    rewrite E; reflexivity.
Qed.


(** The files the tasks write are the paths they yield. *)
Lemma run_tasks_written (save_format : string) (files : list string) :
  forall self,
    let os := run_tasks set_iter fs clock_of self save_format files in
    map fst (written os) = successes (map snd (returned os)).
Proof.
  induction files as [|f rest IH]; intros self; [reflexivity|].
  cbn zeta. cbn [run_tasks written returned map snd].
  rewrite map_app, _process_single_file_written, IH.
  destruct (returned (_process_single_file set_iter fs clock_of self f
                        save_format)); reflexivity.
Qed.

(** The paths the tasks yield are non-empty. *)
Lemma run_tasks_truthy (save_format : string) (files : list string) :
  forall self,
    Forall (fun fut => forall path, snd fut = Some path ->
                                    PyStr.truthy path = true)
           (returned (run_tasks set_iter fs clock_of self save_format files)).
Proof.
  induction files as [|f rest IH]; intros self; [constructor|].
  cbn [run_tasks returned]. constructor; [|apply IH].
  cbn [snd]. intros path H.
  now apply (_process_single_file_truthy set_iter fs clock_of self f
               save_format).
Qed.

End TaskFacts.


Lemma future_counted_once (fut : string * option string) :
  (List.length (success_of fut) + List.length (failure_of fut) = 1)%nat.
Proof.
  unfold failure_of, success_of. destruct (snd fut) as [path|];
    [destruct (PyStr.truthy path)|]; reflexivity.
Qed.

(** Every future lands in one of the two lists of the collecting loop. *)
Lemma futures_counted_once (futures : list (string * option string)) :
  (List.length (flat_map success_of futures)
   + List.length (flat_map failure_of futures)
   = List.length futures)%nat.
Proof.
  induction futures as [|fut futures IH]; [reflexivity|].
  cbn [flat_map List.length]. rewrite !length_app.
  pose proof (future_counted_once fut). lia.
Qed.

Lemma collect_outputs (futures : list (string * option string)) :
  Forall (fun fut => forall path, snd fut = Some path ->
                                  PyStr.truthy path = true) futures ->
  flat_map success_of futures = successes (map snd futures).
Proof.
  induction 1 as [|[f [path|]] futures Hf _ IH]; [reflexivity| |].
  - cbn [flat_map map snd successes]. unfold success_of at 1.
    cbn [snd]. rewrite (Hf path eq_refl). cbn [app]. now rewrite IH.
  - cbn [flat_map map snd successes]. unfold success_of at 1.
    cbn [snd app]. exact IH.
Qed.

(** ** The batch, further *)

Section BatchMore.

Variable set_iter : PySet.t -> list string.
Variable fs : FileSystem.
Variable listdir : string -> option (list string).
Variable completion : list string -> list string.
Variable clock_of : string -> TaskClock.


(** A task given a format [save_result] does not know yields nothing and
    writes nothing. *)
Lemma _process_single_file_unsupported (self : Extractor)
    (pdf_path save_format : string) :
  PyStr.lower save_format <> "json" ->
  PyStr.lower save_format <> "summary" ->
  let o := _process_single_file set_iter fs clock_of self pdf_path
             save_format in
  returned o = None /\ written o = [].
Proof.
  intros Hj Hs. cbn zeta. unfold _process_single_file.
  destruct (extract_pdf_content set_iter fs self
              (tc_extract (clock_of pdf_path)) pdf_path false)
    as [[[e | result] self'] lg]; [now split|].
  destruct (save_result_cases self' (tc_strftime (clock_of pdf_path))
              result save_format)
    as [(F & _) | [(F & _) | (_ & _ & E)]]; try contradiction.
  rewrite E. now split.
Qed.

Lemma run_tasks_unsupported (save_format : string) (files : list string) :
  PyStr.lower save_format <> "json" ->
  PyStr.lower save_format <> "summary" ->
  forall self,
    let os := run_tasks set_iter fs clock_of self save_format files in
    returned os = map (fun f => (f, None)) files /\ written os = [].
Proof.
  intros Hj Hs. induction files as [|f rest IH]; intros self; [now split|].
  cbn zeta. cbn [run_tasks returned written map].
  destruct (_process_single_file_unsupported self f save_format Hj Hs)
    as [Hr Hw].
  destruct (IH (extractor (_process_single_file set_iter fs clock_of self f
                             save_format))) as [IHr IHw].
  rewrite Hr, Hw, IHr, IHw. now split.
Qed.

(** What the collecting loop gathers from the tasks of a batch. *)
Lemma batch_run_outputs (self : Extractor) (save_format : string)
    (pdf_files : list string) :
  let o := batch_run set_iter fs completion clock_of self save_format
             pdf_files in
  output_files (returned o) = map fst (written o)
  /\ (List.length (output_files (returned o))
      + List.length (failed_files (returned o))
      = List.length (completion pdf_files))%nat.
Proof.
  cbn zeta. unfold batch_run. cbn [returned written].
  set (os := run_tasks set_iter fs clock_of self save_format
               (completion pdf_files)).
  destruct (collect_spec (returned os)
              {| output_files := []; failed_files := [];
                 collect_log := [] |}) as [Ho Hf].
  rewrite Ho, Hf. cbn [output_files failed_files app]. split.
  - unfold os. rewrite run_tasks_written.
    apply collect_outputs, run_tasks_truthy.
  - rewrite futures_counted_once. unfold os.
    rewrite (run_tasks_returned set_iter fs clock_of save_format
               (completion pdf_files) self self (conj eq_refl eq_refl)).
    apply length_map.
Qed.

(** X12: the batch on a directory that does not exist raises
    [FileNotFoundError] with nothing logged; on a directory without a file
    named [*.pdf] it logs a warning and returns the empty list, whatever
    the number of workers and the format asked for; with such files and a
    number of workers that is not positive the pool refuses to start and
    [ValueError] is raised.  In all three cases nothing is written and the
    extractor is left as it was. *)
Theorem batch_process_edges (self : Extractor) (total_time : string)
    (pdf_directory : string) (max_workers : Z) (save_format : string) :
  let o := batch_process set_iter fs listdir completion clock_of self
             total_time pdf_directory max_workers save_format in
  (listdir pdf_directory = None ->
   o = {| returned := inl (Raise FileNotFoundError
                             ("Directory not found: " ++ pdf_directory));
          extractor := self; written := []; logged := [] |})
  /\ (forall names,
        listdir pdf_directory = Some names ->
        (forall n, In n names -> PyPath.ends_with ".pdf" n = false) ->
        o = {| returned := inr []; extractor := self; written := [];
               logged := [(WARNING, "No PDF files found in: "
                                    ++ pdf_directory)] |})
  /\ (forall names n,
        listdir pdf_directory = Some names ->
        In n names -> PyPath.ends_with ".pdf" n = true ->
        max_workers <= 0 ->
        returned o
        = inl (Raise ValueError "max_workers must be greater than 0")
        /\ extractor o = self /\ written o = []).
Proof.
  cbn zeta. unfold batch_process. split; [|split].
  - intros ->. reflexivity.
  - intros names -> Hnone. unfold glob_pdf.
    assert (Hf : filter (PyPath.ends_with ".pdf") names = []).
    { induction names as [|n names IH]; [reflexivity|]. cbn [filter].
      rewrite (Hnone n) by now left. apply IH.
      intros m Hm. apply Hnone. now right. }
    rewrite Hf. reflexivity.
  - intros names n -> Hin Hpdf Hw. unfold glob_pdf.
    assert (Hf : filter (PyPath.ends_with ".pdf") names <> []).
    { intros Hf. assert (Hn : In n (filter (PyPath.ends_with ".pdf") names))
        by (apply filter_In; now split).
      rewrite Hf in Hn. exact Hn. }
    destruct (filter (PyPath.ends_with ".pdf") names) as [|x l];
      [now elim Hf|].
    cbn [map]. apply Z.leb_le in Hw. rewrite Hw. now repeat split.
Qed.

(** X13: the files a batch has written are the paths it returns, each as
    often as it is returned; a batch that raises has written nothing. *)
Theorem batch_process_written (self : Extractor) (total_time : string)
    (pdf_directory : string) (max_workers : Z) (save_format : string) :
  let o := batch_process set_iter fs listdir completion clock_of self
             total_time pdf_directory max_workers save_format in
  (forall e, returned o = inl e -> written o = [] /\ extractor o = self)
  /\ (forall paths, returned o = inr paths ->
                    Permutation (map fst (written o)) paths).
Proof.
  cbn zeta. unfold batch_process.
  destruct (listdir pdf_directory) as [names|];
    [|split; [now split|discriminate]].
  destruct (glob_pdf pdf_directory names) as [|x l] eqn:G.
  - split; [discriminate|]. intros paths H. injection H as <-. constructor.
  - destruct (max_workers <=? 0).
    + split; [now split|discriminate].
    + cbn [returned written]. split; [discriminate|].
      intros paths H. injection H as <-.
      destruct (batch_run_outputs self save_format (x :: l)) as [Ho _].
      rewrite <- Ho. apply Permutation_refl.
Qed.


(** X15: a format [save_result] does not know is not refused up front:
    the batch runs every task, each fails when it comes to saving, and the
    batch returns the empty list with nothing written and every file that
    completed among the failed. *)
Theorem batch_process_unsupported_format (self : Extractor)
    (total_time : string) (pdf_directory : string) (max_workers : Z)
    (save_format : string) (names : list string) :
  listdir pdf_directory = Some names ->
  glob_pdf pdf_directory names <> [] ->
  0 < max_workers ->
  PyStr.lower save_format <> "json" ->
  PyStr.lower save_format <> "summary" ->
  let pdf_files := glob_pdf pdf_directory names in
  let o := batch_process set_iter fs listdir completion clock_of self
             total_time pdf_directory max_workers save_format in
  returned o = inr []
  /\ written o = []
  /\ failed_files (returned (batch_run set_iter fs completion clock_of self
                               save_format pdf_files))
     = completion pdf_files
  /\ In (INFO, "    Failed: "
               ++ PyInt.str (Z.of_nat (List.length (completion pdf_files))))
        (logged o).
Proof.
  intros Hl Hg Hw Hj Hs. cbn zeta. unfold batch_process. rewrite Hl.
  assert (Hrun : forall files,
            let o := batch_run set_iter fs completion clock_of self
                       save_format files in
            output_files (returned o) = []
            /\ failed_files (returned o) = completion files
            /\ written o = []).
  { intros files. cbn zeta. unfold batch_run. cbn [returned written].
    destruct (run_tasks_unsupported save_format (completion files) Hj Hs self)
      as [Hr Hwr].
    rewrite Hr, Hwr.
    destruct (collect_spec (map (fun f => (f, @None string))
                              (completion files))
                {| output_files := []; failed_files := [];
                   collect_log := [] |}) as [Ho Hf].
    rewrite Ho, Hf. cbn [output_files failed_files app].
    assert (H : forall l : list string,
               flat_map success_of (map (fun f => (f, @None string)) l) = []
               /\ flat_map failure_of (map (fun f => (f, @None string)) l)
                  = l).
    { induction l as [|f l [IH1 IH2]]; [now split|].
      cbn [map flat_map]. rewrite IH1, IH2. now split. }
    destruct (H (completion files)) as [H1 H2]. now rewrite H1, H2. }
  destruct (Hrun (glob_pdf pdf_directory names)) as (Ho & Hf & Hwr).
  destruct (glob_pdf pdf_directory names) as [|x l]; [now elim Hg|].
  assert (Hw' : (max_workers <=? 0) = false) by (apply Z.leb_gt; lia).
  rewrite Hw'. cbn [returned written logged]. rewrite Ho, Hf, Hwr.
  split; [reflexivity|]. split; [reflexivity|]. split; [reflexivity|].
  cbv zeta. do 3 (apply in_or_app; right). apply in_or_app. left.
  right. right. now left.
Qed.

End BatchMore.

Lemma batch_process_edges_witness :
  (batch_process Sample.insertion_order Sample.fs Sample.listdir
     Sample.reversed Sample.task_clock Sample.extractor "0.0" "elsewhere"
     4 "json"
   = {| returned := inl (Raise FileNotFoundError
                           "Directory not found: elsewhere");
        extractor := Sample.extractor; written := []; logged := [] |})
  /\ returned (batch_process Sample.insertion_order Sample.fs Sample.listdir
                 Sample.reversed Sample.task_clock Sample.extractor "0.0"
                 "in" 0 "json")
     = inl (Raise ValueError "max_workers must be greater than 0").
Proof.
  split.
  - apply (batch_process_edges Sample.insertion_order Sample.fs
             Sample.listdir Sample.reversed Sample.task_clock
             Sample.extractor "0.0" "elsewhere" 4 "json").
    reflexivity.
  - refine (proj1 (proj2 (proj2
              (batch_process_edges Sample.insertion_order Sample.fs
                 Sample.listdir Sample.reversed Sample.task_clock
                 Sample.extractor "0.0" "in" 0 "json"))
              ["a.pdf"; "b.pdf"; "notes.txt"; "c.pdf"] "a.pdf"
              eq_refl _ eq_refl _)); [now left|lia].
Defined.

Lemma batch_process_written_witness :
  let o := batch_process Sample.insertion_order Sample.fs Sample.listdir
             Sample.reversed Sample.task_clock Sample.extractor "7.5"
             "in" 4 "json" in
  returned o
  = inr ["out/c_20240501_100003.json"; "out/a_20240501_100003.json"]
  /\ Permutation (map fst (written o))
       ["out/c_20240501_100003.json"; "out/a_20240501_100003.json"].
Proof.
  cbn zeta. split; [vm_compute; reflexivity|].
  apply (batch_process_written Sample.insertion_order Sample.fs
           Sample.listdir Sample.reversed Sample.task_clock Sample.extractor
           "7.5" "in" 4 "json").
  vm_compute. reflexivity.
Defined.


Lemma batch_process_unsupported_format_witness :
  let o := batch_process Sample.insertion_order Sample.fs Sample.listdir
             Sample.reversed Sample.task_clock Sample.extractor "7.5"
             "in" 4 "yaml" in
  returned o = inr [] /\ written o = []
  /\ In (INFO, "    Failed: 3") (logged o).
Proof.
  cbn zeta.
  destruct (batch_process_unsupported_format Sample.insertion_order
              Sample.fs Sample.listdir Sample.reversed Sample.task_clock
              Sample.extractor "7.5" "in" 4 "yaml"
              ["a.pdf"; "b.pdf"; "notes.txt"; "c.pdf"] eq_refl
              ltac:(vm_compute; discriminate) ltac:(lia)
              ltac:(vm_compute; discriminate) ltac:(vm_compute; discriminate))
    as (Hr & Hw & _ & Hf).
  split; [exact Hr|]. split; [exact Hw|exact Hf].
Defined.

(** ** The scripts that drive the extractor *)





Section DemoFacts.

Variable set_iter : PySet.t -> list string.
Variable fs : FileSystem.
Variable listdir : string -> option (list string).
Variable clock_of : string -> DemoClock.
Variable numpy_available : bool.




End DemoFacts.


(** ** The pipeline test *)




(** ** Characters that do not occur *)

Lemma lacks_app (c : ascii) (a b : string) :
  lacks c (a ++ b) = lacks c a && lacks c b.
Proof.
  induction a as [|d a IH]; [reflexivity|].
  cbn [append lacks]. rewrite IH. apply andb_assoc.
Qed.

Lemma lacks_substring (c : ascii) (s : string) :
  lacks c s = true -> forall n m, lacks c (String.substring n m s) = true.
Proof.
  induction s as [|d s IH]; intros H n m.
  - destruct n, m; reflexivity.
  - cbn [lacks] in H. apply andb_true_iff in H. destruct H as [Hd Hs].
    destruct n as [|n]; [destruct m as [|m]|]; cbn [String.substring lacks];
      [reflexivity| |now apply IH].
    rewrite Hd. now apply IH.
Qed.

Lemma lacks_repeat_char (c d : ascii) (n : nat) :
  Ascii.eqb d c = false -> lacks c (PyStr.repeat_char d n) = true.
Proof.
  intros H. induction n as [|n IH]; [reflexivity|].
  cbn [PyStr.repeat_char lacks]. now rewrite H, IH.
Qed.

Lemma lacks_concat (c : ascii) (l : list string) :
  Forall (fun s => lacks c s = true) l ->
  lacks c (String.concat "" l) = true.
Proof.
  induction 1 as [|s l Hs _ IH]; [reflexivity|].
  rewrite concat_empty_cons, lacks_app, Hs, IH. reflexivity.
Qed.

(** The decimal digits are neither line breaks nor slashes. *)
Lemma digit_char_plain (c : ascii) (n : Z) :
  (N_of_ascii c <? 48)%N = true ->
  Ascii.eqb (PyInt.digit_char (n mod 10)) c = false.
Proof.
  intros Hc. pose proof (Z.mod_pos_bound n 10 ltac:(lia)) as Hb.
  apply Ascii.eqb_neq. intros <-. unfold PyInt.digit_char in Hc.
  rewrite N_ascii_embedding in Hc by lia.
  apply N.ltb_lt in Hc. lia.
Qed.

Lemma lacks_digits_fuel (c : ascii) (fuel : nat) :
  (N_of_ascii c <? 48)%N = true ->
  forall n acc,
    lacks c acc = true -> lacks c (PyInt.digits_fuel fuel n acc) = true.
Proof.
  intros Hc. induction fuel as [|fuel IH]; intros n acc Ha; [exact Ha|].
  cbn [PyInt.digits_fuel].
  assert (H : lacks c (String (PyInt.digit_char (n mod 10)) acc) = true)
    by (cbn [lacks]; now rewrite (digit_char_plain c n Hc), Ha).
  destruct (n <? 10); [exact H|now apply IH].
Qed.

Lemma lacks_digits (c : ascii) (n : Z) :
  (N_of_ascii c <? 48)%N = true -> lacks c (PyInt.digits n) = true.
Proof. intros Hc. now apply lacks_digits_fuel. Qed.

Lemma lacks_str (c : ascii) (n : Z) :
  (N_of_ascii c <? 45)%N = true -> lacks c (PyInt.str n) = true.
Proof.
  intros Hc.
  assert (Hc' : (N_of_ascii c <? 48)%N = true)
    by (apply N.ltb_lt in Hc; apply N.ltb_lt; lia).
  unfold PyInt.str. destruct (n <? 0); [|now apply lacks_digits].
  cbn [lacks]. rewrite (lacks_digits c _ Hc').
  replace (Ascii.eqb "-" c) with false; [reflexivity|].
  symmetry. apply Ascii.eqb_neq. intros <-. discriminate.
Qed.

(** ** The text of the compact layout *)

Lemma lacks_digits_padded (c : ascii) (w : nat) (n : Z) :
  (N_of_ascii c <? 48)%N = true ->
  lacks c (PyInt.digits_padded w n) = true.
Proof.
  intros Hc. unfold PyInt.digits_padded.
  rewrite lacks_app, (lacks_digits c n Hc), andb_true_r.
  apply lacks_repeat_char. apply Ascii.eqb_neq. intros <-. discriminate.
Qed.

Lemma lacks_repr_layout (c : ascii) (ds : string) (decpt : Z) :
  (N_of_ascii c <? 43)%N = true ->
  lacks c ds = true -> lacks c (PyFloat.repr_layout ds decpt) = true.
Proof.
  intros Hc Hds.
  assert (Hc' : (N_of_ascii c <? 48)%N = true)
    by (apply N.ltb_lt in Hc; apply N.ltb_lt; lia).
  assert (Hne : forall d, (43 <=? N_of_ascii d)%N = true ->
                          Ascii.eqb d c = false).
  { intros d Hd. apply Ascii.eqb_neq. intros ->.
    apply N.ltb_lt in Hc. apply N.leb_le in Hd. lia. }
  unfold PyFloat.repr_layout.
  destruct ((decpt <=? -4) || (16 <? decpt)).
  - rewrite !lacks_app, lacks_digits_padded by exact Hc'.
    rewrite andb_true_r.
    assert (Hm : lacks c match ds with
                         | String c0 EmptyString => ds
                         | String c0 (String _ _ as rest) =>
                             String c0 ("." ++ rest)
                         | EmptyString => ds
                         end = true).
    { destruct ds as [|c0 [|c1 r]]; try exact Hds.
      cbn [lacks append] in *. rewrite (Hne "."%char eq_refl).
      apply andb_true_iff in Hds. destruct Hds as [H0 H1].
      now rewrite H0, H1. }
    rewrite Hm. cbn [lacks andb]. rewrite (Hne "e"%char eq_refl).
    destruct (decpt - 1 <? 0); cbn [lacks];
      [rewrite (Hne "-"%char eq_refl)|rewrite (Hne "+"%char eq_refl)];
      reflexivity.
  - destruct (decpt <=? 0).
    + rewrite !lacks_app, Hds, lacks_repeat_char by now apply Hne.
      cbn [lacks]. rewrite (Hne "0"%char eq_refl), (Hne "."%char eq_refl).
      reflexivity.
    + destruct (Z.of_nat (String.length ds) <=? decpt).
      * rewrite !lacks_app, Hds, lacks_repeat_char by now apply Hne.
        cbn [lacks]. rewrite (Hne "0"%char eq_refl), (Hne "."%char eq_refl).
        reflexivity.
      * rewrite !lacks_app, !lacks_substring by exact Hds.
        cbn [lacks]. rewrite (Hne "."%char eq_refl). reflexivity.
Qed.

Lemma lacks_repr (c : ascii) (x : PyFloat.float) :
  (N_of_ascii c <? 43)%N = true -> lacks c (PyFloat.repr x) = true.
Proof.
  intros Hc.
  assert (Hne : forall d, (43 <=? N_of_ascii d)%N = true ->
                          Ascii.eqb d c = false).
  { intros d Hd. apply Ascii.eqb_neq. intros ->.
    apply N.ltb_lt in Hc. apply N.leb_le in Hd. lia. }
  assert (Hc' : (N_of_ascii c <? 48)%N = true)
    by (apply N.ltb_lt in Hc; apply N.ltb_lt; lia).
  destruct x as [s | s | | s m e]; unfold PyFloat.repr.
  - destruct s; cbn [lacks];
      rewrite ?(Hne "-"%char eq_refl), (Hne "0"%char eq_refl),
        (Hne "."%char eq_refl); reflexivity.
  - destruct s; cbn [lacks];
      rewrite ?(Hne "-"%char eq_refl), (Hne "i"%char eq_refl),
        (Hne "n"%char eq_refl), (Hne "f"%char eq_refl); reflexivity.
  - cbn [lacks]. rewrite (Hne "n"%char eq_refl), (Hne "a"%char eq_refl).
    reflexivity.
  - destruct (PyFloat.shortest m e) as [d p].
    rewrite lacks_app, lacks_repr_layout
      by (try exact Hc; now apply lacks_digits).
    destruct s; cbn [lacks]; rewrite ?(Hne "-"%char eq_refl); reflexivity.
Qed.

Lemma lacks_encode_float (x : PyFloat.float) :
  lacks Json.newline (Json.encode_float x) = true.
Proof.
  destruct x as [s | [|] | | s m e]; try reflexivity;
    apply lacks_repr; reflexivity.
Qed.

Lemma lacks_escape (s : string) : lacks Json.newline (Json.escape s) = true.
Proof.
  induction s as [|c s IH]; [reflexivity|].
  cbn [Json.escape]. rewrite lacks_app, IH, andb_true_r.
  destruct c as [[] [] [] [] [] [] [] []]; reflexivity.
Qed.

Lemma lacks_encode_str (s : string) :
  lacks Json.newline (Json.encode_str s) = true.
Proof.
  unfold Json.encode_str. cbn [lacks]. rewrite lacks_app, lacks_escape.
  reflexivity.
Qed.

(** Without indentation the encoder writes no line break: those of the
    strings are escaped. *)
Lemma lacks_encode_compact (v : Json.value) :
  forall level,
    lacks Json.newline (Json.encode Json.compact level v) = true.
Proof.
  induction v as [|b|n|x|s|items IH|fields IH] using value_ind';
    intros level.
  - reflexivity.
  - destruct b; reflexivity.
  - apply lacks_str. reflexivity.
  - apply lacks_encode_float.
  - apply lacks_encode_str.
  - destruct items as [|x xs]; [reflexivity|].
    rewrite encode_list. inversion IH as [|x0 l0 Hx Hxs]; subst.
    change (Json.newline_indent Json.compact (S level)) with "".
    change (Json.newline_indent Json.compact level) with "".
    cbn [append lacks]. rewrite !lacks_app, Hx. cbn [lacks andb].
    rewrite andb_true_r. clear Hx IH.
    induction Hxs as [|y r Hy _ IHr]; [reflexivity|].
    cbn [more_items]. change (Json.item_separator Json.compact) with ",".
    change (Json.newline_indent Json.compact (S level)) with "".
    cbn [append lacks]. rewrite lacks_app, Hy. exact IHr.
  - destruct fields as [|[k x] xs]; [reflexivity|].
    rewrite encode_dict. inversion IH as [|x0 l0 Hx Hxs]; subst.
    cbn [snd] in Hx.
    change (Json.newline_indent Json.compact (S level)) with "".
    change (Json.newline_indent Json.compact level) with "".
    change (Json.key_separator Json.compact) with ":".
    cbn [append lacks]. rewrite !lacks_app, lacks_encode_str.
    cbn [lacks]. rewrite !lacks_app, Hx.
    cbn [lacks andb]. rewrite andb_true_r. clear Hx IH.
    induction Hxs as [|[k' y] r Hy _ IHr]; [reflexivity|].
    cbn [more_members]. change (Json.item_separator Json.compact) with ",".
    change (Json.newline_indent Json.compact (S level)) with "".
    change (Json.key_separator Json.compact) with ":".
    cbn [append lacks]. cbn [snd] in Hy.
    rewrite !lacks_app, lacks_encode_str. cbn [lacks].
    rewrite !lacks_app, Hy. cbn [lacks andb]. exact IHr.
Qed.

(** X18: the JSON file of a record whose file is over 50 MB is a single
    line: the text [save_result] writes has no line break, those of the
    page texts being escaped; for any other record the text is broken into
    lines. *)
Theorem save_result_json_lines (self : Extractor) (strftime_now : string)
    (result : PDFExtractionResult) :
  exists path text lg,
    save_result self strftime_now result "json"
    = (inr path, [(path, text)], lg)
    /\ (PyFloat.gtb (file_size_mb result) (PyFloat.of_int 50) = true ->
        lacks Json.newline text = true)
    /\ (PyFloat.gtb (file_size_mb result) (PyFloat.of_int 50) = false ->
        lacks Json.newline text = false).
Proof.
  do 3 eexists. split; [reflexivity|]. unfold json_layout. split.
  - intros ->. apply lacks_encode_compact.
  - intros ->. reflexivity.
Qed.

Lemma save_result_json_lines_witness :
  (exists path text lg,
     save_result Sample.extractor "20240501_100003"
       (Sample.record (60 * 1024 * 1024) 2 Sample.half_second) "json"
     = (inr path, [(path, text)], lg)
     /\ lacks Json.newline text = true)
  /\ (exists path text lg,
        save_result Sample.extractor "20240501_100003"
          (Sample.record (10 * 1024 * 1024) 2 Sample.half_second) "json"
        = (inr path, [(path, text)], lg)
        /\ lacks Json.newline text = false).
Proof.
  destruct (save_result_json_lines Sample.extractor "20240501_100003"
              (Sample.record (60 * 1024 * 1024) 2 Sample.half_second))
    as (p1 & t1 & l1 & E1 & H1 & _).
  destruct (save_result_json_lines Sample.extractor "20240501_100003"
              (Sample.record (10 * 1024 * 1024) 2 Sample.half_second))
    as (p2 & t2 & l2 & E2 & _ & H2).
  split.
  - exists p1, t1, l1. split; [exact E1|]. apply H1. vm_compute. reflexivity.
  - exists p2, t2, l2. split; [exact E2|]. apply H2. vm_compute. reflexivity.
Defined.

(** ** Where the files go *)

Lemma lacks_split_slash (s : string) :
  forall cur,
    lacks "/" cur = true ->
    Forall (fun piece => lacks "/" piece = true) (PyPath.split_slash cur s).
Proof.
  induction s as [|c s IH]; intros cur Hc; cbn [PyPath.split_slash].
  - now constructor.
  - destruct (Ascii.eqb c "/") eqn:E.
    + constructor; [exact Hc|]. now apply IH.
    + apply IH. rewrite lacks_app, Hc. cbn [lacks]. now rewrite E.
Qed.

Lemma lacks_name (p : string) : lacks "/" (PyPath.name p) = true.
Proof.
  unfold PyPath.name, PyPath.parts.
  assert (H : Forall (fun piece => lacks "/" piece = true)
                (filter (fun c => negb (String.eqb c "" || String.eqb c "."))
                        (PyPath.split_slash "" p))).
  { apply Forall_forall. intros x Hx. apply filter_In in Hx.
    destruct Hx as [Hx _]. revert x Hx. apply Forall_forall.
    now apply lacks_split_slash. }
  induction H as [|x l Hx Hl IH]; [reflexivity|].
  destruct l as [|y l]; [exact Hx|exact IH].
Qed.

(** The stem of a path has no slash. *)
Lemma lacks_stem (p : string) : lacks "/" (PyPath.stem p) = true.
Proof.
  unfold PyPath.stem. pose proof (lacks_name p) as H.
  destruct (PyPath.rfind_dot 0 (PyPath.name p)) as [i|]; [|exact H].
  destruct ((0 <? i)%nat && (i <? String.length (PyPath.name p) - 1)%nat);
    [now apply lacks_substring|exact H].
Qed.

(** X19: the one file [save_result] writes is a direct child of the
    output directory: its name has no slash, whatever directories the path
    of the source names, as long as the stamp of the clock has none. *)
Theorem save_result_in_output_dir (self : Extractor) (strftime_now : string)
    (result : PDFExtractionResult) (format_type path : string)
    (w : list (string * string)) (lg : list LogRecord) :
  save_result self strftime_now result format_type = (inr path, w, lg) ->
  lacks "/" strftime_now = true ->
  exists file_name content,
    path = PyPath.join (output_dir self) file_name
    /\ lacks "/" file_name = true
    /\ file_name <> ""
    /\ w = [(path, content)].
Proof.
  intros H Hn.
  assert (Hname : forall suffix,
             lacks "/" suffix = true -> suffix <> "" ->
             lacks "/" (PyPath.stem (file_path result) ++ "_"
                        ++ strftime_now ++ suffix) = true
             /\ PyPath.stem (file_path result) ++ "_" ++ strftime_now
                ++ suffix <> "").
  { intros suffix Hs Hne. split.
    - now rewrite !lacks_app, lacks_stem, Hn, Hs.
    - destruct (PyPath.stem (file_path result)); discriminate. }
  destruct (save_result_cases self strftime_now result format_type)
    as [(_ & p & P & E) | [(_ & p & P & E) | (_ & _ & E)]];
    rewrite E in H; [| |discriminate]; injection H as <- <- _; subst p.
  - destruct (Hname ".json" eq_refl ltac:(discriminate)) as [H1 H2].
    eexists; eexists. split; [reflexivity|]. now repeat split.
  - destruct (Hname "_summary.txt" eq_refl ltac:(discriminate)) as [H1 H2].
    eexists; eexists. split; [reflexivity|]. now repeat split.
Qed.

Lemma save_result_in_output_dir_witness :
  let result := Sample.record 1048576 2 Sample.half_second in
  exists file_name content,
    "out/a_20240501_100003_summary.txt" = PyPath.join "out" file_name
    /\ lacks "/" file_name = true
    /\ file_name <> ""
    /\ [("out/a_20240501_100003_summary.txt",
         _generate_summary_report result)]
       = [("out/a_20240501_100003_summary.txt", content)].
Proof.
  exact (save_result_in_output_dir Sample.extractor "20240501_100003"
           (Sample.record 1048576 2 Sample.half_second) "summary"
           "out/a_20240501_100003_summary.txt"
           [("out/a_20240501_100003_summary.txt",
             _generate_summary_report
               (Sample.record 1048576 2 Sample.half_second))]
           [(INFO, " Saved: out/a_20240501_100003_summary.txt")]
           eq_refl eq_refl).
Defined.

(** ** The two switches of the extraction *)

Section Switches.

Variable set_iter : PySet.t -> list string.

(** With the images off a page raises as with them on, and yields the
    same record less its images. *)
Lemma _extract_page_content_images_off (on off : Extractor)
    (p : exn + Fitz.Page) (page_num : Z) :
  enable_images off = false ->
  match (page <- p ;; _extract_page_content set_iter on page page_num),
        (page <- p ;; _extract_page_content set_iter off page page_num) with
  | inr (pc, _), inr (pc', _) => pc' = without_images pc
  | inl e, inl e' => e' = e
  | _, _ => False
  end.
Proof.
  intros Hoff. destruct p as [e | page]; cbn [bind]; [reflexivity|].
  unfold _extract_page_content, page_images. rewrite Hoff.
  destruct (Fitz.get_text page) as [e | t]; cbn [bind]; [reflexivity|].
  reflexivity.
Qed.

Lemma page_loop_images_off (on off : Extractor) (len_doc : Z)
    (pgs : list (exn + Fitz.Page)) :
  enable_images off = false ->
  forall (page_num : Z) (st st' : LoopState),
    same_but_images st st' ->
    same_but_images
      (fst (page_loop set_iter on len_doc pgs page_num st))
      (fst (page_loop set_iter off len_doc pgs page_num st')).
Proof.
  intros Hoff. induction pgs as [|p rest IH]; intros page_num st st' Hst;
    [exact Hst|].
  cbn [page_loop].
  pose proof (_extract_page_content_images_off on off p page_num Hoff) as Hp.
  destruct (page <- p ;; _extract_page_content set_iter on page page_num)
    as [e | [pc lg]];
    destruct (page <- p ;; _extract_page_content set_iter off page page_num)
      as [e' | [pc' lg']]; try contradiction.
  - specialize (IH (page_num + 1) st st' Hst).
    destruct (page_loop set_iter on len_doc rest (page_num + 1) st);
      destruct (page_loop set_iter off len_doc rest (page_num + 1) st').
    exact IH.
  - assert (Hadd : same_but_images (loop_add st pc) (loop_add st' pc')).
    { subst pc'. destruct Hst as (Hw & Hc & Hf & Hi & Hpg).
      unfold same_but_images, loop_add. cbn.
      rewrite Hw, Hc, Hf, Hi, Hpg, map_app. now repeat split. }
    specialize (IH (page_num + 1) _ _ Hadd).
    destruct (page_loop set_iter on len_doc rest (page_num + 1)
                (loop_add st pc));
      destruct (page_loop set_iter off len_doc rest (page_num + 1)
                  (loop_add st' pc')).
    exact IH.
Qed.

(** X20: turning the image extraction off changes nothing but the
    images: the extraction raises in the same cases with the same
    exception, and otherwise returns a record with the same pages less
    their images, the same counts of pages, words and characters, the same
    fonts and metadata, and no image counted. *)
Theorem extract_pdf_content_images_off (fs : FileSystem)
    (on off : Extractor) (clk : ExtractClock) (pdf_path : string)
    (skip_cache : bool) :
  enable_images off = false ->
  let with_images :=
    fst (fst (extract_pdf_content set_iter fs on clk pdf_path skip_cache)) in
  let without :=
    fst (fst (extract_pdf_content set_iter fs off clk pdf_path skip_cache)) in
  (forall e, with_images = inl e <-> without = inl e)
  /\ (forall r,
        with_images = inr r ->
        exists r',
          without = inr r'
          /\ pages r' = map without_images (pages r)
          /\ images_count r' = 0
          /\ page_count r' = page_count r
          /\ total_words r' = total_words r
          /\ total_chars r' = total_chars r
          /\ fonts_used r' = fonts_used r
          /\ metadata r' = metadata r
          /\ file_hash r' = file_hash r).
Proof.
  intros Hoff. cbn zeta. unfold extract_pdf_content, _calculate_file_hash.
  destruct (fs pdf_path) as [f|]; cbn [fst];
    [|split; [reflexivity|discriminate]].
  destruct (md5_hexdigest f) as [e0 | h]; cbn [fst];
    [split; [reflexivity|discriminate]|].
  destruct (fitz_open f) as [e0 | doc]; cbn [fst];
    [split; [reflexivity|discriminate]|].
  pose proof (page_loop_images_off on off
                (Z.of_nat (List.length (Fitz.load_page doc)))
                (Fitz.load_page doc) Hoff 0 loop_init loop_init
                ltac:(now repeat split)) as Hloop.
  destruct (Fitz.metadata_raw doc) as [e0 | raw];
    destruct (page_loop set_iter on _ (Fitz.load_page doc) 0 loop_init)
      as [st lg];
    destruct (page_loop set_iter off _ (Fitz.load_page doc) 0 loop_init)
      as [st' lg'];
    cbn [fst] in *; destruct Hloop as (Hw & Hc & Hf & Hi & Hpg);
    (split; [split; discriminate|]);
    intros r Hr; injection Hr as <-; eexists; (split; [reflexivity|]);
    cbn [pages images_count page_count total_words total_chars fonts_used
         metadata file_hash];
    rewrite Hw, Hc, Hf, Hi, Hpg, length_map; now repeat split.
Qed.

(** X21: [skip_cache] skips nothing: the extraction returns the same
    outcome and leaves the same extractor whether the flag is set or not;
    the flag only silences the notice logged, ahead of everything else,
    when the hash of the file is among the processed files. *)
Theorem extract_pdf_content_skip_cache (fs : FileSystem) (self : Extractor)
    (clk : ExtractClock) (pdf_path : string) :
  let quiet := extract_pdf_content set_iter fs self clk pdf_path true in
  let loud := extract_pdf_content set_iter fs self clk pdf_path false in
  fst quiet = fst loud
  /\ snd loud
     = ((if cached fs self pdf_path
         then [(INFO, (" File already processed (cached): "
                       ++ PyPath.name pdf_path)%string)]
         else []) ++ snd quiet)%list.
Proof.
  cbn zeta. unfold extract_pdf_content, _calculate_file_hash, cached.
  destruct (fs pdf_path) as [f|]; [|now split].
  destruct (md5_hexdigest f) as [e0 | h]; [now split|].
  cbn [negb andb app].
  destruct (fitz_open f) as [e0 | doc]; [now split|].
  destruct (Fitz.metadata_raw doc) as [e0 | raw];
    destruct (page_loop set_iter self _ (Fitz.load_page doc) 0 loop_init)
      as [st lg]; now split.
Qed.

End Switches.

Lemma extract_pdf_content_images_off_witness :
  let off := new_extractor "out" false in
  exists r r',
    fst (fst (extract_pdf_content Sample.insertion_order Sample.fs
                Sample.extractor Sample.clock "in/a.pdf" false)) = inr r
    /\ fst (fst (extract_pdf_content Sample.insertion_order Sample.fs
                   off Sample.clock "in/a.pdf" false)) = inr r'
    /\ images_count r = 1
    /\ pages r' = map without_images (pages r)
    /\ images_count r' = 0
    /\ total_words r' = total_words r.
Proof.
  cbn zeta.
  destruct (extract_pdf_content_images_off Sample.insertion_order Sample.fs
              Sample.extractor (new_extractor "out" false) Sample.clock
              "in/a.pdf" false eq_refl) as [_ H].
  destruct (H _ eq_refl) as (r' & Hr' & Hp & Hi & _ & Hw & _).
  eexists. exists r'. split; [reflexivity|]. split; [exact Hr'|].
  split; [reflexivity|]. split; [exact Hp|]. split; [exact Hi|exact Hw].
Defined.

Lemma extract_pdf_content_skip_cache_witness :
  let quiet := extract_pdf_content Sample.insertion_order Sample.fs
                 Sample.seasoned Sample.clock "in/a.pdf" true in
  let loud := extract_pdf_content Sample.insertion_order Sample.fs
                Sample.seasoned Sample.clock "in/a.pdf" false in
  fst quiet = fst loud
  /\ snd loud
     = (INFO, " File already processed (cached): a.pdf") :: snd quiet.
Proof.
  exact (extract_pdf_content_skip_cache Sample.insertion_order Sample.fs
           Sample.seasoned Sample.clock "in/a.pdf").
Defined.
